(** * Emotion-aware recommender: the browser client [static/js/app.js]

    A shallow embedding of the client script and the properties of its
    request building, rendering and orchestrated flows.

    - JavaScript strings are sequences of UTF-16 code units ([jstring]).
    - JavaScript numbers are IEEE 754 binary64 values ([number]), with the
      operations of [SpecFloat]; [Number_toString] is the shortest-decimal
      printing of the language.
    - JSON data is dynamically typed ([value]); property reads on [null] or
      [undefined] and calls of missing methods raise [TypeError].
    - The browser (DOM, local storage, network, random numbers) is an
      explicit [world]; every method of the client is a computation in the
      monad [M] of state, exceptions and emitted events. An [await] is a
      sequential step: one flow runs from its start to its end, and flows
      do not interleave.
    - What the script does not decide (the backend's answers, the random
      numbers, the parsing of numeric strings) is a [runtime], over which
      every property is quantified. *)

From Stdlib Require Import ZArith NArith QArith Qround List String Ascii Bool Lia.
From Stdlib Require Import Floats.SpecFloat.
From stdpp Require Import base option gmap strings.
Import ListNotations.

Local Open Scope Z_scope.
Local Open Scope list_scope.

(** ** Strings *)

(** A JavaScript string: its UTF-16 code units. *)
Definition jstring := list N.

(** Source text of the script. Every character of the script outside the two
    rating glyphs is ASCII; the double quote is written as a backquote in the
    literals below and read back as code unit 34 (the script's template
    literals contain no backquote of their own). *)
Fixpoint lit (s : string) : jstring :=
  match s with
  | EmptyString => []
  | String a s' =>
      (if Ascii.eqb a "`"%char then 34%N else N_of_ascii a) :: lit s'
  end.

Definition star_filled : N := 9733%N.  (* U+2605 *)
Definition star_empty : N := 9734%N.   (* U+2606 *)

(** ECMAScript WhiteSpace and LineTerminator code points, as stripped by
    [String.prototype.trim]. *)
Definition is_whitespace (c : N) : bool :=
  existsb (N.eqb c)
    [9; 10; 11; 12; 13; 32; 160; 5760;
     8192; 8193; 8194; 8195; 8196; 8197; 8198; 8199; 8200; 8201; 8202;
     8232; 8233; 8239; 8287; 12288; 65279]%N.

Fixpoint trim_start (s : jstring) : jstring :=
  match s with
  | [] => []
  | c :: s' => if is_whitespace c then trim_start s' else s
  end.

Definition trim (s : jstring) : jstring :=
  rev (trim_start (rev (trim_start s))).

(** [Array.prototype.join] on strings. *)
Fixpoint join (sep : jstring) (parts : list jstring) : jstring :=
  match parts with
  | [] => []
  | [p] => p
  | p :: ps => p ++ sep ++ join sep ps
  end.

(** [s.substr(start, len)] and [s.substring(0, n)] for non-negative
    arguments. *)
Definition substr (start len : nat) (s : jstring) : jstring :=
  firstn len (skipn start s).

Definition substring0 (n : nat) (s : jstring) : jstring := firstn n s.

(** ** Numbers *)

Definition number := spec_float.

Definition prec : Z := 53.
Definition emax : Z := 1024.

Definition NaN : number := S754_nan.
Definition number_of_Z (z : Z) : number := binary_normalize prec emax z 0 false.
Definition number_of_nat (n : nat) : number := number_of_Z (Z.of_nat n).

Definition num_mul : number -> number -> number := SFmul prec emax.
Definition num_sub : number -> number -> number := SFsub prec emax.
Definition num_div : number -> number -> number := SFdiv prec emax.
Definition num_ltb : number -> number -> bool := SFltb.
Definition num_eqb : number -> number -> bool := SFeqb.

(** The exact rational value of a finite number. *)
Definition number_value (x : number) : option Q :=
  match x with
  | S754_zero _ => Some 0%Q
  | S754_finite s m e =>
      let a := if s then Z.neg m else Z.pos m in
      Some (match e with
            | Z.neg k => Qmake a (2 ^ k)%positive
            | _ => Qmake (a * 2 ^ e) 1
            end)
  | _ => None
  end.

(** [Math.floor]. *)
Definition Math_floor (x : number) : number :=
  match x with
  | S754_finite s m e =>
      match e with
      | Z.neg k =>
          let q := (if s then Z.neg m else Z.pos m) / Z.pos (2 ^ k)%positive in
          if q =? 0 then S754_zero s else number_of_Z q
      | _ => x
      end
  | _ => x
  end.

(** [Math.round]: the nearest integer, ties towards positive infinity. *)
Definition Math_round (x : number) : number :=
  match x with
  | S754_finite s m e =>
      match e with
      | Z.neg k =>
          let a := if s then Z.neg m else Z.pos m in
          let q := (2 * a + Z.pos (2 ^ k)%positive) / (2 * Z.pos (2 ^ k)%positive) in
          if q =? 0 then S754_zero s else number_of_Z q
      | _ => x
      end
  | _ => x
  end.

(** ToIntegerOrInfinity: truncation towards zero; [NaN] becomes 0. *)
Inductive int_or_inf := Int (z : Z) | PosInf | NegInf.

Definition ToIntegerOrInfinity (x : number) : int_or_inf :=
  match x with
  | S754_nan => Int 0
  | S754_zero _ => Int 0
  | S754_infinity s => if s then NegInf else PosInf
  | S754_finite s m e =>
      let t := match e with
               | Z.neg k => Z.pos m / Z.pos (2 ^ k)%positive
               | _ => Z.pos m * 2 ^ e
               end in
      Int (if s then - t else t)
  end.

(** *** Number::toString (radix 10)

    The shortest decimal that reads back as the same binary64 value: the
    integers [n], [k] and [s] of the language specification, with [k] as
    small as possible and [s * 10^(n-k)] as close to the value as possible. *)

(** [cmp_scaled a q b e] compares [a * 10^q] with [b * 2^e]. *)
Definition cmp_scaled (a q b e : Z) : comparison :=
  (a * 10 ^ Z.max q 0 * 2 ^ Z.max (- e) 0 ?= b * 2 ^ Z.max e 0 * 10 ^ Z.max (- q) 0).

(** Least [n] from [from] upwards with [b * 2^e < 10^n]. *)
Fixpoint decimal_exponent (fuel : nat) (from : Z) (b e : Z) : Z :=
  match fuel with
  | O => from
  | S fuel' =>
      match cmp_scaled 1 from b e with
      | Gt => from
      | _ => decimal_exponent fuel' (from + 1) b e
      end
  end.

Record decimal := { dec_s : Z; dec_n : Z }.

(** The candidates with [k] digits for the value [m * 2^e] whose decimal
    exponent is [n0], kept when they fall in the rounding interval of the
    value. *)
Definition shortest_candidate (m e n0 k : Z) : option decimal :=
  let e' := e - 2 in
  let v := 4 * m in
  let hi := v + 2 in
  let lo := if (m =? 2 ^ 52) && (- 1074 <? e) then v - 1 else v - 2 in
  let closed := Z.even m in
  let inside (s q : Z) : bool :=
    match cmp_scaled s q lo e', cmp_scaled s q hi e' with
    | Gt, Lt => true
    | Eq, Lt => closed
    | Gt, Eq => closed
    | _, _ => false
    end in
  let q := n0 - k in
  let s0 := (v * 2 ^ Z.max e' 0 * 10 ^ Z.max (- q) 0)
            / (2 ^ Z.max (- e') 0 * 10 ^ Z.max q 0) in
  let down := {| dec_s := s0; dec_n := n0 |} in
  let up := if s0 + 1 <? 10 ^ k
            then {| dec_s := s0 + 1; dec_n := n0 |}
            else {| dec_s := 10 ^ (k - 1); dec_n := n0 + 1 |} in
  let ok d := inside (dec_s d) (dec_n d - k) in
  match ok down, ok up with
  | true, false => Some down
  | false, true => Some up
  | false, false => None
  | true, true =>
      (* both read back: the closer one, the even one on a tie *)
      match cmp_scaled (2 * s0 + 1) q (2 * v) e' with
      | Gt => Some down
      | Lt => Some up
      | Eq => Some (if Z.even s0 then down else up)
      end
  end.

Fixpoint shortest_decimal (fuel : nat) (m e n0 k : Z) : decimal * Z :=
  match fuel with
  | O => ({| dec_s := 0; dec_n := 0 |}, k)
  | S fuel' =>
      match shortest_candidate m e n0 k with
      | Some d => (d, k)
      | None => shortest_decimal fuel' m e n0 (k + 1)
      end
  end.

Definition digit_char (d : Z) : N := (48 + Z.to_N d)%N.

(** The [k] decimal digits of [s], most significant first. *)
Fixpoint digits_of (k : nat) (s : Z) : jstring :=
  match k with
  | O => []
  | S k' => digits_of k' (s / 10) ++ [digit_char (s mod 10)]
  end.

(** The decimal digits of a non-negative integer. *)
Fixpoint natural_digits (fuel : nat) (z : Z) : jstring :=
  match fuel with
  | O => []
  | S fuel' =>
      if z <? 10 then [digit_char z]
      else natural_digits fuel' (z / 10) ++ [digit_char (z mod 10)]
  end.

Definition format_decimal (s n k : Z) : jstring :=
  let ds := digits_of (Z.to_nat k) s in
  if (- 5 <=? n) && (n <=? 21) then
    if k <=? n then ds ++ repeat 48%N (Z.to_nat (n - k))
    else if 0 <? n then
      firstn (Z.to_nat n) ds ++ lit "." ++ skipn (Z.to_nat n) ds
    else lit "0." ++ repeat 48%N (Z.to_nat (- n)) ++ ds
  else
    let ex := n - 1 in
    let sign := if ex <? 0 then lit "-" else lit "+" in
    let exd := natural_digits 4 (Z.abs ex) in
    if k =? 1 then ds ++ lit "e" ++ sign ++ exd
    else firstn 1 ds ++ lit "." ++ skipn 1 ds ++ lit "e" ++ sign ++ exd.

Definition Number_toString (x : number) : jstring :=
  match x with
  | S754_nan => lit "NaN"
  | S754_zero _ => lit "0"
  | S754_infinity s => if s then lit "-Infinity" else lit "Infinity"
  | S754_finite s m e =>
      let n0 := decimal_exponent 640 (- 330) (Z.pos m) e in
      let '(d, k) := shortest_decimal 17 (Z.pos m) e n0 1 in
      (if s then lit "-" else []) ++ format_decimal (dec_s d) (dec_n d) k
  end.

(** ** Values and exceptions *)

(** JSON data as the script sees it, plus [undefined]. An object lists its
    own properties in insertion order, each key once. *)
#[warnings="-register-all"] Inductive value :=
  | VUndefined
  | VNull
  | VBool (b : bool)
  | VNum (x : number)
  | VStr (s : jstring)
  | VArr (items : list value)
  | VObj (fields : list (jstring * value)).

Inductive js_error :=
  | Error (message : jstring)      (* [new Error(message)] *)
  | TypeError
  | RangeError
  | SyntaxError
  | FetchFailure (reason : jstring). (* what a failed [fetch] rejects with *)

Inductive result (A : Type) :=
  | Ok (a : A)
  | Throw (e : js_error).
Arguments Ok {A} a.
Arguments Throw {A} e.

Definition rbind {A B} (r : result A) (k : A -> result B) : result B :=
  match r with
  | Ok a => k a
  | Throw e => Throw e
  end.

Declare Scope result_scope.
Delimit Scope result_scope with result.
Notation "'let?' x := r 'in' k" := (rbind r (fun x => k))
  (at level 10, x name, r at level 100, k at level 200) : result_scope.
Local Open Scope result_scope.

(** [rmap f l] is [l.map(f)] for a callback that may throw. *)
Fixpoint rmap {A B} (f : A -> result B) (l : list A) : result (list B) :=
  match l with
  | [] => Ok []
  | a :: l' =>
      match f a with
      | Ok b => match rmap f l' with
                | Ok bs => Ok (b :: bs)
                | Throw e => Throw e
                end
      | Throw e => Throw e
      end
  end.

Fixpoint jstring_eqb (a b : jstring) : bool :=
  match a, b with
  | [], [] => true
  | x :: a', y :: b' => N.eqb x y && jstring_eqb a' b'
  | _, _ => false
  end.

Fixpoint lookup_field (key : jstring) (fields : list (jstring * value)) : option value :=
  match fields with
  | [] => None
  | (k, v) :: fields' => if jstring_eqb k key then Some v else lookup_field key fields'
  end.

(** ToBoolean. *)
Definition truthy (v : value) : bool :=
  match v with
  | VUndefined | VNull => false
  | VBool b => b
  | VNum (S754_zero _) | VNum S754_nan => false
  | VNum _ => true
  | VStr [] => false
  | VStr _ => true
  | VArr _ | VObj _ => true
  end.

(** [a || b]. *)
Definition or_else (a b : value) : value := if truthy a then a else b.

(** The results of a list of evaluations, up to the first that throws. *)
Fixpoint all_ok {A} (l : list (result A)) : result (list A) :=
  match l with
  | [] => Ok []
  | r :: l' =>
      match r with
      | Ok a => match all_ok l' with
                | Ok rest => Ok (a :: rest)
                | Throw e => Throw e
                end
      | Throw e => Throw e
      end
  end.

(** ToString, as applied by template literals. The objects of the script
    are parsed from JSON: a property of their own named [toString] hides
    [Object.prototype.toString] and is no function, and neither is an own
    [valueOf], so that the conversion throws a TypeError; every other object
    prints as [[object Object]]. An array prints its elements, [null] and
    [undefined] as nothing, and throws where an element does. *)
Fixpoint ToString (v : value) : result jstring :=
  match v with
  | VUndefined => Ok (lit "undefined")
  | VNull => Ok (lit "null")
  | VBool b => Ok (if b then lit "true" else lit "false")
  | VNum x => Ok (Number_toString x)
  | VStr s => Ok s
  | VArr items =>
      let? texts := all_ok (map (fun x => match x with
                                          | VUndefined | VNull => Ok []
                                          | _ => ToString x
                                          end) items) in
      Ok (join (lit ",") texts)
  | VObj fields =>
      match lookup_field (lit "toString") fields with
      | Some _ => Throw TypeError
      | None => Ok (lit "[object Object]")
      end
  end.

(** The text of one element in [Array.prototype.join]. *)
Definition element_text (x : value) : result jstring :=
  match x with
  | VUndefined | VNull => Ok []
  | _ => ToString x
  end.

(** Reading a data property [v.key]. The script reads only named data
    properties, none of which exists on a prototype; [length] is the one
    built-in property it reads. *)
Definition get_prop (v : value) (key : jstring) : result value :=
  match v with
  | VUndefined | VNull => Throw TypeError
  | VObj fields =>
      Ok (match lookup_field key fields with Some x => x | None => VUndefined end)
  | VArr items =>
      Ok (if jstring_eqb key (lit "length")
          then VNum (number_of_nat (length items)) else VUndefined)
  | VStr s =>
      Ok (if jstring_eqb key (lit "length")
          then VNum (number_of_nat (length s)) else VUndefined)
  | VBool _ | VNum _ => Ok VUndefined
  end.

(** [v.map(f)]: only arrays have the method. *)
Definition call_map {B} (v : value) (f : value -> result B) : result (list B) :=
  match v with
  | VArr items => rmap f items
  | _ => Throw TypeError
  end.

(** [v.join(sep)]. *)
Definition call_join (v : value) (sep : jstring) : result jstring :=
  match v with
  | VArr items =>
      let? texts := rmap element_text items in
      Ok (join sep texts)
  | _ => Throw TypeError
  end.

(** A template hole [${v.key}]: the property is read and printed. *)
Definition print_prop (v : value) (key : jstring) : result jstring :=
  let? x := get_prop v key in
  ToString x.

(** [v.substring(0, n)]: only strings have the method. *)
Definition call_substring0 (v : value) (n : nat) : result jstring :=
  match v with
  | VStr s => Ok (substring0 n s)
  | _ => Throw TypeError
  end.

(** [v.slice(0, n).map(f)]: a string has [slice] but its result has no
    [map]. *)
Definition call_slice0_map {B} (v : value) (n : nat) (f : value -> result B)
  : result (list B) :=
  match v with
  | VArr items => rmap f (firstn n items)
  | _ => Throw TypeError
  end.

(** [glyph.repeat(count)]: RangeError on a negative or infinite count, and
    past the longest string of the language (engines stop earlier). *)
Definition repeat_glyph (glyph : N) (count : number) : result jstring :=
  match ToIntegerOrInfinity count with
  | Int z => if (z <? 0) || (2 ^ 53 - 1 <? z) then Throw RangeError
             else Ok (repeat glyph (Z.to_nat z))
  | _ => Throw RangeError
  end.

(** *** JSON.stringify *)

Definition hex_digit (d : N) : N :=
  if (d <? 10)%N then (48 + d)%N else (87 + d)%N.

Definition unicode_escape (c : N) : jstring :=
  lit "\u" ++ [hex_digit (c / 4096 mod 16); hex_digit (c / 256 mod 16);
               hex_digit (c / 16 mod 16); hex_digit (c mod 16)]%N.

Definition is_high_surrogate (c : N) : bool := (55296 <=? c)%N && (c <=? 56319)%N.
Definition is_low_surrogate (c : N) : bool := (56320 <=? c)%N && (c <=? 57343)%N.

Definition escape_unit (c : N) : jstring :=
  if (c =? 8)%N then lit "\b"
  else if (c =? 9)%N then lit "\t"
  else if (c =? 10)%N then lit "\n"
  else if (c =? 12)%N then lit "\f"
  else if (c =? 13)%N then lit "\r"
  else if (c =? 34)%N then lit "\`"
  else if (c =? 92)%N then lit "\\"
  else if (c <? 32)%N then unicode_escape c
  else [c].

Fixpoint quote_units (s : jstring) : jstring :=
  match s with
  | [] => []
  | c :: s' =>
      if is_high_surrogate c then
        match s' with
        | d :: s'' =>
            if is_low_surrogate d then c :: d :: quote_units s''
            else unicode_escape c ++ quote_units s'
        | [] => unicode_escape c
        end
      else if is_low_surrogate c then unicode_escape c ++ quote_units s'
      else escape_unit c ++ quote_units s'
  end.

(** QuoteJSONString. *)
Definition quote (s : jstring) : jstring := lit "`" ++ quote_units s ++ lit "`".

Definition is_finite (x : number) : bool :=
  match x with
  | S754_zero _ | S754_finite _ _ _ => true
  | _ => false
  end.

(** [JSON.stringify(v)]; [None] is the result [undefined]. A property whose
    value is [undefined] is left out of an object and becomes [null] in an
    array. *)
Fixpoint JSON_stringify (v : value) : option jstring :=
  match v with
  | VUndefined => None
  | VNull => Some (lit "null")
  | VBool b => Some (if b then lit "true" else lit "false")
  | VNum x => Some (if is_finite x then Number_toString x else lit "null")
  | VStr s => Some (quote s)
  | VArr items =>
      Some (lit "[" ++
            join (lit ",")
              (map (fun x => match JSON_stringify x with
                             | Some t => t
                             | None => lit "null"
                             end) items) ++
            lit "]")
  | VObj fields =>
      let fix members (fs : list (jstring * value)) : list jstring :=
        match fs with
        | [] => []
        | (k, x) :: fs' =>
            match JSON_stringify x with
            | Some t => (quote k ++ lit ":" ++ t) :: members fs'
            | None => members fs'
            end
        end in
      Some (lit "{" ++ join (lit ",") (members fields) ++ lit "}")
  end.

(** ** The browser *)

(** What an element shows: markup assigned through [innerHTML] or text
    assigned through [textContent]. *)
Inductive content :=
  | Markup (html : jstring)
  | Text (text : jstring).

Record element := {
  el_value : jstring;      (* [value] of an input *)
  el_content : content;
  el_disabled : bool;
  el_display : jstring     (* [style.display] *)
}.

Record request := {
  req_url : jstring;
  req_method : option jstring;
  req_headers : list (jstring * jstring);
  req_body : option jstring
}.

(** What [fetch] settles with: a rejection, or a response with its status
    and its body as parsed by [response.json()] ([None]: not JSON). *)
Inductive fetch_outcome :=
  | FetchRejected (e : js_error)
  | HttpResponse (status : Z) (body : option value).

(** What a run of the script does to the outside, in the order it happens. *)
Inductive event :=
  | EvFetch (r : request) (o : fetch_outcome)
  | EvConsoleError (label : jstring) (e : js_error)
  | EvAlert (message : jstring)
  | EvStorageSet (key : string) (v : jstring)
  | EvRandom (digits : jstring)
  | EvModalShow (id : string)
  | EvScrollIntoView (id : string).

(** The fields of the [EmotionAwareRecommender] instance [app]. *)
Record app_state := {
  userId : jstring;
  apiBase : jstring;
  currentEmotion : value
}.

(** Elements are keyed by their id; the descendant found by
    [el.querySelector(sel)] is keyed by the id of [el], a space and [sel].
    [fetches] and [randoms] count the requests issued and the random numbers
    drawn so far. *)
Record world := {
  localStorage : gmap string jstring;
  document : gmap string element;
  app : app_state;
  fetches : nat;
  randoms : nat
}.

(** What the script does not decide: the parsing of numeric strings, the
    backend's answer to the [n]-th request, and the base-36 rendering of the
    [n]-th [Math.random()]. *)
Record runtime := {
  StringToNumber : jstring -> number;
  server : nat -> request -> fetch_outcome;
  random36 : nat -> jstring
}.

Definition is_fetch (e : event) : bool :=
  match e with EvFetch _ _ => true | _ => false end.
Definition is_alert (e : event) : bool :=
  match e with EvAlert _ => true | _ => false end.
Definition is_console_error (e : event) : bool :=
  match e with EvConsoleError _ _ => true | _ => false end.
Definition is_random (e : event) : bool :=
  match e with EvRandom _ => true | _ => false end.
Definition is_storage_set (e : event) : bool :=
  match e with EvStorageSet _ _ => true | _ => false end.

Definition count (p : event -> bool) (l : list event) : nat :=
  length (List.filter p l).

(** ** The monad of the script: state, exceptions and emitted events *)

Record run (A : Type) := Run {
  result_of : result A;
  world_of : world;
  events_of : list event
}.
Arguments Run {A} _ _ _.
Arguments result_of {A} _.
Arguments world_of {A} _.
Arguments events_of {A} _.

Definition M (A : Type) : Type := world -> run A.

Definition ret {A} (a : A) : M A := fun w => Run (Ok a) w [].
Definition throw {A} (e : js_error) : M A := fun w => Run (Throw e) w [].

Definition bind {A B} (m : M A) (k : A -> M B) : M B :=
  fun w => match m w with
           | Run (Ok a) w1 ev1 =>
               match k a w1 with
               | Run r w2 ev2 => Run r w2 (ev1 ++ ev2)
               end
           | Run (Throw e) w1 ev1 => Run (Throw e) w1 ev1
           end.

Declare Scope js_scope.
Delimit Scope js_scope with js.
Notation "'let!' x := m 'in' k" := (bind m (fun x => k))
  (at level 10, x name, m at level 100, k at level 200) : js_scope.

(** A pure computation that may throw. *)
Definition lift {A} (r : result A) : M A := fun w => Run r w [].

(** [try { m } catch (e) { h e }]. *)
Definition try_catch {A} (m : M A) (h : js_error -> M A) : M A :=
  fun w => match m w with
           | Run (Ok a) w1 ev1 => Run (Ok a) w1 ev1
           | Run (Throw e) w1 ev1 =>
               match h e w1 with
               | Run r w2 ev2 => Run r w2 (ev1 ++ ev2)
               end
           end.

(** [try { m } catch (e) { h e } finally { f }]. *)
Definition try_catch_finally {A} (m : M A) (h : js_error -> M A) (f : M unit) : M A :=
  fun w => match try_catch m h w with
           | Run r w1 ev1 =>
               match f w1 with
               | Run (Ok _) w2 ev2 => Run r w2 (ev1 ++ ev2)
               | Run (Throw e) w2 ev2 => Run (Throw e) w2 (ev1 ++ ev2)
               end
           end.

Definition emit (e : event) : M unit := fun w => Run (Ok tt) w [e].

Definition console_error (label : jstring) (e : js_error) : M unit :=
  emit (EvConsoleError label e).

Definition alert (message : jstring) : M unit := emit (EvAlert message).

Definition get_app : M app_state := fun w => Run (Ok (app w)) w [].

Definition set_app (a : app_state) : M unit :=
  fun w => Run (Ok tt)
             {| localStorage := localStorage w; document := document w; app := a;
                fetches := fetches w; randoms := randoms w |} [].

Definition set_document (d : gmap string element) : M unit :=
  fun w => Run (Ok tt)
             {| localStorage := localStorage w; document := d; app := app w;
                fetches := fetches w; randoms := randoms w |} [].

(** *** Local storage *)

Definition localStorage_getItem (key : string) : M (option jstring) :=
  fun w => Run (Ok (localStorage w !! key)) w [].

Definition localStorage_setItem (key : string) (v : jstring) : M unit :=
  fun w => Run (Ok tt)
             {| localStorage := <[key := v]> (localStorage w);
                document := document w; app := app w;
                fetches := fetches w; randoms := randoms w |}
             [EvStorageSet key v].

(** *** The document *)

(** [document.getElementById(id)]: a handle, or [None] for [null]. *)
Definition getElementById (id : string) : M (option string) :=
  fun w => Run (Ok (match document w !! id with
                    | Some _ => Some id
                    | None => None
                    end)) w [].

(** [el.querySelector(sel)]. *)
Definition querySelector (el : option string) (sel : string) : M (option string) :=
  match el with
  | None => throw TypeError
  | Some id =>
      fun w => let key := (id +:+ " " +:+ sel)%string in
               Run (Ok (match document w !! key with
                        | Some _ => Some key
                        | None => None
                        end)) w []
  end.

(** Reading and writing a property of an element; [TypeError] on [null]. *)
Definition read_element {A} (el : option string) (f : element -> A) : M A :=
  match el with
  | None => throw TypeError
  | Some id => fun w => match document w !! id with
                        | Some e => Run (Ok (f e)) w []
                        | None => Run (Throw TypeError) w []
                        end
  end.

Definition write_element (el : option string) (f : element -> element) : M unit :=
  match el with
  | None => throw TypeError
  | Some id => fun w => set_document (alter f id (document w)) w
  end.

Definition with_disabled (b : bool) (e : element) : element :=
  {| el_value := el_value e; el_content := el_content e;
     el_disabled := b; el_display := el_display e |}.

Definition with_content (c : content) (e : element) : element :=
  {| el_value := el_value e; el_content := c;
     el_disabled := el_disabled e; el_display := el_display e |}.

Definition with_display (d : jstring) (e : element) : element :=
  {| el_value := el_value e; el_content := el_content e;
     el_disabled := el_disabled e; el_display := d |}.

Definition set_disabled (el : option string) (b : bool) : M unit :=
  write_element el (with_disabled b).

Definition set_innerHTML (el : option string) (html : jstring) : M unit :=
  write_element el (with_content (Markup html)).

(** [el.textContent = v]: [null] and [undefined] clear the text, any other
    value is printed, which throws for a value that does not print. *)
Definition set_textContent (el : option string) (v : value) : M unit :=
  bind (lift (match v with
              | VUndefined | VNull => Ok []
              | _ => ToString v
              end))
       (fun text => write_element el (with_content (Text text))).

Definition set_display (el : option string) (d : jstring) : M unit :=
  write_element el (with_display d).

Definition scrollIntoView (el : option string) : M unit :=
  match el with
  | None => throw TypeError
  | Some id => emit (EvScrollIntoView id)
  end.

(** [new bootstrap.Modal(el).show()]. *)
Definition show_modal (el : option string) : M unit :=
  match el with
  | None => throw TypeError
  | Some id => emit (EvModalShow id)
  end.

(** ** The client: [class EmotionAwareRecommender] *)

Local Open Scope js_scope.
Local Open Scope result_scope.

(** A parameter with a default value: the default replaces [undefined]. *)
Definition default_param (v d : value) : value :=
  match v with
  | VUndefined => d
  | _ => v
  end.

(** The second argument of [fetch] as the methods build it. *)
Record options := {
  opt_method : option jstring;
  opt_body : option jstring
}.

Definition no_options : options := {| opt_method := None; opt_body := None |}.

Definition post (body : value) : options :=
  {| opt_method := Some (lit "POST"); opt_body := JSON_stringify body |}.

Definition response_ok (status : Z) : bool := (200 <=? status) && (status <=? 299).

Section Client.

Variable rt : runtime.

(** ToNumber. An object that prints is not a number; one that does not
    print throws here as well. *)
Definition ToNumber (v : value) : result number :=
  match v with
  | VUndefined => Ok NaN
  | VNull => Ok (number_of_Z 0)
  | VBool b => Ok (number_of_Z (if b then 1 else 0))
  | VNum x => Ok x
  | VStr s => Ok (StringToNumber rt s)
  | VArr _ =>
      let? text := ToString v in
      Ok (StringToNumber rt text)
  | VObj _ =>
      let? _ := ToString v in
      Ok NaN
  end.

(** [Math.round(v * 100)] inside a template literal. *)
Definition percent (v : value) : result jstring :=
  let? x := ToNumber v in
  Ok (Number_toString (Math_round (num_mul x (number_of_Z 100)))).

(** [Math.random().toString(36)]. *)
Definition Math_random_toString36 : M jstring :=
  fun w => let digits := random36 rt (randoms w) in
           Run (Ok digits)
             {| localStorage := localStorage w; document := document w; app := app w;
                fetches := fetches w; randoms := S (randoms w) |}
             [EvRandom digits].

Definition generateUserId : M jstring :=
  let! digits := Math_random_toString36 in
  let userId := lit "user_" ++ substr 2 16 digits in
  let! _ := localStorage_setItem "userId" userId in
  ret userId.

Definition constructor : M unit :=
  let! stored := localStorage_getItem "userId" in
  let! userId := match stored with
                 | Some (c :: s) => ret (c :: s)
                 | Some [] | None => generateUserId
                 end in
  set_app {| userId := userId; apiBase := lit "/api"; currentEmotion := VNull |}.

Definition set_currentEmotion (v : value) : M unit :=
  let! a := get_app in
  set_app {| userId := userId a; apiBase := apiBase a; currentEmotion := v |}.

(** [fetch(url, init)]: the backend answers the request; a response of any
    status resolves, a failed transport rejects. *)
Definition fetch (r : request) : M (Z * option value) :=
  fun w => let o := server rt (fetches w) r in
           let w' := {| localStorage := localStorage w; document := document w;
                        app := app w; fetches := S (fetches w);
                        randoms := randoms w |} in
           match o with
           | FetchRejected e => Run (Throw e) w' [EvFetch r o]
           | HttpResponse status body => Run (Ok (status, body)) w' [EvFetch r o]
           end.

Definition makeRequest (endpoint : jstring) (opts : options) : M value :=
  try_catch
    (let! a := get_app in
     let! response := fetch {| req_url := apiBase a ++ endpoint;
                               req_method := opt_method opts;
                               req_headers := [(lit "Content-Type", lit "application/json")];
                               req_body := opt_body opts |} in
     if negb (response_ok (fst response)) then
       throw (Error (lit "HTTP error! status: " ++
                     Number_toString (number_of_Z (fst response))))
     else
       match snd response with
       | Some json => ret json
       | None => throw SyntaxError
       end)
    (fun error =>
       let! _ := console_error (lit "API request failed:") error in
       throw error).

Definition analyzeMood (text : jstring) : M value :=
  makeRequest (lit "/analyze-sentiment") (post (VObj [(lit "text", VStr text)])).

Definition getRecommendations (context : value) : M value :=
  let context := default_param context (VObj []) in
  let! a := get_app in
  makeRequest (lit "/recommendations")
    (post (VObj [(lit "user_id", VStr (userId a));
                 (lit "context", context);
                 (lit "limit", VNum (number_of_Z 8))])).

Definition searchProducts (query : jstring) (emotionContext : value) : M value :=
  let emotionContext := default_param emotionContext VNull in
  makeRequest (lit "/search")
    (post (VObj [(lit "query", VStr query);
                 (lit "emotion_context", emotionContext);
                 (lit "limit", VNum (number_of_Z 10))])).

Definition getAllProducts : M value :=
  makeRequest (lit "/products") no_options.

Definition trackInteraction (productId action : jstring) (emotion : value) : M value :=
  let emotion := default_param emotion VNull in
  let! a := get_app in
  makeRequest (lit "/track-interaction")
    (post (VObj [(lit "user_id", VStr (userId a));
                 (lit "product_id", VStr productId);
                 (lit "action", VStr action);
                 (lit "emotion", emotion)])).

Definition getSimilarProducts (productId : jstring) : M value :=
  makeRequest (lit "/similar-products/" ++ productId) no_options.

(** *** Rendering *)

Definition renderEmotionIndicators (emotions : value) : result jstring :=
  let? spans := call_map emotions (fun emotion =>
    let? emotion := ToString emotion in
    Ok (
      lit "<span class=`emotion-indicator emotion-" ++
      emotion ++
      lit "`>" ++
      emotion ++
      lit "</span>")) in
  Ok (join [] spans).

Definition card_class (confidence_score : value) : jstring :=
  if truthy confidence_score then lit "recommendation-card" else [].

Definition confidence_badge (confidence_score : value) : result jstring :=
  if truthy confidence_score then
    let? matched := percent confidence_score in
    Ok (
    lit "<div class=`confidence-score`>" ++
    matched ++
    lit "% match</div>")
  else Ok [].

Definition explanation_block (explanation : value) : result jstring :=
  if truthy explanation then
    let? explanation := ToString explanation in
    Ok (
    lit "
                            <div class=`alert alert-light p-2 mb-3`>
                                <small><i class=`bi bi-lightbulb text-warning`></i> " ++
    explanation ++
    lit "</small>
                            </div>
                        ")
  else Ok [].

(** The two runs of rating glyphs: [Math.floor(rating)] filled ones and
    [5 - Math.floor(rating)] empty ones. *)
Definition rating_filled (rating : value) : result jstring :=
  let? x := ToNumber rating in
  repeat_glyph star_filled (Math_floor x).

Definition rating_empty (rating : value) : result jstring :=
  let? x := ToNumber rating in
  repeat_glyph star_empty (num_sub (number_of_Z 5) (Math_floor x)).

(** The holes of the template are evaluated and printed from first to
    last. *)
Definition renderProductCard (product extraInfo : value) : result jstring :=
  let extraInfo := default_param extraInfo (VObj []) in
  let? confidence_score := get_prop extraInfo (lit "confidence_score") in
  let? explanation := get_prop extraInfo (lit "explanation") in
  let? recommendation_reason := get_prop extraInfo (lit "recommendation_reason") in
  let? badge := confidence_badge confidence_score in
  let? name := print_prop product (lit "name") in
  let? description := print_prop product (lit "description") in
  let? category := print_prop product (lit "category") in
  let? price := print_prop product (lit "price") in
  let? rating := get_prop product (lit "rating") in
  let? filled := rating_filled rating in
  let? empty := rating_empty rating in
  let? rating := ToString rating in
  let? emotion_tags := get_prop product (lit "emotion_tags") in
  let? indicators := renderEmotionIndicators (or_else emotion_tags (VArr [])) in
  let? explained := explanation_block explanation in
  let? product_id := print_prop product (lit "product_id") in
  Ok (lit "
            <div class=`col-md-6 col-lg-4 mb-4`>
                <div class=`card product-card h-100 " ++
      card_class confidence_score ++
      lit "`>
                    " ++
      badge ++
      lit "
                    <div class=`card-body`>
                        <h5 class=`card-title`>" ++
      name ++
      lit "</h5>
                        <p class=`card-text text-muted`>" ++
      description ++
      lit "</p>
                        
                        <div class=`mb-2`>
                            <small class=`text-muted`>Category: " ++
      category ++
      lit "</small><br>
                            <strong class=`text-success`>$" ++
      price ++
      lit "</strong>
                            <span class=`text-warning ms-2`>
                                " ++
      filled ++
      empty ++
      lit "
                                " ++
      rating ++
      lit "
                            </span>
                        </div>
                        
                        <div class=`mb-3`>
                            " ++
      indicators ++
      lit "
                        </div>
                        
                        " ++
      explained ++
      lit "
                        
                        <div class=`d-flex gap-2 mt-auto`>
                            <button class=`btn btn-primary btn-sm flex-fill` onclick=`app.viewProduct('" ++
      product_id ++
      lit "')`>
                                <i class=`bi bi-eye`></i> View
                            </button>
                            <button class=`btn btn-outline-success btn-sm` onclick=`app.trackInteraction('" ++
      product_id ++
      lit "', 'like')`>
                                <i class=`bi bi-heart`></i>
                            </button>
                            <button class=`btn btn-outline-primary btn-sm` onclick=`app.trackInteraction('" ++
      product_id ++
      lit "', 'add_to_cart')`>
                                <i class=`bi bi-cart-plus`></i>
                            </button>
                        </div>
                    </div>
                </div>
            </div>
        ").

(** The sub-card of one similar product in the detail view. *)
Definition renderSimilarCard (item : value) : result jstring :=
  let? product := get_prop item (lit "product") in
  let? name := print_prop product (lit "name") in
  let? description := get_prop product (lit "description") in
  let? summary := call_substring0 description 100 in
  let? price := print_prop product (lit "price") in
  let? similarity_score := get_prop item (lit "similarity_score") in
  let? similar := percent similarity_score in
  let? product_id := print_prop product (lit "product_id") in
  Ok (lit "
                                <div class=`col-md-4 mb-3`>
                                    <div class=`card`>
                                        <div class=`card-body p-3`>
                                            <h6 class=`card-title`>" ++
      name ++
      lit "</h6>
                                            <p class=`card-text small`>" ++
      summary ++
      lit "...</p>
                                            <div class=`d-flex justify-content-between align-items-center`>
                                                <strong class=`text-success`>$" ++
      price ++
      lit "</strong>
                                                <span class=`similarity-score`>" ++
      similar ++
      lit "% similar</span>
                                            </div>
                                            <button class=`btn btn-sm btn-outline-primary mt-2` onclick=`app.viewProduct('" ++
      product_id ++
      lit "')`>
                                                View
                                            </button>
                                        </div>
                                    </div>
                                </div>
                            ").

(** The markup assigned to the body of the detail view. *)
Definition renderModalBody (product similarProducts : value) : result jstring :=
  let? image_url := get_prop product (lit "image_url") in
  let? image := ToString (or_else image_url (VStr (lit "/static/images/placeholder.jpg"))) in
  let? name := print_prop product (lit "name") in
  let? description := print_prop product (lit "description") in
  let? price := print_prop product (lit "price") in
  let? rating := get_prop product (lit "rating") in
  let? filled := rating_filled rating in
  let? empty := rating_empty rating in
  let? rating := ToString rating in
  let? emotion_tags := get_prop product (lit "emotion_tags") in
  let? indicators := renderEmotionIndicators (or_else emotion_tags (VArr [])) in
  let? brand := print_prop product (lit "brand") in
  let? category := print_prop product (lit "category") in
  let? features := get_prop product (lit "features") in
  let? features_block :=
    if truthy features then
      let? joined := call_join features (lit ", ") in
      Ok (lit "<p><strong>Features:</strong> " ++
        joined ++
        lit "</p>")
    else Ok [] in
  let? count := get_prop similarProducts (lit "length") in
  let? count := ToNumber count in
  let? similar_block :=
    if num_ltb (number_of_Z 0) count then
      let? cards := call_slice0_map similarProducts 3 renderSimilarCard in
      Ok (lit "
                        <hr class=`my-4`>
                        <h5><i class=`bi bi-heart-fill text-danger`></i> You might also like</h5>
                        <div class=`row`>
                            " ++
        join [] cards ++
        lit "
                        </div>
                    ")
    else Ok [] in
  Ok (lit "
                    <div class=`row`>
                        <div class=`col-md-6`>
                            <img src=`" ++
      image ++
      lit "` 
                                 class=`img-fluid rounded` alt=`" ++
      name ++
      lit "`>
                        </div>
                        <div class=`col-md-6`>
                            <h4>" ++
      name ++
      lit "</h4>
                            <p class=`text-muted`>" ++
      description ++
      lit "</p>
                            <h5 class=`text-success`>$" ++
      price ++
      lit "</h5>
                            <p>
                                <span class=`text-warning`>
                                    " ++
      filled ++
      empty ++
      lit "
                                    " ++
      rating ++
      lit "
                                </span>
                            </p>
                            <div class=`mb-3`>
                                " ++
      indicators ++
      lit "
                            </div>
                            <p><strong>Brand:</strong> " ++
      brand ++
      lit "</p>
                            <p><strong>Category:</strong> " ++
      category ++
      lit "</p>
                            " ++
      features_block ++
      lit "
                        </div>
                    </div>
                    
                    " ++
      similar_block ++
      lit "
                ").

Definition viewProduct (productId : jstring) : M unit :=
  try_catch
    (let! a := get_app in
     let! _ := trackInteraction productId (lit "view") (currentEmotion a) in
     let! similarResponse := getSimilarProducts productId in
     let! success := lift (get_prop similarResponse (lit "success")) in
     if truthy success then
       let! product := lift (get_prop similarResponse (lit "target_product")) in
       let! similarProducts := lift (get_prop similarResponse (lit "similar_products")) in
       let! modal := getElementById "productModal" in
       let! modalTitle := querySelector modal ".modal-title" in
       let! modalBody := querySelector modal ".modal-body" in
       let! name := lift (get_prop product (lit "name")) in
       let! _ := set_textContent modalTitle name in
       let! body := lift (renderModalBody product similarProducts) in
       let! _ := set_innerHTML modalBody body in
       show_modal modal
     else ret tt)
    (fun error =>
       let! _ := console_error (lit "Error viewing product:") error in
       alert (lit "Error loading product details. Please try again.")).

(** *** The flows behind the page's controls *)

Definition renderSentiment (sentiment : value) : result jstring :=
  let? primary_emotion := print_prop sentiment (lit "primary_emotion") in
  let? mood_category := print_prop sentiment (lit "mood_category") in
  let? emotion_intensity := print_prop sentiment (lit "emotion_intensity") in
  let? shopping_motivation := print_prop sentiment (lit "shopping_motivation") in
  Ok (lit "
                <h5><i class=`bi bi-emoji-smile`></i> We understand you're feeling: " ++
      primary_emotion ++
      lit "</h5>
                <p>Mood: " ++
      mood_category ++
      lit " | Intensity: " ++
      emotion_intensity ++
      lit "/10</p>
                <p><small>Shopping motivation: " ++
      shopping_motivation ++
      lit "</small></p>
            ").

(** The callback of [recommendations.map]. *)
Definition renderRecommendation (rec : value) : result jstring :=
  let? product := get_prop rec (lit "product") in
  let? confidence_score := get_prop rec (lit "confidence_score") in
  let? explanation := get_prop rec (lit "explanation") in
  let? recommendation_reason := get_prop rec (lit "recommendation_reason") in
  renderProductCard product
    (VObj [(lit "confidence_score", confidence_score);
           (lit "explanation", explanation);
           (lit "recommendation_reason", recommendation_reason)]).

Definition analyze_label : jstring :=
  lit "<span class=`spinner-border spinner-border-sm`></span> Analyzing...".
Definition analyze_default_label : jstring :=
  lit "<i class=`bi bi-magic`></i> Get Personalized Recommendations".

Definition analyzeMoodAndRecommend : M unit :=
  let! moodInput := getElementById "moodInput" in
  let! value := read_element moodInput el_value in
  let moodText := trim value in
  match moodText with
  | [] => alert (lit "Please tell us how you're feeling first!")
  | _ :: _ =>
    let! analyzeBtn := getElementById "analyzeMoodBtn" in
    let! _ := set_disabled analyzeBtn true in
    let! _ := set_innerHTML analyzeBtn analyze_label in
    try_catch_finally
      (let! sentimentResponse := analyzeMood moodText in
       let! success := lift (get_prop sentimentResponse (lit "success")) in
       if truthy success then
         let! sentiment := lift (get_prop sentimentResponse (lit "sentiment")) in
         let! primary_emotion := lift (get_prop sentiment (lit "primary_emotion")) in
         let! _ := set_currentEmotion primary_emotion in
         let! sentimentDiv := getElementById "sentimentAnalysis" in
         let! summary := lift (renderSentiment sentiment) in
         let! _ := set_innerHTML sentimentDiv summary in
         let! mood_category := lift (get_prop sentiment (lit "mood_category")) in
         let! recommendationsResponse :=
           getRecommendations (VObj [(lit "mood", primary_emotion);
                                     (lit "mood_category", mood_category);
                                     (lit "user_input", VStr moodText)]) in
         let! success := lift (get_prop recommendationsResponse (lit "success")) in
         if truthy success then
           let! recommendations :=
             lift (get_prop recommendationsResponse (lit "recommendations")) in
           let! recommendationsList := getElementById "recommendationsList" in
           let! cards := lift (call_map recommendations renderRecommendation) in
           let! _ := set_innerHTML recommendationsList (join [] cards) in
           let! section := getElementById "recommendationsSection" in
           let! _ := set_display section (lit "block") in
           let! section := getElementById "recommendationsSection" in
           scrollIntoView section
         else ret tt
       else ret tt)
      (fun error =>
         let! _ := console_error (lit "Error:") error in
         alert (lit "Sorry, something went wrong. Please try again."))
      (let! _ := set_disabled analyzeBtn false in
       set_innerHTML analyzeBtn analyze_default_label)
  end.

(** The callback of [results.map]. *)
Definition renderSearchResult (item : value) : result jstring :=
  let? product := get_prop item (lit "product") in
  let? name := print_prop product (lit "name") in
  let? similarity_score := get_prop item (lit "similarity_score") in
  let? matched := percent similarity_score in
  let? description := print_prop product (lit "description") in
  let? price := print_prop product (lit "price") in
  let? emotion_tags := get_prop product (lit "emotion_tags") in
  let? indicators := renderEmotionIndicators (or_else emotion_tags (VArr [])) in
  let? explanation := print_prop item (lit "explanation") in
  let? product_id := print_prop product (lit "product_id") in
  Ok (lit "
                        <div class=`search-result-item`>
                            <div class=`row`>
                                <div class=`col-md-8`>
                                    <h6>" ++
      name ++
      lit " 
                                        <span class=`similarity-score`>" ++
      matched ++
      lit "% match</span>
                                    </h6>
                                    <p class=`text-muted mb-2`>" ++
      description ++
      lit "</p>
                                    <p class=`mb-1`><strong class=`text-success`>$" ++
      price ++
      lit "</strong></p>
                                    <div class=`mb-2`>
                                        " ++
      indicators ++
      lit "
                                    </div>
                                    <div class=`alert alert-light p-2`>
                                        <small><i class=`bi bi-lightbulb text-warning`></i> " ++
      explanation ++
      lit "</small>
                                    </div>
                                </div>
                                <div class=`col-md-4 text-end`>
                                    <div class=`btn-group-vertical`>
                                        <button class=`btn btn-primary btn-sm` onclick=`app.viewProduct('" ++
      product_id ++
      lit "')`>
                                            <i class=`bi bi-eye`></i> View Details
                                        </button>
                                        <button class=`btn btn-outline-success btn-sm` onclick=`app.trackInteraction('" ++
      product_id ++
      lit "', 'like')`>
                                            <i class=`bi bi-heart`></i> Like
                                        </button>
                                    </div>
                                </div>
                            </div>
                        </div>
                    ").

(** [results.length === 0]. *)
Definition is_zero (v : value) : bool :=
  match v with
  | VNum x => num_eqb x (number_of_Z 0)
  | _ => false
  end.

Definition renderSearchResults (query : jstring) (results : value) : result jstring :=
  let? count := get_prop results (lit "length") in
  if is_zero count then
    Ok (lit "<p class=`text-muted`>No products found matching your search.</p>")
  else
    let? rows := call_map results renderSearchResult in
    Ok (lit "
                    <h5>Search Results for `" ++
      query ++
      lit "`</h5>
                    " ++
      join [] rows ++
      lit "
                ").

Definition search_label : jstring :=
  lit "<span class=`spinner-border spinner-border-sm`></span>".
Definition search_default_label : jstring :=
  lit "<i class=`bi bi-search`></i> Search".

Definition performSearch : M unit :=
  let! searchInput := getElementById "searchInput" in
  let! value := read_element searchInput el_value in
  let query := trim value in
  match query with
  | [] => alert (lit "Please enter a search query!")
  | _ :: _ =>
    let! searchBtn := getElementById "searchBtn" in
    let! _ := set_disabled searchBtn true in
    let! _ := set_innerHTML searchBtn search_label in
    try_catch_finally
      (let! a := get_app in
       let! searchResponse := searchProducts query (currentEmotion a) in
       let! success := lift (get_prop searchResponse (lit "success")) in
       if truthy success then
         let! results := lift (get_prop searchResponse (lit "results")) in
         let! searchResults := getElementById "searchResults" in
         let! html := lift (renderSearchResults query results) in
         set_innerHTML searchResults html
       else ret tt)
      (fun error =>
         let! _ := console_error (lit "Search error:") error in
         alert (lit "Search failed. Please try again."))
      (let! _ := set_disabled searchBtn false in
       set_innerHTML searchBtn search_default_label)
  end.

Definition loadAllProducts : M unit :=
  try_catch
    (let! response := getAllProducts in
     let! success := lift (get_prop response (lit "success")) in
     if truthy success then
       let! products := lift (get_prop response (lit "products")) in
       let! productsList := getElementById "productsList" in
       let! cards := lift (call_map products (fun product =>
                                 renderProductCard product VUndefined)) in
       set_innerHTML productsList (join [] cards)
     else ret tt)
    (fun error =>
       let! _ := console_error (lit "Error loading products:") error in
       let! productsList := getElementById "productsList" in
       set_innerHTML productsList
         (lit "<div class=`col-12`><p class=`text-danger`>Error loading products. Please refresh the page.</p></div>")).

(** *** A session

    What can happen on the page once the script has run: the user edits an
    input or uses a control, or other code calls a method of [app]. The
    handlers are independent: a rejected call ends its own handler only. *)

Inductive action :=
  | Edit (id : string) (text : jstring)
  | ClickAnalyze
  | ClickSearch
  | ClickView (productId : jstring)
  | ClickTrack (productId action : jstring)   (* the like and cart buttons *)
  | LoadCatalog
  | CallRecommendations (context : value)
  | CallTrack (productId action : jstring) (emotion : value).

Definition with_value (text : jstring) (e : element) : element :=
  {| el_value := text; el_content := el_content e;
     el_disabled := el_disabled e; el_display := el_display e |}.

Definition perform (a : action) : M unit :=
  match a with
  | Edit id text => write_element (Some id) (with_value text)
  | ClickAnalyze => analyzeMoodAndRecommend
  | ClickSearch => performSearch
  | ClickView productId => viewProduct productId
  | ClickTrack productId action =>
      let! _ := trackInteraction productId action VUndefined in ret tt
  | LoadCatalog => loadAllProducts
  | CallRecommendations context =>
      let! _ := getRecommendations context in ret tt
  | CallTrack productId action emotion =>
      let! _ := trackInteraction productId action emotion in ret tt
  end.

Fixpoint session (acts : list action) : M unit :=
  match acts with
  | [] => ret tt
  | a :: rest =>
      fun w => let r := perform a w in
               let r' := session rest (world_of r) in
               Run (result_of r') (world_of r') (events_of r ++ events_of r')
  end.

(** The script runs ([const app = new EmotionAwareRecommender()]), then the
    session follows. *)
Definition page (acts : list action) : M unit :=
  fun w => let r := constructor w in
           let r' := session acts (world_of r) in
           Run (result_of r') (world_of r') (events_of r ++ events_of r').

End Client.

(** ** Specification vocabulary *)

(** A value prints when no object of it, the value itself or an element of
    an array at any depth, has a property named [toString]. *)
Fixpoint printable (v : value) : bool :=
  match v with
  | VArr items => forallb printable items
  | VObj fields =>
      match lookup_field (lit "toString") fields with
      | Some _ => false
      | None => true
      end
  | _ => true
  end.

(** The property [key] of [v] can be read and prints. *)
Definition prints_at (v : value) (key : jstring) : Prop :=
  exists x, get_prop v key = Ok x /\ printable x = true.

(** The binary64 value nearest to 3.2: what [JSON.parse] makes of the text
    3.2. *)
Definition three_point_two : number := S754_finite false 7205759403792794 (-51).

(** What the rating span holds for a rating [r] of value [q]: the filled
    glyphs, the empty glyphs, the line break of the template and the rating
    as printed. *)
Definition rating_run (r : number) (q : Q) : jstring :=
  repeat star_filled (Z.to_nat (Qfloor q)) ++
  repeat star_empty (Z.to_nat (5 - Qfloor q)) ++
  lit "
                                " ++
  Number_toString r.

(** [Y] occurs in [X]; [Y] starts [X]. *)
Definition contains_at (Y X : jstring) : Prop :=
  exists before after, X = before ++ Y ++ after.

Definition prefix_of (Y X : jstring) : Prop := exists after, X = Y ++ after.

(** The keys of a product that a card prints, and the keys of the extra
    information it may print. *)
Definition card_keys : list jstring :=
  [lit "name"; lit "description"; lit "category"; lit "price"; lit "product_id"].

Definition extra_keys : list jstring := [lit "confidence_score"; lit "explanation"].


(** The request [makeRequest] passes to [fetch]. *)
Definition build_request (a : app_state) (endpoint : jstring) (opts : options) : request :=
  {| req_url := apiBase a ++ endpoint;
     req_method := opt_method opts;
     req_headers := [(lit "Content-Type", lit "application/json")];
     req_body := opt_body opts |}.

(** What [makeRequest] makes of the backend's answer. *)
Definition request_outcome (o : fetch_outcome) : result value :=
  match o with
  | FetchRejected e => Throw e
  | HttpResponse status body =>
      if response_ok status then
        match body with
        | Some json => Ok json
        | None => Throw SyntaxError
        end
      else Throw (Error (lit "HTTP error! status: " ++
                         Number_toString (number_of_Z status)))
  end.

(** The world after one more request. *)
Definition sent (w : world) : world :=
  {| localStorage := localStorage w; document := document w; app := app w;
     fetches := S (fetches w); randoms := randoms w |}.

(** [prepend ev r]: the run [r] after the events [ev]. *)
Definition prepend {A} (ev : list event) (r : run A) : run A :=
  Run (result_of r) (world_of r) (ev ++ events_of r).

(** The headers of every request. *)
Definition json_headers : list (jstring * jstring) :=
  [(lit "Content-Type", lit "application/json")].

(** Every event of every run of [m] satisfies [P]. *)
Definition emits {A} (P : event -> Prop) (m : M A) : Prop :=
  forall w, Forall P (events_of (m w)).

(** Every run of [m] relates the world before to the world after by [R]. *)
Definition keeps {A} (R : world -> world -> Prop) (m : M A) : Prop :=
  forall w, R w (world_of (m w)).

(** The events of the page's flows: anything but a random draw or a write
    to local storage. *)
Definition page_event (e : event) : Prop :=
  is_random e = false /\ is_storage_set e = false.

(** One request as [makeRequest] runs it. *)
Definition request_run (rt : runtime) (req : request) (w : world) : run value :=
  let o := server rt (fetches w) req in
  match request_outcome o with
  | Ok json => Run (Ok json) (sent w) [EvFetch req o]
  | Throw e => Run (Throw e) (sent w)
                 [EvFetch req o; EvConsoleError (lit "API request failed:") e]
  end.

(** The requests of the methods, and the JSON texts of their bodies. *)
Definition post_request (a : app_state) (endpoint body : jstring) : request :=
  {| req_url := apiBase a ++ endpoint;
     req_method := Some (lit "POST");
     req_headers := json_headers;
     req_body := Some body |}.

Definition get_request (a : app_state) (endpoint : jstring) : request :=
  {| req_url := apiBase a ++ endpoint;
     req_method := None;
     req_headers := json_headers;
     req_body := None |}.

Definition recommendations_body (uid context_json : jstring) : jstring :=
  lit "{`user_id`:" ++ quote uid ++ lit ",`context`:" ++ context_json ++ lit ",`limit`:8}".

Definition search_body (query emotion_json : jstring) : jstring :=
  lit "{`query`:" ++ quote query ++ lit ",`emotion_context`:" ++ emotion_json ++
  lit ",`limit`:10}".

Definition track_body (uid productId action emotion_json : jstring) : jstring :=
  lit "{`user_id`:" ++ quote uid ++ lit ",`product_id`:" ++ quote productId ++
  lit ",`action`:" ++ quote action ++ lit ",`emotion`:" ++ emotion_json ++ lit "}".

Definition analyze_body (text : jstring) : jstring :=
  lit "{`text`:" ++ quote text ++ lit "}".

(** What the session leaves alone: the identity held by [app], the local
    storage and the random numbers drawn. *)
Definition same_identity (w w' : world) : Prop :=
  userId (app w') = userId (app w) /\
  localStorage w' = localStorage w /\
  randoms w' = randoms w.

(** The requests that carry the identity. *)
Definition carries_identity (rt : runtime) (uid : jstring) (w : world) : Prop :=
  (forall context, exists cj rest,
      events_of (getRecommendations rt context w) =
      EvFetch (post_request (app w) (lit "/recommendations") (recommendations_body uid cj))
        (server rt (fetches w)
           (post_request (app w) (lit "/recommendations") (recommendations_body uid cj)))
      :: rest) /\
  (forall productId action emotion, exists ej rest,
      events_of (trackInteraction rt productId action emotion w) =
      EvFetch (post_request (app w) (lit "/track-interaction")
                 (track_body uid productId action ej))
        (server rt (fetches w)
           (post_request (app w) (lit "/track-interaction")
              (track_body uid productId action ej)))
      :: rest).

(** The alert of the product view. *)
Definition view_alert : event :=
  EvAlert (lit "Error loading product details. Please try again.").

(** A response with a status outside 200..299. *)
Definition bad_response (e : event) : Prop :=
  exists req status body,
    e = EvFetch req (HttpResponse status body) /\ response_ok status = false.

(** A computation that throws whenever one of its requests meets such a
    response. *)
Definition stops_on_bad {A} (m : M A) : Prop :=
  forall w, Exists bad_response (events_of (m w)) -> exists e, result_of (m w) = Throw e.

(** Elements are never removed from the document. *)
Definition keeps_elements (w w' : world) : Prop :=
  forall id, is_Some (document w !! id) -> is_Some (document w' !! id).

(** A run that issued at least one request. *)
Definition requested (l : list event) : Prop := Exists (fun e => is_fetch e = true) l.

(** The control [id] as the cleanup step leaves it. *)
Definition restore_control (id : string) (label : jstring) (w : world) : world :=
  world_of ((let! _ := set_disabled (Some id) false in
             set_innerHTML (Some id) label) w).

(** What the handler of a guarded flow adds to the events of its body. *)
Definition guard_tail (label message : jstring) {A} (r : result A) : list event :=
  match r with
  | Ok _ => []
  | Throw e => [EvConsoleError label e; EvAlert message]
  end.

(** *** Vocabulary of the further properties *)
(** The message the catalogue shows when it cannot be loaded. *)
Definition catalog_error_markup : jstring :=
  lit "<div class=`col-12`><p class=`text-danger`>Error loading products. Please refresh the page.</p></div>".

(** The fields of [app] and the local storage. *)
Definition same_app (w w' : world) : Prop :=
  app w' = app w /\ localStorage w' = localStorage w /\ randoms w' = randoms w.

(** Every run of [m] emits at most [n] events of the kind [p]. *)
Definition at_most {A} (p : event -> bool) (n : nat) (m : M A) : Prop :=
  forall w, (count p (events_of (m w)) <= n)%nat.

(** [m] keeps the invariant [I] of the world and, started from a world
    where it holds, emits only events that satisfy [P]. *)
Definition maintains {A} (I : world -> Prop) (P : event -> Prop) (m : M A) : Prop :=
  forall w, I w -> I (world_of (m w)) /\ Forall P (events_of (m w)).

(** The endpoints that take a POST. *)
Definition post_urls : list jstring :=
  [lit "/api/analyze-sentiment"; lit "/api/recommendations"; lit "/api/search";
   lit "/api/track-interaction"].

(** A request as the API expects it: the JSON content type, and either a
    POST with a body to one of the four endpoints that take one, or a GET
    without a body for the catalogue or for the products similar to one. *)
Definition api_request (e : event) : Prop :=
  forall r o, e = EvFetch r o ->
    req_headers r = json_headers /\
    ((req_method r = Some (lit "POST") /\ is_Some (req_body r) /\ In (req_url r) post_urls) \/
     (req_method r = None /\ req_body r = None /\
      (req_url r = lit "/api/products" \/
       exists productId, req_url r = lit "/api/similar-products/" ++ productId))).

(** The base path is the one the constructor sets. *)
Definition under_api (w : world) : Prop := apiBase (app w) = lit "/api".

(** The message the search shows when nothing was found. *)
Definition no_results_markup : jstring :=
  lit "<p class=`text-muted`>No products found matching your search.</p>".

(** What the search flow does with the parsed answer to its request: the
    body of [performSearch] after [await app.searchProducts(...)]. *)
Definition show_search_results (rt : runtime) (query : jstring) (json : value) : M unit :=
  let! success := lift (get_prop json (lit "success")) in
  if truthy success then
    let! results := lift (get_prop json (lit "results")) in
    let! searchResults := getElementById "searchResults" in
    let! html := lift (renderSearchResults rt query results) in
    set_innerHTML searchResults html
  else ret tt.

(** The world in which a guarded flow issues its first request: the trigger
    control [id] disabled and relabelled. *)
Definition busy (id : string) (label : jstring) (w : world) : world :=
  world_of (set_document
              (alter (with_content (Markup label)) id
                 (alter (with_disabled true) id (document w))) w).

(** What the mood flow does with the parsed answer to its analysis
    request: the body of [analyzeMoodAndRecommend] after
    [await app.analyzeMood(moodText)]. *)
Definition show_analysis (rt : runtime) (moodText : jstring) (json : value) : M unit :=
  let! success := lift (get_prop json (lit "success")) in
  if truthy success then
    let! sentiment := lift (get_prop json (lit "sentiment")) in
    let! primary_emotion := lift (get_prop sentiment (lit "primary_emotion")) in
    let! _ := set_currentEmotion primary_emotion in
    let! sentimentDiv := getElementById "sentimentAnalysis" in
    let! summary := lift (renderSentiment sentiment) in
    let! _ := set_innerHTML sentimentDiv summary in
    let! mood_category := lift (get_prop sentiment (lit "mood_category")) in
    let! recommendationsResponse :=
      getRecommendations rt (VObj [(lit "mood", primary_emotion);
                                   (lit "mood_category", mood_category);
                                   (lit "user_input", VStr moodText)]) in
    let! success := lift (get_prop recommendationsResponse (lit "success")) in
    if truthy success then
      let! recommendations :=
        lift (get_prop recommendationsResponse (lit "recommendations")) in
      let! recommendationsList := getElementById "recommendationsList" in
      let! cards := lift (call_map recommendations (renderRecommendation rt)) in
      let! _ := set_innerHTML recommendationsList (join [] cards) in
      let! section := getElementById "recommendationsSection" in
      let! _ := set_display section (lit "block") in
      let! section := getElementById "recommendationsSection" in
      scrollIntoView section
    else ret tt
  else ret tt.

(** What a step leaves of the fields of [app]. *)
Definition keeps_app (w w' : world) : Prop := app w' = app w.

(** What the mood flow does with the parsed answer to its recommendations
    request: the end of that body, after
    [await app.getRecommendations(...)]. *)
Definition show_recommendations (rt : runtime) (json : value) : M unit :=
  let! success := lift (get_prop json (lit "success")) in
  if truthy success then
    let! recommendations := lift (get_prop json (lit "recommendations")) in
    let! recommendationsList := getElementById "recommendationsList" in
    let! cards := lift (call_map recommendations (renderRecommendation rt)) in
    let! _ := set_innerHTML recommendationsList (join [] cards) in
    let! section := getElementById "recommendationsSection" in
    let! _ := set_display section (lit "block") in
    let! section := getElementById "recommendationsSection" in
    scrollIntoView section
  else ret tt.

(** The context handed to [getRecommendations]. *)
Definition mood_context (emotion category : value) (moodText : jstring) : value :=
  VObj [(lit "mood", emotion); (lit "mood_category", category);
        (lit "user_input", VStr moodText)].

(** The world once the analysis has been stored and summarised. *)
Definition analysed (emotion : value) (summary : jstring) (w : world) : world :=
  world_of (set_document
              (alter (with_content (Markup summary)) "sentimentAnalysis" (document w))
              (world_of (set_currentEmotion emotion w))).

(** What the catalogue flow does with the parsed answer to its request:
    the body of [loadAllProducts] after [await app.getAllProducts()]. *)
Definition show_catalog (rt : runtime) (json : value) : M unit :=
  let! success := lift (get_prop json (lit "success")) in
  if truthy success then
    let! products := lift (get_prop json (lit "products")) in
    let! productsList := getElementById "productsList" in
    let! cards := lift (call_map products (fun product =>
                              renderProductCard rt product VUndefined)) in
    set_innerHTML productsList (join [] cards)
  else ret tt.

(** What the handler of the catalogue flow does. *)
Definition show_catalog_error (error : js_error) : M unit :=
  let! _ := console_error (lit "Error loading products:") error in
  let! productsList := getElementById "productsList" in
  set_innerHTML productsList catalog_error_markup.

(** What the view flow does with the parsed answer to its similar-products
    request: the body of [viewProduct] after
    [await this.getSimilarProducts(productId)]. *)
Definition show_view (rt : runtime) (json : value) : M unit :=
  let! success := lift (get_prop json (lit "success")) in
  if truthy success then
    let! product := lift (get_prop json (lit "target_product")) in
    let! similarProducts := lift (get_prop json (lit "similar_products")) in
    let! modal := getElementById "productModal" in
    let! modalTitle := querySelector modal ".modal-title" in
    let! modalBody := querySelector modal ".modal-body" in
    let! name := lift (get_prop product (lit "name")) in
    let! _ := set_textContent modalTitle name in
    let! body := lift (renderModalBody rt product similarProducts) in
    let! _ := set_innerHTML modalBody body in
    show_modal modal
  else ret tt.

(** What the handler of the view flow does. *)
Definition view_handler (error : js_error) : M unit :=
  let! _ := console_error (lit "Error viewing product:") error in
  alert (lit "Error loading product details. Please try again.").

(** The text [textContent] shows for a value, where the value prints. *)
Definition text_of (v : value) : result jstring :=
  match v with
  | VUndefined | VNull => Ok []
  | _ => ToString v
  end.

(** The printing of a finite number, the search for its decimal exponent
    started at [from] with [fuel] steps. *)
Definition print_finite (fuel : nat) (from : Z) (s : bool) (m : positive) (e : Z) : jstring :=
  let n0 := decimal_exponent fuel from (Z.pos m) e in
  let '(d, k) := shortest_decimal 17 (Z.pos m) e n0 1 in
  (if s then lit "-" else []) ++ format_decimal (dec_s d) (dec_n d) k.

(** The integers from [lo], [n] of them. *)
Definition range (lo : Z) (n : nat) : list Z := map (fun i => lo + Z.of_nat i) (seq 0 n).

(** The printing of a number, by the short search when the number is at
    least 1 in magnitude. *)
Definition print_large (x : number) : option jstring :=
  match x with
  | S754_zero _ => Some (lit "0")
  | S754_finite s m e =>
      if 2 ^ Z.max (- e) 0 <=? Z.pos m * 2 ^ Z.max e 0
      then Some (print_finite 310 0 s m e) else None
  | _ => None
  end.

(** The binary64 value nearest to [k / 100] and to [k / 10]: the numbers
    [JSON.parse] makes of a score with two decimals and of a rating with
    one. *)
Definition hundredth (k : Z) : number := num_div (number_of_Z k) (number_of_Z 100).
Definition tenth (k : Z) : number := num_div (number_of_Z k) (number_of_Z 10).

(** Whether a rendering step gave the text [t], and whether it threw a
    RangeError. *)
Definition gave (r : result jstring) (t : jstring) : bool :=
  match r with
  | Ok s => jstring_eqb s t
  | Throw _ => false
  end.

Definition range_error (r : result jstring) : bool :=
  match r with
  | Throw RangeError => true
  | _ => false
  end.

(** The keys of a product that a card prints before its rating. *)
Definition keys_before_rating : list jstring :=
  [lit "name"; lit "description"; lit "category"; lit "price"].

(** The markup of a non-empty list of search results: the heading with the
    query, then the rows. *)
Definition search_results_markup (query : jstring) (rows : list jstring) : jstring :=
  lit "
                    <h5>Search Results for `" ++
  query ++
  lit "`</h5>
                    " ++
  join [] rows ++
  lit "
                ".

(** The badge of a tag that prints as [emotion]. *)
Definition emotion_badge (emotion : jstring) : jstring :=
  lit "<span class=`emotion-indicator emotion-" ++ emotion ++ lit "`>" ++
  emotion ++ lit "</span>".

(** The keys of a similar product that its card prints. *)
Definition similar_keys : list jstring := [lit "name"; lit "price"; lit "product_id"].

(** ** A sample page

    A small backend script, a document with every element the script looks
    up, and a few JSON payloads, used to run the flows on concrete input. *)

Module Sample.

Definition element_of (text : string) : element :=
  {| el_value := lit text; el_content := Markup [];
     el_disabled := false; el_display := [] |}.

(** The document, with the texts typed into the mood and search inputs. *)
Definition page_document (mood query : string) : gmap string element :=
  list_to_map
    [("moodInput", element_of mood); ("analyzeMoodBtn", element_of "");
     ("sentimentAnalysis", element_of ""); ("recommendationsList", element_of "");
     ("recommendationsSection", element_of ""); ("searchInput", element_of query);
     ("searchBtn", element_of ""); ("searchResults", element_of "");
     ("productsList", element_of ""); ("productModal", element_of "");
     ("productModal .modal-title", element_of "");
     ("productModal .modal-body", element_of "")].

(** A backend that answers the [n]-th request with the [n]-th element of
    [answers], and a transport failure afterwards. *)
Definition scripted (answers : list fetch_outcome) : runtime :=
  {| StringToNumber := fun _ => NaN;
     server := fun n _ => nth n answers (FetchRejected (FetchFailure (lit "Failed to fetch")));
     random36 := fun _ => lit "0.4fzyo82mvyr" |}.

(** The page before the script runs, for a first visit and for a return
    visit. *)
Definition first_visit (mood query : string) : world :=
  {| localStorage := ∅;
     document := page_document mood query;
     app := {| userId := []; apiBase := []; currentEmotion := VUndefined |};
     fetches := 0; randoms := 0 |}.

Definition return_visit (mood query : string) : world :=
  {| localStorage := {[ "userId" := lit "user_k3j9x0q2m1" ]};
     document := page_document mood query;
     app := {| userId := []; apiBase := []; currentEmotion := VUndefined |};
     fetches := 0; randoms := 0 |}.

(** The page once the script has run. *)
Definition loaded (mood query : string) : world :=
  world_of (constructor (scripted []) (return_visit mood query)).

Definition tea : value :=
  VObj [(lit "product_id", VStr (lit "p1"));
        (lit "name", VStr (lit "Chamomile tea"));
        (lit "description", VStr (lit "A calming blend"));
        (lit "price", VNum (num_div (number_of_Z 1299) (number_of_Z 100)));
        (lit "category", VStr (lit "Food"));
        (lit "rating", VNum three_point_two);
        (lit "emotion_tags", VArr [VStr (lit "calm"); VStr (lit "cozy")])].

Definition candle : value :=
  VObj [(lit "product_id", VStr (lit "p2"));
        (lit "name", VStr (lit "Scented candle"));
        (lit "description", VStr (lit "Lavender and cedar"));
        (lit "price", VNum (number_of_Z 18));
        (lit "category", VStr (lit "Home"));
        (lit "rating", VNum (number_of_Z 5))].

(** A product rated above the scale. *)
Definition overrated : value :=
  VObj [(lit "product_id", VStr (lit "p3"));
        (lit "name", VStr (lit "Weighted blanket"));
        (lit "description", VStr (lit "Seven kilograms"));
        (lit "price", VNum (number_of_Z 79));
        (lit "category", VStr (lit "Home"));
        (lit "rating", VNum (number_of_Z 7))].


Definition sentiment_envelope : value :=
  VObj [(lit "success", VBool true);
        (lit "sentiment",
         VObj [(lit "primary_emotion", VStr (lit "sad"));
               (lit "mood_category", VStr (lit "negative"));
               (lit "emotion_intensity", VNum (number_of_Z 7));
               (lit "shopping_motivation", VStr (lit "comfort"))])].



Definition refusal : value := VObj [(lit "success", VBool false)].

Definition ok (json : value) : fetch_outcome := HttpResponse 200 (Some json).
Definition server_error : fetch_outcome := HttpResponse 500 None.

End Sample.

(** ** More payloads

    Answers of the search, catalogue and similar-products endpoints, built
    from the products of the sample page. *)

Module Payloads.

(** A search result and an entry of the similar products. *)
Definition found (product : value) (percent : Z) (why : string) : value :=
  VObj [(lit "product", product);
        (lit "similarity_score", VNum (num_div (number_of_Z percent) (number_of_Z 100)));
        (lit "explanation", VStr (lit why))].

Definition alike (product : value) (percent : Z) : value :=
  VObj [(lit "product", product);
        (lit "similarity_score", VNum (num_div (number_of_Z percent) (number_of_Z 100)))].

Definition search_envelope : value :=
  VObj [(lit "success", VBool true);
        (lit "results",
         VArr [found Sample.tea 91 "Calming"; found Sample.overrated 40 "Heavy"])].

Definition empty_search_envelope : value :=
  VObj [(lit "success", VBool true); (lit "results", VArr [])].

Definition catalog_envelope : value :=
  VObj [(lit "success", VBool true);
        (lit "products", VArr [Sample.tea; Sample.candle])].

(** A catalogue whose second product is rated above the scale. *)
Definition broken_catalog_envelope : value :=
  VObj [(lit "success", VBool true);
        (lit "products", VArr [Sample.tea; Sample.overrated])].

Definition similar_list : list value :=
  [alike Sample.candle 80; alike Sample.tea 70; alike Sample.candle 60;
   alike Sample.overrated 50].

Definition similar_envelope : value :=
  VObj [(lit "success", VBool true);
        (lit "target_product", Sample.tea);
        (lit "similar_products", VArr similar_list)].

Definition acknowledged : value := VObj [(lit "success", VBool true)].

End Payloads.

(** * Properties *)

(** ** Values that print *)

Lemma rbind_ok {A B} (r : result A) (k : A -> result B) (b : B) :
  rbind r k = Ok b -> exists a, r = Ok a /\ k a = Ok b.
Proof. destruct r as [a | e]; cbn [rbind]; [eauto | discriminate]. Qed.

Ltac ok_steps H :=
  cbv zeta in H;
  repeat (apply rbind_ok in H; destruct H as (? & ? & H)).

Lemma all_ok_map {A B} (f : A -> result B) (l : list A) :
  all_ok (map f l) = rmap f l.
Proof.
  induction l as [| a l IH]; cbn [all_ok map rmap]; [reflexivity |].
  destruct (f a); [now rewrite IH | reflexivity].
Qed.

Lemma ToString_array (items : list value) :
  ToString (VArr items) =
  (let? texts := rmap element_text items in Ok (join (lit ",") texts))%result.
Proof. cbn [ToString]. now rewrite all_ok_map. Qed.

(** Printing succeeds on the values that print, and throws a TypeError on
    the others. *)
Lemma ToString_cases (v : value) :
  match ToString v with
  | Ok _ => printable v = true
  | Throw e => printable v = false /\ e = TypeError
  end.
Proof.
  revert v. fix IH 1. intros [| | b | x | s | items | fields].
  1-5: exact eq_refl.
  - rewrite ToString_array. cbn [printable].
    assert (match rmap element_text items with
            | Ok _ => forallb printable items = true
            | Throw e => forallb printable items = false /\ e = TypeError
            end) as H.
    { revert items. fix IHl 1. intros [| x items].
      - exact eq_refl.
      - cbn [rmap forallb]. specialize (IH x). specialize (IHl items).
        assert (element_text x = ToString x \/ (element_text x = Ok [] /\ printable x = true))
          as [-> | [-> Hp]].
        { destruct x; cbn; auto. }
        + destruct (ToString x).
          * rewrite IH. cbn [andb]. destruct (rmap element_text items); exact IHl.
          * destruct IH as [-> ->]. split; reflexivity.
        + rewrite Hp. cbn [andb]. destruct (rmap element_text items); exact IHl. }
    destruct (rmap element_text items); exact H.
  - cbn [ToString printable]. destruct (lookup_field _ fields); [split |]; reflexivity.
Qed.

Lemma ToString_printable (v : value) :
  printable v = true -> exists text, ToString v = Ok text.
Proof.
  intros H. pose proof (ToString_cases v) as Hc. destruct (ToString v); [eauto |].
  destruct Hc as [Hc _]. congruence.
Qed.

Lemma ToString_unprintable (v : value) :
  printable v = false -> ToString v = Throw TypeError.
Proof.
  intros H. pose proof (ToString_cases v) as Hc. destruct (ToString v); [congruence |].
  now destruct Hc as [_ ->].
Qed.

Lemma ToNumber_printable rt (v : value) :
  printable v = true -> exists x, ToNumber rt v = Ok x.
Proof.
  intros H. destruct (ToString_printable v H) as [text Ht].
  destruct v; cbn [ToNumber]; try rewrite Ht; cbn [rbind]; eauto.
Qed.

Lemma ToNumber_unprintable rt (v : value) :
  printable v = false -> ToNumber rt v = Throw TypeError.
Proof.
  intros H. pose proof (ToString_unprintable v H) as Ht.
  destruct v; try discriminate; cbn [ToNumber]; now rewrite Ht.
Qed.

Lemma falsy_printable (v : value) : truthy v = false -> printable v = true.
Proof. destruct v; cbn; congruence. Qed.

Lemma print_prop_printable (v : value) (key : jstring) :
  prints_at v key -> exists text, print_prop v key = Ok text.
Proof.
  intros (x & Hx & Hp). unfold print_prop. rewrite Hx. cbn [rbind].
  now apply ToString_printable.
Qed.

(** ** Rendering a product card *)

(** The two glyph runs for a floor between 0 and 5. *)
Lemma small_floor_filled (n : Z) :
  0 <= n <= 5 ->
  repeat_glyph star_filled (if n =? 0 then S754_zero false else number_of_Z n)
    = Ok (repeat star_filled (Z.to_nat n)) /\
  repeat_glyph star_empty
      (num_sub (number_of_Z 5) (if n =? 0 then S754_zero false else number_of_Z n))
    = Ok (repeat star_empty (Z.to_nat (5 - n))).
Proof.
  intros Hn.
  assert (n = 0 \/ n = 1 \/ n = 2 \/ n = 3 \/ n = 4 \/ n = 5) as H by lia.
  destruct H as [-> | [-> | [-> | [-> | [-> | ->]]]]]; split; vm_compute; reflexivity.
Qed.

Lemma rating_glyphs_in_range rt (r : number) (q : Q) :
  number_value r = Some q -> (0 <= q)%Q -> (q <= 5)%Q ->
  rating_filled rt (VNum r) = Ok (repeat star_filled (Z.to_nat (Qfloor q))) /\
  rating_empty rt (VNum r) = Ok (repeat star_empty (Z.to_nat (5 - Qfloor q))).
Proof.
  intros Hv H0 H5. unfold rating_filled, rating_empty, ToNumber. cbn [rbind].
  destruct r as [s | s | | s m e]; try discriminate.
  - injection Hv as <-. split; vm_compute; reflexivity.
  - cbn [number_value] in Hv. injection Hv as <-.
    destruct s.
    { exfalso. destruct e; unfold Qle in H0; cbn in H0; lia. }
    destruct e as [| p | k].
    + unfold Qle in H5. cbn in H5.
      assert (Z.pos m <= 5) as Hm by lia.
      assert (m = 1 \/ m = 2 \/ m = 3 \/ m = 4 \/ m = 5)%positive as H by lia.
      destruct H as [-> | [-> | [-> | [-> | ->]]]]; split; vm_compute; reflexivity.
    + unfold Qle in H5. cbn [Qnum Qden] in H5.
      assert (0 < 2 ^ Z.pos p) as Hp by (apply Z.pow_pos_nonneg; lia).
      assert (Z.pos p < 3) as Hp3.
      { destruct (Z_lt_le_dec (Z.pos p) 3) as [|Hge]; [assumption|].
        exfalso. pose proof (Z.pow_le_mono_r 2 3 (Z.pos p) ltac:(lia) Hge) as Hpow.
        change (2 ^ 3) with 8 in Hpow. nia. }
      assert (p = 1 \/ p = 2)%positive as Hpp by lia.
      assert (Z.pos m <= 5) as Hm by nia.
      assert (m = 1 \/ m = 2 \/ m = 3 \/ m = 4 \/ m = 5)%positive as H by lia.
      destruct Hpp as [-> | ->];
        destruct H as [-> | [-> | [-> | [-> | ->]]]];
        try (exfalso; cbn in H5; lia); split; vm_compute; reflexivity.
    + cbn [Math_floor Qfloor].
      unfold Qle in H0, H5. cbn [Qnum Qden] in H0, H5.
      set (d := Z.pos (2 ^ k)) in *.
      assert (0 <= Z.pos m / d <= 5) as Hn.
      { split.
        - apply Z.div_pos; lia.
        - apply Z.div_le_upper_bound; lia. }
      apply small_floor_filled in Hn. exact Hn.
Qed.

Lemma rmap_ok {A B} (f : A -> B) (l : list A) :
  rmap (fun a => Ok (f a)) l = Ok (map f l).
Proof. induction l as [| a l IH]; cbn [rmap map]; [reflexivity | now rewrite IH]. Qed.

Lemma rmap_all_ok {A B} (f : A -> result B) (l : list A) :
  Forall (fun a => exists b, f a = Ok b) l -> exists bs, rmap f l = Ok bs.
Proof.
  induction 1 as [| a l [b Hb] _ [bs IH]]; cbn [rmap]; [eauto |].
  rewrite Hb, IH. eauto.
Qed.

Lemma renderEmotionIndicators_array (tags : list value) :
  Forall (fun tag => printable tag = true) tags ->
  exists html, renderEmotionIndicators (VArr tags) = Ok html.
Proof.
  intros H. unfold renderEmotionIndicators, call_map.
  destruct (rmap_all_ok
              (fun emotion => (let? emotion := ToString emotion in
                 Ok (lit "<span class=`emotion-indicator emotion-" ++ emotion ++
                     lit "`>" ++ emotion ++ lit "</span>"))%result) tags) as [spans ->].
  { eapply Forall_impl; [exact H |]. cbv beta. intros tag Hp.
    destruct (ToString_printable tag Hp) as [text ->]. cbn [rbind]. eauto. }
  cbn [rbind]. eauto.
Qed.

Lemma get_prop_object (v x : value) (key other : jstring) :
  get_prop v key = Ok x -> x <> VUndefined -> jstring_eqb key (lit "length") = false ->
  exists fields, v = VObj fields.
Proof.
  intros H Hx Hk. destruct v; cbn [get_prop] in H; try discriminate;
    try (injection H as <-; congruence); try (rewrite Hk in H; injection H as <-; congruence).
  eauto.
Qed.

Lemma contains_skip (a Y X : jstring) : contains_at Y X -> contains_at Y (a ++ X).
Proof.
  intros (b & c & ->). exists (a ++ b), c. now rewrite app_assoc.
Qed.

Lemma prefix_here (Y after : jstring) : prefix_of Y (Y ++ after).
Proof. now exists after. Qed.

Lemma prefix_app (a Y X : jstring) : prefix_of Y X -> prefix_of (a ++ Y) (a ++ X).
Proof. intros (c & ->). exists c. now rewrite app_assoc. Qed.

Lemma contains_prefix (Y X : jstring) : prefix_of Y X -> contains_at Y X.
Proof. intros (c & ->). now exists [], c. Qed.

Lemma contains_ok (pre mid post X : jstring) :
  contains_at (pre ++ mid ++ post) X ->
  exists before after, Ok X = Ok (before ++ pre ++ mid ++ post ++ after).
Proof.
  intros (b & c & ->). exists b, c. now repeat rewrite <- app_assoc.
Qed.

Lemma contains_eq (pre mid post X : jstring) :
  contains_at (pre ++ mid ++ post) X ->
  exists before after, X = before ++ pre ++ mid ++ post ++ after.
Proof.
  intros (b & c & ->). exists b, c. now repeat rewrite <- app_assoc.
Qed.

Lemma Ok_inj {A} (a b : A) : Ok a = Ok b -> a = b.
Proof. now intros [= ->]. Qed.

Lemma confidence_badge_printable rt (cs : value) :
  printable cs = true -> exists badge, confidence_badge rt cs = Ok badge.
Proof.
  intros H. unfold confidence_badge, percent. destruct (truthy cs); [| eauto].
  destruct (ToNumber_printable rt cs H) as [x ->]. cbn [rbind]. eauto.
Qed.

Lemma explanation_block_printable (ex : value) :
  printable ex = true -> exists block, explanation_block ex = Ok block.
Proof.
  intros H. unfold explanation_block. destruct (truthy ex); [| eauto].
  destruct (ToString_printable ex H) as [text ->]. cbn [rbind]. eauto.
Qed.

(** The card of a product rated between 0 and 5 is rendered when what it
    prints does print. *)
Lemma renderProductCard_five_star rt product extraInfo r q tags :
  get_prop product (lit "rating") = Ok (VNum r) ->
  number_value r = Some q -> (0 <= q)%Q -> (q <= 5)%Q ->
  (let? t := get_prop product (lit "emotion_tags") in Ok (or_else t (VArr [])))%result
    = Ok (VArr tags) ->
  extraInfo <> VNull ->
  Forall (prints_at product) card_keys ->
  Forall (fun tag => printable tag = true) tags ->
  Forall (prints_at (default_param extraInfo (VObj []))) extra_keys ->
  exists card, renderProductCard rt product extraInfo = Ok card.
Proof.
  intros Hr Hq H0 H5 Htags Hextra Hkeys Hprint Hx.
  destruct (rating_glyphs_in_range rt r q Hq H0 H5) as [Hf He].
  unfold card_keys in Hkeys. unfold extra_keys in Hx.
  apply Forall_cons_1 in Hkeys as [Hname Hkeys].
  apply Forall_cons_1 in Hkeys as [Hdescription Hkeys].
  apply Forall_cons_1 in Hkeys as [Hcategory Hkeys].
  apply Forall_cons_1 in Hkeys as [Hprice Hkeys].
  apply Forall_cons_1 in Hkeys as [Hid _].
  apply Forall_cons_1 in Hx as [(cs & Hcs & Hpcs) Hx].
  apply Forall_cons_1 in Hx as [(ex & Hex & Hpex) _].
  apply print_prop_printable in Hname as [name Hname].
  apply print_prop_printable in Hdescription as [description Hdescription].
  apply print_prop_printable in Hcategory as [category Hcategory].
  apply print_prop_printable in Hprice as [price Hprice].
  apply print_prop_printable in Hid as [product_id Hid].
  unfold renderProductCard. cbv zeta. rewrite Hcs, Hex. cbn [rbind].
  assert (exists rr, get_prop (default_param extraInfo (VObj [])) (lit "recommendation_reason")
                     = Ok rr) as [rr ->].
  { destruct extraInfo; cbn; eauto; congruence. }
  cbn [rbind].
  destruct (confidence_badge_printable rt cs Hpcs) as [badge ->].
  cbn [rbind]. rewrite Hname, Hdescription, Hcategory, Hprice, Hid.
  cbn [rbind]. rewrite Hr. cbn [rbind]. rewrite Hf, He. cbn [rbind ToString].
  destruct (get_prop product (lit "emotion_tags")) as [t |]; [| discriminate].
  cbn [rbind] in Htags |- *. injection Htags as ->.
  destruct (renderEmotionIndicators_array tags Hprint) as [ind ->]. cbn [rbind].
  destruct (explanation_block_printable ex Hpex) as [block ->].
  cbn [rbind]. eauto.
Qed.

(** The rating span of every card of a product rated between 0 and 5. *)
Lemma renderProductCard_rating rt product extraInfo r q card :
  get_prop product (lit "rating") = Ok (VNum r) ->
  number_value r = Some q -> (0 <= q)%Q -> (q <= 5)%Q ->
  renderProductCard rt product extraInfo = Ok card ->
  exists before after,
    card =
    before ++
    lit "</strong>
                            <span class=`text-warning ms-2`>
                                " ++
    rating_run r q ++
    lit "
                            </span>
                        </div>
                        
                        <div class=`mb-3`>
                            " ++
    after.
Proof.
  intros Hr Hq H0 H5 Hcard.
  destruct (rating_glyphs_in_range rt r q Hq H0 H5) as [Hf He].
  unfold renderProductCard in Hcard. ok_steps Hcard.
  match goal with
  | H : get_prop product (lit "rating") = Ok ?x |- _ =>
      is_var x; rewrite Hr in H; apply Ok_inj in H; subst x
  end.
  repeat match goal with
         | H : rating_filled rt (VNum r) = Ok ?x |- _ =>
             is_var x; rewrite Hf in H; apply Ok_inj in H; subst x
         | H : rating_empty rt (VNum r) = Ok ?x |- _ =>
             is_var x; rewrite He in H; apply Ok_inj in H; subst x
         | H : ToString (VNum r) = Ok ?x |- _ =>
             is_var x; cbn [ToString] in H; apply Ok_inj in H; subst x
         end.
  apply Ok_inj in Hcard. subst card.
  apply contains_eq.
  do 12 apply contains_skip.
  unfold rating_run. repeat rewrite <- app_assoc.
  apply contains_prefix. do 5 apply prefix_app. apply prefix_here.
Qed.

(** Claim C4. For a product whose rating is a number [r] of value [q], with
    [0 <= q <= 5], every rendered card holds in its rating span [floor q]
    filled glyphs, then [5 - floor q] empty glyphs, then the rating as the
    language prints it. A card is rendered whenever, besides, the emotion
    tags are absent or an array of values that print, the extra information
    is not [null], and what the card prints of the product (name,
    description, category, price, identifier) and of the extra information
    (confidence score, explanation) does print. For the rating 3.2 the span
    holds three filled glyphs, two empty ones and the text 3.2. *)
Theorem rating_glyphs_rendered :
  (forall rt product extraInfo r q card,
      get_prop product (lit "rating") = Ok (VNum r) ->
      number_value r = Some q -> (0 <= q)%Q -> (q <= 5)%Q ->
      renderProductCard rt product extraInfo = Ok card ->
      exists before after,
        card =
        before ++
        lit "</strong>
                            <span class=`text-warning ms-2`>
                                " ++
        rating_run r q ++
        lit "
                            </span>
                        </div>
                        
                        <div class=`mb-3`>
                            " ++
        after) /\
  (forall rt product extraInfo r q tags,
      get_prop product (lit "rating") = Ok (VNum r) ->
      number_value r = Some q -> (0 <= q)%Q -> (q <= 5)%Q ->
      (let? t := get_prop product (lit "emotion_tags") in Ok (or_else t (VArr [])))%result
        = Ok (VArr tags) ->
      extraInfo <> VNull ->
      Forall (prints_at product) card_keys ->
      Forall (fun tag => printable tag = true) tags ->
      Forall (prints_at (default_param extraInfo (VObj []))) extra_keys ->
      exists card, renderProductCard rt product extraInfo = Ok card) /\
  (exists q, number_value three_point_two = Some q /\ (0 <= q)%Q /\ (q <= 5)%Q /\
             rating_run three_point_two q =
             [star_filled; star_filled; star_filled; star_empty; star_empty] ++
             lit "
                                3.2").
Proof.
  split; [| split].
  - exact renderProductCard_rating.
  - exact renderProductCard_five_star.
  - exists (7205759403792794 # 2251799813685248)%Q.
    split; [reflexivity |]. split; [unfold Qle; cbn; lia |]. split; [unfold Qle; cbn; lia |].
    vm_compute. reflexivity.
Qed.




(** ** Runs of the monad *)

Lemma prepend_nil {A} (r : run A) : prepend [] r = r.
Proof. now destruct r. Qed.

Lemma prepend_prepend {A} (e1 e2 : list event) (r : run A) :
  prepend e1 (prepend e2 r) = prepend (e1 ++ e2) r.
Proof. unfold prepend. cbn. now rewrite app_assoc. Qed.

Lemma bind_run {A B} (m : M A) (k : A -> M B) (w : world) :
  bind m k w = match m w with
               | Run (Ok a) w1 ev1 => prepend ev1 (k a w1)
               | Run (Throw e) w1 ev1 => Run (Throw e) w1 ev1
               end.
Proof. unfold bind, prepend. destruct (m w) as [[a | e] w1 ev1]; [now destruct (k a w1) | reflexivity]. Qed.

Lemma bind_ret {A B} (a : A) (k : A -> M B) (w : world) : bind (ret a) k w = k a w.
Proof. rewrite bind_run. apply prepend_nil. Qed.

Lemma bind_lift {A B} (r : result A) (k : A -> M B) (w : world) :
  bind (lift r) k w = match r with
                      | Ok a => k a w
                      | Throw e => Run (Throw e) w []
                      end.
Proof. rewrite bind_run. unfold lift. destruct r; [apply prepend_nil | reflexivity]. Qed.

Lemma bind_throw {A B} (e : js_error) (k : A -> M B) (w : world) :
  bind (throw e) k w = Run (Throw e) w [].
Proof. now rewrite bind_run. Qed.

Lemma bind_get_app {B} (k : app_state -> M B) (w : world) : bind get_app k w = k (app w) w.
Proof. rewrite bind_run. apply prepend_nil. Qed.

Lemma bind_emit {B} (e : event) (k : unit -> M B) (w : world) :
  bind (emit e) k w = prepend [e] (k tt w).
Proof. now rewrite bind_run. Qed.

Lemma bind_getElementById {B} (id : string) (k : option string -> M B) (w : world) :
  bind (getElementById id) k w =
  k (match document w !! id with Some _ => Some id | None => None end) w.
Proof. rewrite bind_run. apply prepend_nil. Qed.

(** [makeRequest] issues one request; it returns the parsed body of a 2xx
    response and logs and rethrows anything else. *)
Lemma makeRequest_run rt (endpoint : jstring) (opts : options) (w : world) :
  makeRequest rt endpoint opts w =
  let req := build_request (app w) endpoint opts in
  let o := server rt (fetches w) req in
  match request_outcome o with
  | Ok json => Run (Ok json) (sent w) [EvFetch req o]
  | Throw e => Run (Throw e) (sent w)
                 [EvFetch req o; EvConsoleError (lit "API request failed:") e]
  end.
Proof.
  unfold makeRequest, try_catch. rewrite bind_get_app. rewrite bind_run.
  unfold fetch. fold (sent w). fold (build_request (app w) endpoint opts).
  cbv zeta.
  destruct (server rt (fetches w) (build_request (app w) endpoint opts)) as [e | status body];
    cbn [request_outcome]; [reflexivity |].
  unfold prepend. cbn [fst snd].
  destruct (response_ok status); cbn [negb]; [| reflexivity].
  destruct body; reflexivity.
Qed.

Lemma bind_makeRequest {B} rt (endpoint : jstring) (opts : options) (k : value -> M B) (w : world) :
  bind (makeRequest rt endpoint opts) k w =
  let req := build_request (app w) endpoint opts in
  let o := server rt (fetches w) req in
  match request_outcome o with
  | Ok json => prepend [EvFetch req o] (k json (sent w))
  | Throw e => Run (Throw e) (sent w)
                 [EvFetch req o; EvConsoleError (lit "API request failed:") e]
  end.
Proof.
  rewrite bind_run, makeRequest_run. cbv zeta.
  destruct (request_outcome _); reflexivity.
Qed.

(** ** The request bodies *)

Lemma stringify_defined (v : value) :
  v <> VUndefined -> exists t, JSON_stringify v = Some t.
Proof. destruct v; cbn [JSON_stringify]; eauto; congruence. Qed.

Lemma default_param_defined (v d : value) :
  d <> VUndefined -> default_param v d <> VUndefined.
Proof. destruct v; cbn; congruence. Qed.

Lemma stringify_three (k1 k2 k3 : jstring) (a b c : value) (ta tb tc : jstring) :
  JSON_stringify a = Some ta -> JSON_stringify b = Some tb -> JSON_stringify c = Some tc ->
  JSON_stringify (VObj [(k1, a); (k2, b); (k3, c)]) =
  Some (lit "{" ++ quote k1 ++ lit ":" ++ ta ++ lit "," ++
        quote k2 ++ lit ":" ++ tb ++ lit "," ++
        quote k3 ++ lit ":" ++ tc ++ lit "}").
Proof.
  intros Ha Hb Hc. cbn [JSON_stringify]. rewrite Ha, Hb, Hc. cbn [join].
  repeat rewrite <- app_assoc. reflexivity.
Qed.

(** Claim C5. Every call of [getRecommendations] issues a request whose body
    is the JSON text of an object with exactly the fields [user_id],
    [context] and [limit], the limit being 8; every call of [searchProducts]
    one with exactly [query], [emotion_context] and [limit], the limit being
    10. *)
Theorem request_bodies :
  (forall rt context w,
      exists cj o rest,
        JSON_stringify (default_param context (VObj [])) = Some cj /\
        events_of (getRecommendations rt context w) =
        EvFetch {| req_url := apiBase (app w) ++ lit "/recommendations";
                   req_method := Some (lit "POST");
                   req_headers := json_headers;
                   req_body := Some (lit "{`user_id`:" ++ quote (userId (app w)) ++
                                     lit ",`context`:" ++ cj ++
                                     lit ",`limit`:8}") |} o :: rest /\
        count is_fetch rest = 0%nat) /\
  (forall rt query emotionContext w,
      exists ej o rest,
        JSON_stringify (default_param emotionContext VNull) = Some ej /\
        events_of (searchProducts rt query emotionContext w) =
        EvFetch {| req_url := apiBase (app w) ++ lit "/search";
                   req_method := Some (lit "POST");
                   req_headers := json_headers;
                   req_body := Some (lit "{`query`:" ++ quote query ++
                                     lit ",`emotion_context`:" ++ ej ++
                                     lit ",`limit`:10}") |} o :: rest /\
        count is_fetch rest = 0%nat).
Proof.
  split.
  - intros rt context w.
    destruct (stringify_defined (default_param context (VObj []))) as [cj Hcj].
    { apply default_param_defined. discriminate. }
    exists cj. unfold getRecommendations. rewrite bind_get_app, makeRequest_run.
    cbv zeta. unfold build_request, post. cbn [opt_method opt_body].
    rewrite (stringify_three _ _ _ _ _ _ (quote (userId (app w))) cj (lit "8"));
      [| reflexivity | assumption | reflexivity].
    match goal with |- context [server rt ?n ?r] => set (o := server rt n r) end.
    exists o.
    destruct (request_outcome o); eexists; (split; [eassumption |]); split;
      reflexivity.
  - intros rt query emotionContext w.
    destruct (stringify_defined (default_param emotionContext VNull)) as [ej Hej].
    { apply default_param_defined. discriminate. }
    exists ej. unfold searchProducts. rewrite makeRequest_run.
    cbv zeta. unfold build_request, post. cbn [opt_method opt_body].
    rewrite (stringify_three _ _ _ _ _ _ (quote query) ej (lit "10"));
      [| reflexivity | assumption | reflexivity].
    match goal with |- context [server rt ?n ?r] => set (o := server rt n r) end.
    exists o.
    destruct (request_outcome o); eexists; (split; [eassumption |]); split;
      reflexivity.
Qed.

(** ** What a computation emits and what it keeps *)

Section Emits.
Variable P : event -> Prop.

Lemma emits_ret {A} (a : A) : emits P (ret a).
Proof. intros w. constructor. Qed.

Lemma emits_throw {A} (e : js_error) : emits P (@throw A e).
Proof. intros w. constructor. Qed.

Lemma emits_lift {A} (r : result A) : emits P (lift r).
Proof. intros w. constructor. Qed.

Lemma emits_bind {A B} (m : M A) (k : A -> M B) :
  emits P m -> (forall a, emits P (k a)) -> emits P (bind m k).
Proof.
  intros Hm Hk w. rewrite bind_run. specialize (Hm w).
  destruct (m w) as [[a | e] w1 ev1]; cbn in *; [| assumption].
  apply Forall_app. split; [assumption | apply Hk].
Qed.

Lemma emits_try_catch {A} (m : M A) (h : js_error -> M A) :
  emits P m -> (forall e, emits P (h e)) -> emits P (try_catch m h).
Proof.
  intros Hm Hh w. unfold try_catch. specialize (Hm w).
  destruct (m w) as [[a | e] w1 ev1]; cbn in *; [assumption |].
  specialize (Hh e w1). destruct (h e w1) as [r w2 ev2]. cbn in *.
  apply Forall_app. split; assumption.
Qed.

Lemma emits_try_catch_finally {A} (m : M A) (h : js_error -> M A) (f : M unit) :
  emits P m -> (forall e, emits P (h e)) -> emits P f ->
  emits P (try_catch_finally m h f).
Proof.
  intros Hm Hh Hf w. unfold try_catch_finally.
  pose proof (emits_try_catch m h Hm Hh w) as H1.
  destruct (try_catch m h w) as [r w1 ev1]. cbn in H1.
  specialize (Hf w1). destruct (f w1) as [[[] | e] w2 ev2]; cbn in *;
    apply Forall_app; split; assumption.
Qed.

Lemma emits_emit (e : event) : P e -> emits P (emit e).
Proof. intros He w. repeat constructor. exact He. Qed.

Lemma emits_get_app : emits P get_app.
Proof. intros w. constructor. Qed.

Lemma emits_set_app (a : app_state) : emits P (set_app a).
Proof. intros w. constructor. Qed.

Lemma emits_localStorage_getItem (key : string) : emits P (localStorage_getItem key).
Proof. intros w. constructor. Qed.

Lemma emits_getElementById (id : string) : emits P (getElementById id).
Proof. intros w. constructor. Qed.

Lemma emits_querySelector (el : option string) (sel : string) :
  emits P (querySelector el sel).
Proof. intros w. destruct el; constructor. Qed.

Lemma emits_read_element {A} (el : option string) (f : element -> A) :
  emits P (read_element el f).
Proof. intros w. destruct el as [id |]; cbn; [destruct (document w !! id) |]; constructor. Qed.

Lemma emits_write_element (el : option string) (f : element -> element) :
  emits P (write_element el f).
Proof. intros w. destruct el; constructor. Qed.

Lemma emits_makeRequest rt (endpoint : jstring) (opts : options) :
  (forall r o, P (EvFetch r o)) ->
  (forall e, P (EvConsoleError (lit "API request failed:") e)) ->
  emits P (makeRequest rt endpoint opts).
Proof.
  intros Hf Hc w. rewrite makeRequest_run. cbv zeta.
  destruct (request_outcome _); repeat constructor; auto.
Qed.

End Emits.

Section Keeps.
Variable R : world -> world -> Prop.
Hypothesis R_refl : forall w, R w w.
Hypothesis R_trans : forall a b c, R a b -> R b c -> R a c.

Lemma keeps_ret {A} (a : A) : keeps R (ret a).
Proof. intros w. apply R_refl. Qed.

Lemma keeps_throw {A} (e : js_error) : keeps R (@throw A e).
Proof. intros w. apply R_refl. Qed.

Lemma keeps_lift {A} (r : result A) : keeps R (lift r).
Proof. intros w. apply R_refl. Qed.

Lemma keeps_bind {A B} (m : M A) (k : A -> M B) :
  keeps R m -> (forall a, keeps R (k a)) -> keeps R (bind m k).
Proof.
  intros Hm Hk w. rewrite bind_run. specialize (Hm w).
  destruct (m w) as [[a | e] w1 ev1]; cbn in *; [| assumption].
  eapply R_trans; [eassumption | apply Hk].
Qed.

Lemma keeps_try_catch {A} (m : M A) (h : js_error -> M A) :
  keeps R m -> (forall e, keeps R (h e)) -> keeps R (try_catch m h).
Proof.
  intros Hm Hh w. unfold try_catch. specialize (Hm w).
  destruct (m w) as [[a | e] w1 ev1]; cbn in *; [assumption |].
  specialize (Hh e w1). destruct (h e w1) as [r w2 ev2]. cbn in *.
  eapply R_trans; eassumption.
Qed.

Lemma keeps_try_catch_finally {A} (m : M A) (h : js_error -> M A) (f : M unit) :
  keeps R m -> (forall e, keeps R (h e)) -> keeps R f ->
  keeps R (try_catch_finally m h f).
Proof.
  intros Hm Hh Hf w. unfold try_catch_finally.
  pose proof (keeps_try_catch m h Hm Hh w) as H1.
  destruct (try_catch m h w) as [r w1 ev1]. cbn in H1.
  specialize (Hf w1). destruct (f w1) as [[[] | e] w2 ev2]; cbn in *;
    eapply R_trans; eassumption.
Qed.

Lemma keeps_emit (e : event) : keeps R (emit e).
Proof. intros w. apply R_refl. Qed.

Lemma keeps_get_app : keeps R get_app.
Proof. intros w. apply R_refl. Qed.

Lemma keeps_localStorage_getItem (key : string) : keeps R (localStorage_getItem key).
Proof. intros w. apply R_refl. Qed.

Lemma keeps_getElementById (id : string) : keeps R (getElementById id).
Proof. intros w. apply R_refl. Qed.

Lemma keeps_querySelector (el : option string) (sel : string) :
  keeps R (querySelector el sel).
Proof. intros w. destruct el; apply R_refl. Qed.

Lemma keeps_read_element {A} (el : option string) (f : element -> A) :
  keeps R (read_element el f).
Proof. intros w. destruct el as [id |]; cbn; [destruct (document w !! id) |]; apply R_refl. Qed.

Lemma keeps_makeRequest rt (endpoint : jstring) (opts : options) :
  (forall w, R w (sent w)) -> keeps R (makeRequest rt endpoint opts).
Proof.
  intros Hs w. rewrite makeRequest_run. cbv zeta.
  destruct (request_outcome _); apply Hs.
Qed.

Lemma keeps_write_element (el : option string) (f : element -> element) :
  (forall w d, R w (world_of (set_document d w))) -> keeps R (write_element el f).
Proof. intros H w. destruct el; cbn; [apply H | apply R_refl]. Qed.

Lemma keeps_set_currentEmotion (v : value) :
  (forall w v, R w (world_of (set_currentEmotion v w))) -> keeps R (set_currentEmotion v).
Proof. intros H w. apply H. Qed.

End Keeps.

Lemma emits_eta {A} (P : event -> Prop) (m : M A) : emits P m -> emits P (fun w => m w).
Proof. intros H. exact H. Qed.

(** One step of a proof that a computation emits only events of a kind,
    following the structure of the computation. *)
Ltac emits_step :=
  match goal with
  | |- forall _, _ => intro
  | |- emits _ (fun _ => _) => apply emits_eta
  | |- emits _ (bind _ _) => apply emits_bind
  | |- emits _ (try_catch _ _) => apply emits_try_catch
  | |- emits _ (try_catch_finally _ _ _) => apply emits_try_catch_finally
  | |- emits _ (ret _) => apply emits_ret
  | |- emits _ (throw _) => apply emits_throw
  | |- emits _ (lift _) => apply emits_lift
  | |- emits _ get_app => apply emits_get_app
  | |- emits _ (set_app _) => apply emits_set_app
  | |- emits _ (set_currentEmotion _) => unfold set_currentEmotion
  | |- emits _ (scrollIntoView ?el) => unfold scrollIntoView
  | |- emits _ (show_modal ?el) => unfold show_modal
  | |- emits _ (console_error _ _) => unfold console_error
  | |- emits _ (alert _) => unfold alert
  | |- emits _ (set_disabled _ _) => unfold set_disabled
  | |- emits _ (set_innerHTML _ _) => unfold set_innerHTML
  | |- emits _ (set_textContent _ _) => unfold set_textContent
  | |- emits _ (set_display _ _) => unfold set_display
  | |- emits _ (analyzeMood _ _) => unfold analyzeMood
  | |- emits _ (getRecommendations _ _) => unfold getRecommendations
  | |- emits _ (searchProducts _ _ _) => unfold searchProducts
  | |- emits _ (getAllProducts _) => unfold getAllProducts
  | |- emits _ (trackInteraction _ _ _ _) => unfold trackInteraction
  | |- emits _ (getSimilarProducts _ _) => unfold getSimilarProducts
  | |- emits _ (getElementById _) => apply emits_getElementById
  | |- emits _ (querySelector _ _) => apply emits_querySelector
  | |- emits _ (read_element _ _) => apply emits_read_element
  | |- emits _ (write_element _ _) => apply emits_write_element
  | |- emits _ (localStorage_getItem _) => apply emits_localStorage_getItem
  | |- emits _ (makeRequest _ _ _) => apply emits_makeRequest
  | |- emits _ (emit _) => apply emits_emit
  | |- emits _ (if ?b then _ else _) => destruct b
  | |- emits _ (match ?x with _ => _ end) => destruct x
  end.

(** The same for what a computation keeps. *)
Ltac keeps_step :=
  match goal with
  | |- _ => assumption
  | |- forall _, _ => intro
  | |- keeps _ (bind _ _) => apply keeps_bind
  | |- keeps _ (try_catch _ _) => apply keeps_try_catch
  | |- keeps _ (try_catch_finally _ _ _) => apply keeps_try_catch_finally
  | |- keeps _ (ret _) => apply keeps_ret
  | |- keeps _ (throw _) => apply keeps_throw
  | |- keeps _ (lift _) => apply keeps_lift
  | |- keeps _ get_app => apply keeps_get_app
  | |- keeps _ (set_currentEmotion _) => apply keeps_set_currentEmotion
  | |- keeps _ (getElementById _) => apply keeps_getElementById
  | |- keeps _ (querySelector _ _) => apply keeps_querySelector
  | |- keeps _ (read_element _ _) => apply keeps_read_element
  | |- keeps _ (write_element _ _) => apply keeps_write_element
  | |- keeps _ (localStorage_getItem _) => apply keeps_localStorage_getItem
  | |- keeps _ (makeRequest _ _ _) => apply keeps_makeRequest
  | |- keeps _ (emit _) => apply keeps_emit
  | |- keeps _ (scrollIntoView ?el) => unfold scrollIntoView
  | |- keeps _ (show_modal ?el) => unfold show_modal
  | |- keeps _ (console_error _ _) => unfold console_error
  | |- keeps _ (alert _) => unfold alert
  | |- keeps _ (set_disabled _ _) => unfold set_disabled
  | |- keeps _ (set_innerHTML _ _) => unfold set_innerHTML
  | |- keeps _ (set_textContent _ _) => unfold set_textContent
  | |- keeps _ (set_display _ _) => unfold set_display
  | |- keeps _ (analyzeMood _ _) => unfold analyzeMood
  | |- keeps _ (getRecommendations _ _) => unfold getRecommendations
  | |- keeps _ (searchProducts _ _ _) => unfold searchProducts
  | |- keeps _ (getAllProducts _) => unfold getAllProducts
  | |- keeps _ (trackInteraction _ _ _ _) => unfold trackInteraction
  | |- keeps _ (getSimilarProducts _ _) => unfold getSimilarProducts
  | |- keeps _ (if ?b then _ else _) => destruct b
  | |- keeps _ (match ?x with _ => _ end) => destruct x
  end.

(** *** The flows emit nothing but requests, logs, alerts and view events,
    and touch nothing but the document, the request counter and
    [currentEmotion] *)

Section Flows.
Variable rt : runtime.
Variable P : event -> Prop.
Hypothesis P_page : forall e, page_event e -> P e.
Variable R : world -> world -> Prop.
Hypothesis R_refl : forall w, R w w.
Hypothesis R_trans : forall a b c, R a b -> R b c -> R a c.
Hypothesis R_sent : forall w, R w (sent w).
Hypothesis R_document : forall w d, R w (world_of (set_document d w)).
Hypothesis R_emotion : forall w v, R w (world_of (set_currentEmotion v w)).

Local Ltac emits_flow := repeat emits_step; try (apply P_page; split; reflexivity).
Local Ltac keeps_flow := repeat keeps_step; auto.

Lemma emits_viewProduct pid : emits P (viewProduct rt pid).
Proof. unfold viewProduct. emits_flow. Qed.

Lemma emits_analyzeMoodAndRecommend : emits P (analyzeMoodAndRecommend rt).
Proof. unfold analyzeMoodAndRecommend. emits_flow. Qed.

Lemma emits_performSearch : emits P (performSearch rt).
Proof. unfold performSearch. emits_flow. Qed.

Lemma emits_loadAllProducts : emits P (loadAllProducts rt).
Proof. unfold loadAllProducts. emits_flow. Qed.

Lemma keeps_viewProduct pid : keeps R (viewProduct rt pid).
Proof. unfold viewProduct. keeps_flow. Qed.

Lemma keeps_analyzeMoodAndRecommend : keeps R (analyzeMoodAndRecommend rt).
Proof. unfold analyzeMoodAndRecommend. keeps_flow. Qed.

Lemma keeps_performSearch : keeps R (performSearch rt).
Proof. unfold performSearch. keeps_flow. Qed.

Lemma keeps_loadAllProducts : keeps R (loadAllProducts rt).
Proof. unfold loadAllProducts. keeps_flow. Qed.

End Flows.

(** ** The methods of the client, as runs of one request *)

Lemma makeRequest_request_run rt endpoint opts w :
  makeRequest rt endpoint opts w = request_run rt (build_request (app w) endpoint opts) w.
Proof. apply makeRequest_run. Qed.

Lemma stringify_four (k1 k2 k3 k4 : jstring) (a b c d : value) (ta tb tc td : jstring) :
  JSON_stringify a = Some ta -> JSON_stringify b = Some tb ->
  JSON_stringify c = Some tc -> JSON_stringify d = Some td ->
  JSON_stringify (VObj [(k1, a); (k2, b); (k3, c); (k4, d)]) =
  Some (lit "{" ++ quote k1 ++ lit ":" ++ ta ++ lit "," ++
        quote k2 ++ lit ":" ++ tb ++ lit "," ++
        quote k3 ++ lit ":" ++ tc ++ lit "," ++
        quote k4 ++ lit ":" ++ td ++ lit "}").
Proof.
  intros Ha Hb Hc Hd. cbn [JSON_stringify]. rewrite Ha, Hb, Hc, Hd. cbn [join].
  repeat rewrite <- app_assoc. reflexivity.
Qed.

Lemma emotion_json (emotion : value) :
  exists ej, JSON_stringify (default_param emotion VNull) = Some ej.
Proof. apply stringify_defined, default_param_defined. discriminate. Qed.

Lemma context_json (context : value) :
  exists cj, JSON_stringify (default_param context (VObj [])) = Some cj.
Proof. apply stringify_defined, default_param_defined. discriminate. Qed.

Lemma analyzeMood_run rt text w :
  analyzeMood rt text w = request_run rt (post_request (app w) (lit "/analyze-sentiment") (analyze_body text)) w.
Proof. unfold analyzeMood. rewrite makeRequest_request_run. reflexivity. Qed.

Lemma getRecommendations_run rt context cj w :
  JSON_stringify (default_param context (VObj [])) = Some cj ->
  getRecommendations rt context w =
  request_run rt (post_request (app w) (lit "/recommendations")
                    (recommendations_body (userId (app w)) cj)) w.
Proof.
  intros Hcj. unfold getRecommendations. rewrite bind_get_app, makeRequest_request_run.
  unfold build_request, post, post_request. cbn [opt_method opt_body].
  rewrite (stringify_three _ _ _ _ _ _ (quote (userId (app w))) cj (lit "8"));
    [reflexivity | reflexivity | assumption | reflexivity].
Qed.

Lemma searchProducts_run rt query emotion ej w :
  JSON_stringify (default_param emotion VNull) = Some ej ->
  searchProducts rt query emotion w =
  request_run rt (post_request (app w) (lit "/search") (search_body query ej)) w.
Proof.
  intros Hej. unfold searchProducts. rewrite makeRequest_request_run.
  unfold build_request, post, post_request. cbn [opt_method opt_body].
  rewrite (stringify_three _ _ _ _ _ _ (quote query) ej (lit "10"));
    [reflexivity | reflexivity | assumption | reflexivity].
Qed.

Lemma trackInteraction_run rt productId action emotion ej w :
  JSON_stringify (default_param emotion VNull) = Some ej ->
  trackInteraction rt productId action emotion w =
  request_run rt (post_request (app w) (lit "/track-interaction")
                    (track_body (userId (app w)) productId action ej)) w.
Proof.
  intros Hej. unfold trackInteraction. rewrite bind_get_app, makeRequest_request_run.
  unfold build_request, post, post_request. cbn [opt_method opt_body].
  rewrite (stringify_four _ _ _ _ _ _ _ _ (quote (userId (app w))) (quote productId)
             (quote action) ej);
    [reflexivity | reflexivity | reflexivity | reflexivity | assumption].
Qed.

Lemma getSimilarProducts_run rt productId w :
  getSimilarProducts rt productId w =
  request_run rt (get_request (app w) (lit "/similar-products/" ++ productId)) w.
Proof. unfold getSimilarProducts. now rewrite makeRequest_request_run. Qed.

Lemma getAllProducts_run rt w :
  getAllProducts rt w = request_run rt (get_request (app w) (lit "/products")) w.
Proof. unfold getAllProducts. now rewrite makeRequest_request_run. Qed.

Lemma request_run_events rt req w :
  exists rest, events_of (request_run rt req w) = EvFetch req (server rt (fetches w) req) :: rest
               /\ count is_fetch rest = 0%nat.
Proof.
  unfold request_run. cbv zeta. destruct (request_outcome _); eexists; split; reflexivity.
Qed.

(** *** The identity of the user *)

Lemma same_identity_refl w : same_identity w w.
Proof. now repeat split. Qed.

Lemma same_identity_trans a b c :
  same_identity a b -> same_identity b c -> same_identity a c.
Proof. intros (H1 & H2 & H3) (H4 & H5 & H6). repeat split; congruence. Qed.

Lemma keeps_perform rt (a : action) : keeps same_identity (perform rt a).
Proof.
  pose proof same_identity_refl as Hr. pose proof same_identity_trans as Ht.
  assert (forall w, same_identity w (sent w)) as Hs by (intros; now repeat split).
  assert (forall w d, same_identity w (world_of (set_document d w))) as Hd
    by (intros; now repeat split).
  assert (forall w v, same_identity w (world_of (set_currentEmotion v w))) as He
    by (intros; now repeat split).
  destruct a; cbn [perform].
  - apply keeps_write_element; auto.
  - apply keeps_analyzeMoodAndRecommend; auto.
  - apply keeps_performSearch; auto.
  - apply keeps_viewProduct; auto.
  - repeat keeps_step; auto.
  - apply keeps_loadAllProducts; auto.
  - repeat keeps_step; auto.
  - repeat keeps_step; auto.
Qed.

Lemma emits_perform rt (a : action) : emits page_event (perform rt a).
Proof.
  destruct a; cbn [perform].
  - apply emits_write_element.
  - apply emits_analyzeMoodAndRecommend; auto.
  - apply emits_performSearch; auto.
  - apply emits_viewProduct; auto.
  - repeat emits_step; split; reflexivity.
  - apply emits_loadAllProducts; auto.
  - repeat emits_step; split; reflexivity.
  - repeat emits_step; split; reflexivity.
Qed.

Lemma keeps_session rt (acts : list action) : keeps same_identity (session rt acts).
Proof.
  induction acts as [| a acts IH]; intros w; cbn [session].
  - apply same_identity_refl.
  - cbn [world_of]. eapply same_identity_trans; [apply keeps_perform | apply IH].
Qed.

Lemma emits_session rt (acts : list action) : emits page_event (session rt acts).
Proof.
  induction acts as [| a acts IH]; intros w; cbn [session].
  - constructor.
  - cbn [events_of]. apply Forall_app. split; [apply emits_perform | apply IH].
Qed.

Lemma count_page_events (p : event -> bool) (l : list event) :
  (forall e, page_event e -> p e = false) -> Forall page_event l -> count p l = 0%nat.
Proof.
  intros Hp Hl. unfold count. induction Hl as [| e l He _ IH]; [reflexivity |].
  cbn [List.filter]. now rewrite (Hp e He).
Qed.

Lemma constructor_fresh rt w :
  localStorage w !! "userId" = None \/ localStorage w !! "userId" = Some ([] : jstring) ->
  let uid := lit "user_" ++ substr 2 16 (random36 rt (randoms w)) in
  constructor rt w =
  Run (Ok tt)
      {| localStorage := <["userId" := uid]> (localStorage w);
         document := document w;
         app := {| userId := uid; apiBase := lit "/api"; currentEmotion := VNull |};
         fetches := fetches w;
         randoms := S (randoms w) |}
      [EvRandom (random36 rt (randoms w)); EvStorageSet "userId" uid].
Proof.
  intros H uid. unfold constructor. rewrite bind_run.
  unfold localStorage_getItem. cbv beta. destruct H as [-> | ->]; reflexivity.
Qed.

Lemma constructor_stored rt w (uid : jstring) :
  localStorage w !! "userId" = Some uid -> uid <> [] ->
  constructor rt w =
  Run (Ok tt)
      {| localStorage := localStorage w;
         document := document w;
         app := {| userId := uid; apiBase := lit "/api"; currentEmotion := VNull |};
         fetches := fetches w;
         randoms := randoms w |}
      [].
Proof.
  intros H Hne. unfold constructor. rewrite bind_run.
  unfold localStorage_getItem. cbv beta. rewrite H. destruct uid; [congruence | reflexivity].
Qed.

Lemma carries_own_identity rt w : carries_identity rt (userId (app w)) w.
Proof.
  split.
  - intros context. destruct (context_json context) as [cj Hcj]. exists cj.
    rewrite (getRecommendations_run rt context cj w Hcj).
    destruct (request_run_events rt
                (post_request (app w) (lit "/recommendations")
                   (recommendations_body (userId (app w)) cj)) w) as (rest & -> & _).
    eauto.
  - intros productId action emotion. destruct (emotion_json emotion) as [ej Hej]. exists ej.
    rewrite (trackInteraction_run rt productId action emotion ej w Hej).
    destruct (request_run_events rt
                (post_request (app w) (lit "/track-interaction")
                   (track_body (userId (app w)) productId action ej)) w) as (rest & -> & _).
    eauto.
Qed.

Lemma count_app (p : event -> bool) (l1 l2 : list event) :
  count p (l1 ++ l2) = (count p l1 + count p l2)%nat.
Proof. unfold count. now rewrite List.filter_app, length_app. Qed.

(** Claim C7. On a page with no stored identity (none at all, or an empty
    text, which the script takes for none) the script draws one random
    number, stores the identity made from it once, and keeps it: whatever
    happens in the session afterwards, no other number is drawn, nothing
    else is stored, and the requests built by [getRecommendations] and
    [trackInteraction] carry that identity. On a page with a stored identity
    nothing is drawn or stored and the requests carry the stored
    identity. *)
Theorem identity_generated_once :
  (forall rt w acts,
      localStorage w !! "userId" = None \/
      localStorage w !! "userId" = Some ([] : jstring) ->
      let uid := lit "user_" ++ substr 2 16 (random36 rt (randoms w)) in
      let r := page rt acts w in
      count is_random (events_of r) = 1%nat /\
      List.filter is_storage_set (events_of r) = [EvStorageSet "userId" uid] /\
      localStorage (world_of r) !! "userId" = Some uid /\
      userId (app (world_of r)) = uid /\
      carries_identity rt uid (world_of r)) /\
  (forall rt w acts uid,
      localStorage w !! "userId" = Some uid -> uid <> [] ->
      let r := page rt acts w in
      count is_random (events_of r) = 0%nat /\
      count is_storage_set (events_of r) = 0%nat /\
      localStorage (world_of r) !! "userId" = Some uid /\
      userId (app (world_of r)) = uid /\
      carries_identity rt uid (world_of r)).
Proof.
  split.
  - intros rt w acts Hnone uid r. subst r. unfold page.
    rewrite (constructor_fresh rt w Hnone). cbv zeta. cbn [world_of events_of].
    fold uid.
    set (w1 := {| localStorage := <["userId" := uid]> (localStorage w);
                  document := document w;
                  app := {| userId := uid; apiBase := lit "/api"; currentEmotion := VNull |};
                  fetches := fetches w; randoms := S (randoms w) |}).
    destruct (keeps_session rt acts w1) as (Hu & Hl & Hr).
    pose proof (emits_session rt acts w1) as Hev.
    change (userId (app w1)) with uid in Hu. change (localStorage w1) with
      (<["userId" := uid]> (localStorage w)) in Hl.
    pose proof (carries_own_identity rt (world_of (session rt acts w1))) as Hc.
    rewrite Hu in Hc.
    split; [| split; [| split; [| split]]].
    + rewrite count_app.
      rewrite (count_page_events is_random (events_of (session rt acts w1)));
        [reflexivity | now intros e [? ?] | assumption].
    + rewrite List.filter_app. cbn [List.filter is_storage_set is_random].
      assert (List.filter is_storage_set (events_of (session rt acts w1)) = []) as ->.
      { apply length_zero_iff_nil.
        apply (count_page_events is_storage_set); [now intros e [? ?] | assumption]. }
      reflexivity.
    + rewrite Hl. apply lookup_insert_eq.
    + exact Hu.
    + exact Hc.
  - intros rt w acts uid Hsome Hne r. subst r. unfold page.
    rewrite (constructor_stored rt w uid Hsome Hne). cbv zeta. cbn [world_of events_of app_nil_l].
    set (w1 := {| localStorage := localStorage w;
                  document := document w;
                  app := {| userId := uid; apiBase := lit "/api"; currentEmotion := VNull |};
                  fetches := fetches w; randoms := randoms w |}).
    destruct (keeps_session rt acts w1) as (Hu & Hl & Hr).
    pose proof (emits_session rt acts w1) as Hev.
    change (userId (app w1)) with uid in Hu.
    change (localStorage w1) with (localStorage w) in Hl.
    pose proof (carries_own_identity rt (world_of (session rt acts w1))) as Hc.
    rewrite Hu in Hc.
    split; [| split; [| split; [| split]]].
    + apply count_page_events; [now intros e [? ?] | assumption].
    + apply count_page_events; [now intros e [? ?] | assumption].
    + now rewrite Hl.
    + exact Hu.
    + exact Hc.
Qed.

(** *** Blank input *)

Lemma trim_start_blank (s : jstring) :
  forallb is_whitespace s = true -> trim_start s = [].
Proof.
  induction s as [| c s IH]; [reflexivity |].
  cbn [forallb trim_start]. intros H. apply andb_prop in H as [Hc Hs].
  rewrite Hc. auto.
Qed.

Lemma trim_blank (s : jstring) : forallb is_whitespace s = true -> trim s = [].
Proof. intros H. unfold trim. now rewrite (trim_start_blank s H). Qed.

(** Claim C3. When the mood input (the search input) is empty or holds only
    white space, the mood flow (the search flow) shows its alert and nothing
    else: no request is issued and the world, the trigger control included,
    is left as it was. *)
Theorem blank_input_sends_nothing :
  (forall rt w input,
      document w !! "moodInput" = Some input ->
      forallb is_whitespace (el_value input) = true ->
      analyzeMoodAndRecommend rt w =
      Run (Ok tt) w [EvAlert (lit "Please tell us how you're feeling first!")]) /\
  (forall rt w input,
      document w !! "searchInput" = Some input ->
      forallb is_whitespace (el_value input) = true ->
      performSearch rt w =
      Run (Ok tt) w [EvAlert (lit "Please enter a search query!")]).
Proof.
  split; intros rt w input Hin Hblank.
  - unfold analyzeMoodAndRecommend.
    rewrite bind_getElementById, Hin, bind_run. unfold read_element. rewrite Hin.
    rewrite (trim_blank _ Hblank). reflexivity.
  - unfold performSearch.
    rewrite bind_getElementById, Hin, bind_run. unfold read_element. rewrite Hin.
    rewrite (trim_blank _ Hblank). reflexivity.
Qed.

(** *** The product view *)

Lemma try_catch_run {A} (m : M A) (h : js_error -> M A) (w : world) :
  try_catch m h w = match m w with
                    | Run (Ok a) w1 ev1 => Run (Ok a) w1 ev1
                    | Run (Throw e) w1 ev1 => prepend ev1 (h e w1)
                    end.
Proof.
  unfold try_catch, prepend. destruct (m w) as [[a | e] w1 ev1]; [reflexivity |].
  now destruct (h e w1).
Qed.

Lemma try_catch_prepend {A} (ev : list event) (r : run A) (h : js_error -> M A) :
  match prepend ev r with
  | Run (Ok a) w1 ev1 => Run (Ok a) w1 ev1
  | Run (Throw e) w1 ev1 => prepend ev1 (h e w1)
  end =
  prepend ev match r with
             | Run (Ok a) w1 ev1 => Run (Ok a) w1 ev1
             | Run (Throw e) w1 ev1 => prepend ev1 (h e w1)
             end.
Proof.
  destruct r as [[a | e] w1 ev1]; cbn; [reflexivity |].
  unfold prepend. cbn. now rewrite app_assoc.
Qed.

Lemma emits_at {A} (P : event -> Prop) (m : M A) (w : world) :
  emits P m -> Forall P (events_of (m w)).
Proof. intros H. apply H. Qed.

Lemma bind_request {B} rt (m : M value) (req : request) (k : value -> M B) (w : world) :
  m w = request_run rt req w ->
  bind m k w =
  match request_outcome (server rt (fetches w) req) with
  | Ok json => prepend [EvFetch req (server rt (fetches w) req)] (k json (sent w))
  | Throw e => Run (Throw e) (sent w)
                 [EvFetch req (server rt (fetches w) req);
                  EvConsoleError (lit "API request failed:") e]
  end.
Proof.
  intros H. rewrite bind_run, H. unfold request_run. cbv zeta.
  destruct (request_outcome _); reflexivity.
Qed.

Lemma viewProduct_run rt productId w ej :
  JSON_stringify (default_param (currentEmotion (app w)) VNull) = Some ej ->
  let track := post_request (app w) (lit "/track-interaction")
                 (track_body (userId (app w)) productId (lit "view") ej) in
  let similar := get_request (app w) (lit "/similar-products/" ++ productId) in
  let o1 := server rt (fetches w) track in
  let o2 := server rt (S (fetches w)) similar in
  exists rest : run unit,
    viewProduct rt productId w =
    match request_outcome o1 with
    | Throw e =>
        Run (Ok tt) (sent w)
          [EvFetch track o1; EvConsoleError (lit "API request failed:") e;
           EvConsoleError (lit "Error viewing product:") e; view_alert]
    | Ok _ =>
        match request_outcome o2 with
        | Throw e =>
            Run (Ok tt) (sent (sent w))
              [EvFetch track o1; EvFetch similar o2;
               EvConsoleError (lit "API request failed:") e;
               EvConsoleError (lit "Error viewing product:") e; view_alert]
        | Ok _ => prepend [EvFetch track o1; EvFetch similar o2] rest
        end
    end /\
    Forall (fun e => is_fetch e = false) (events_of rest).
Proof.
  intros Hej track similar o1 o2.
  unfold viewProduct. 
  setoid_rewrite try_catch_run. rewrite bind_get_app.
  rewrite (bind_request rt _ track) by (apply trackInteraction_run; assumption).
  fold o1. destruct (request_outcome o1) as [ack | e].
  2:{ exists (Run (Ok tt) w []). split; [reflexivity | constructor]. }
  rewrite try_catch_prepend.
  rewrite (bind_request rt _ similar) by (apply getSimilarProducts_run).
  change (server rt (fetches (sent w)) similar) with o2.
  destruct (request_outcome o2) as [similarResponse | e].
  2:{ exists (Run (Ok tt) w []). split; [reflexivity | constructor]. }
  rewrite try_catch_prepend. rewrite prepend_prepend.
  eexists. split; [reflexivity |].
  rewrite <- try_catch_run.
  apply emits_at. unfold console_error, alert.
  repeat emits_step; reflexivity.
Qed.

Lemma track_body_view (uid productId ej : jstring) :
  track_body uid productId (lit "view") ej =
  lit "{`user_id`:" ++ quote uid ++ lit ",`product_id`:" ++ quote productId ++
  lit ",`action`:`view`,`emotion`:" ++ ej ++ lit "}".
Proof. reflexivity. Qed.

(** Claim C8. Whatever the backend answers, the first thing [viewProduct]
    does is to issue the track-interaction request, with the action "view";
    any other request of the flow comes later and is the similar-products
    request, issued at most once. *)
Theorem view_tracks_first :
  forall rt productId w,
  exists ej rest,
    JSON_stringify (default_param (currentEmotion (app w)) VNull) = Some ej /\
    let track :=
      post_request (app w) (lit "/track-interaction")
        (lit "{`user_id`:" ++ quote (userId (app w)) ++
         lit ",`product_id`:" ++ quote productId ++
         lit ",`action`:`view`,`emotion`:" ++ ej ++ lit "}") in
    events_of (viewProduct rt productId w) =
      EvFetch track (server rt (fetches w) track) :: rest /\
    Forall (fun e => forall req o,
                e = EvFetch req o ->
                req = get_request (app w) (lit "/similar-products/" ++ productId))
           rest /\
    (count is_fetch rest <= 1)%nat.
Proof.
  intros rt productId w. destruct (emotion_json (currentEmotion (app w))) as [ej Hej].
  exists ej.
  destruct (viewProduct_run rt productId w ej Hej) as (tail & Hrun & Htail).
  cbv zeta in Hrun. rewrite <- track_body_view. rewrite Hrun.
  assert (count is_fetch (events_of tail) = 0%nat) as Hcount.
  { unfold count. induction Htail as [| e l He _ IH]; [reflexivity |].
    cbn [List.filter]. now rewrite He. }
  assert (Forall (fun e => forall req o,
                      e = EvFetch req o ->
                      req = get_request (app w) (lit "/similar-products/" ++ productId))
                 (events_of tail)) as Hnone.
  { eapply List.Forall_impl; [| exact Htail]. intros e He req o ->. discriminate. }
  destruct (request_outcome _) as [ack | e].
  - destruct (request_outcome _) as [resp | e].
    + eexists. split; [eassumption |]. split; [reflexivity |]. split.
      * constructor; [intros req o [= <- _]; reflexivity | exact Hnone].
      * unfold count in *. cbn [List.filter is_fetch length]. lia.
    + eexists. split; [eassumption |]. split; [reflexivity |]. split.
      * repeat constructor; intros req o; try discriminate.
        intros [= <- _]. reflexivity.
      * cbn. lia.
  - eexists. split; [eassumption |]. split; [reflexivity |]. split.
    + repeat constructor; intros req o; discriminate.
    + cbn. lia.
Qed.

(** Claim C1, as the script behaves. When the tracking call of [viewProduct]
    fails, the failure is logged by [makeRequest] and again by the handler of
    [viewProduct], the user is alerted once, and the flow ends there: the
    similar-products request is not issued. *)
Theorem failed_tracking_ends_view :
  forall rt productId w,
  exists ej,
    JSON_stringify (default_param (currentEmotion (app w)) VNull) = Some ej /\
    let track :=
      post_request (app w) (lit "/track-interaction")
        (track_body (userId (app w)) productId (lit "view") ej) in
    forall e,
      request_outcome (server rt (fetches w) track) = Throw e ->
      viewProduct rt productId w =
      Run (Ok tt) (sent w)
        [EvFetch track (server rt (fetches w) track);
         EvConsoleError (lit "API request failed:") e;
         EvConsoleError (lit "Error viewing product:") e;
         EvAlert (lit "Error loading product details. Please try again.")].
Proof.
  intros rt productId w. destruct (emotion_json (currentEmotion (app w))) as [ej Hej].
  exists ej. split; [assumption |]. intros track e He.
  destruct (viewProduct_run rt productId w ej Hej) as (tail & Hrun & _).
  cbv zeta in Hrun. rewrite Hrun. fold track. rewrite He. reflexivity.
Qed.

(** *** Responses outside 2xx *)

Lemma stops_quiet {A} (m : M A) :
  emits (fun e => is_fetch e = false) m -> stops_on_bad m.
Proof.
  intros H w Hbad. exfalso. specialize (H w).
  apply List.Exists_exists in Hbad as (e & Hin & req & st & body & -> & _).
  rewrite List.Forall_forall in H. specialize (H _ Hin). discriminate.
Qed.

Lemma stops_bind {A B} (m : M A) (k : A -> M B) :
  stops_on_bad m -> (forall a, stops_on_bad (k a)) -> stops_on_bad (bind m k).
Proof.
  intros Hm Hk w. rewrite bind_run. specialize (Hm w).
  destruct (m w) as [[a | e] w1 ev1]; cbn [events_of result_of] in *; [| eauto].
  unfold prepend. cbn [events_of result_of]. intros Hbad.
  apply List.Exists_app in Hbad as [Hbad | Hbad].
  - destruct (Hm Hbad) as [e He]. discriminate.
  - apply Hk. assumption.
Qed.

Lemma stops_makeRequest rt endpoint opts : stops_on_bad (makeRequest rt endpoint opts).
Proof.
  intros w. rewrite makeRequest_run. cbv zeta.
  destruct (request_outcome _) as [json | e] eqn:Ho; cbn [events_of result_of]; [| eauto].
  intros Hbad. exfalso.
  apply List.Exists_cons in Hbad as [(req & st & body & [= _ Hst] & Hbad) | Hnil];
    [| now apply List.Exists_nil in Hnil].
  rewrite Hst in Ho. cbn [request_outcome] in Ho. rewrite Hbad in Ho. discriminate.
Qed.

Lemma stops_eta {A} (m : M A) : stops_on_bad m -> stops_on_bad (fun w => m w).
Proof. intros H. exact H. Qed.

(** One step of a proof of [stops_on_bad]. *)
Ltac stops_step :=
  match goal with
  | |- forall _, _ => intro
  | |- stops_on_bad (fun _ => _) => apply stops_eta
  | |- stops_on_bad (bind _ _) => apply stops_bind
  | |- stops_on_bad (makeRequest _ _ _) => apply stops_makeRequest
  | |- stops_on_bad (analyzeMood _ _) => unfold analyzeMood
  | |- stops_on_bad (getRecommendations _ _) => unfold getRecommendations
  | |- stops_on_bad (searchProducts _ _ _) => unfold searchProducts
  | |- stops_on_bad (if ?b then _ else _) => destruct b
  | |- stops_on_bad (match ?x with _ => _ end) => destruct x
  | |- stops_on_bad _ => apply stops_quiet; repeat emits_step; reflexivity
  end.

Lemma keeps_elements_refl w : keeps_elements w w.
Proof. now intros id. Qed.

Lemma keeps_elements_trans a b c :
  keeps_elements a b -> keeps_elements b c -> keeps_elements a c.
Proof. intros H1 H2 id H. auto. Qed.

Lemma keeps_elements_sent w : keeps_elements w (sent w).
Proof. now intros id. Qed.

Lemma keeps_elements_emotion w v : keeps_elements w (world_of (set_currentEmotion v w)).
Proof. now intros id. Qed.

(** The guarded shape shared by the mood and search flows: the handler logs
    and alerts, the cleanup re-enables the control [id] and restores its
    label. *)
Lemma guarded_flow (body : M unit) (label message restored : jstring)
      (id : string) (w : world) :
  emits (fun e => is_alert e = false) body ->
  stops_on_bad body ->
  keeps keeps_elements body ->
  is_Some (document w !! id) ->
  let r := try_catch_finally body
             (fun error => let! _ := console_error label error in alert message)
             (let! _ := set_disabled (Some id) false in
              set_innerHTML (Some id) restored) w in
  (exists b, document (world_of r) !! id = Some b /\
             el_disabled b = false /\ el_content b = Markup restored) /\
  (Exists bad_response (events_of r) -> count is_alert (events_of r) = 1%nat).
Proof.
  intros Hquiet Hstops Hkeeps Hid r. subst r.
  unfold try_catch_finally. rewrite try_catch_run.
  specialize (Hquiet w). specialize (Hstops w). specialize (Hkeeps w id Hid).
  destruct (body w) as [[[] | e] w1 ev1]; cbn [events_of result_of world_of] in *.
  - destruct Hkeeps as [b Hb]. cbn. rewrite app_nil_r. split.
    + eexists. split; [rewrite lookup_alter_eq, lookup_alter_eq, Hb; reflexivity |].
      split; reflexivity.
    + intros Hbad. destruct (Hstops Hbad) as [e He]. discriminate.
  - destruct Hkeeps as [b Hb]. cbn. split.
    + eexists. split; [rewrite lookup_alter_eq, lookup_alter_eq, Hb; reflexivity |].
      split; reflexivity.
    + intros _. rewrite app_nil_r, List.filter_app, length_app.
      assert (length (List.filter is_alert ev1) = 0%nat) as ->; [| reflexivity].
      clear Hstops. induction Hquiet as [| x l Hx _ IH]; [reflexivity |].
      cbn [List.filter]. rewrite Hx. exact IH.
Qed.

Lemma keeps_elements_write (el : option string) (f : element -> element) :
  keeps keeps_elements (write_element el f).
Proof.
  intros w. destruct el as [id |]; cbn; [| apply keeps_elements_refl].
  intros id' [b Hb]. cbn. destruct (decide (id = id')) as [-> | Hne].
  - rewrite lookup_alter_eq, Hb. eauto.
  - rewrite lookup_alter_ne, Hb by assumption. eauto.
Qed.

(** One step of a proof that a computation removes no element. *)
Ltac keeps_elements_step :=
  first
    [ apply keeps_elements_write
    | apply keeps_elements_refl
    | apply keeps_elements_trans
    | apply keeps_elements_sent
    | apply keeps_elements_emotion
    | keeps_step ].

Lemma bind_write_element {B} (id : string) (f : element -> element)
      (k : unit -> M B) (w : world) :
  bind (write_element (Some id) f) k w =
  k tt (world_of (set_document (alter f id (document w)) w)).
Proof. rewrite bind_run. apply prepend_nil. Qed.

Lemma bind_read_element {A B} (id : string) (f : element -> A) (k : A -> M B)
      (w : world) (e : element) :
  document w !! id = Some e ->
  bind (read_element (Some id) f) k w = k (f e) w.
Proof. intros H. rewrite bind_run. cbn. rewrite H. apply prepend_nil. Qed.

(** [focus_on t] abstracts the goal over the run [t], so that rewriting
    touches the run only; [unfocus] puts the goal back together. *)
Ltac focus_on t :=
  pattern t;
  match goal with
  | |- ?P _ => let Q := fresh "Goal_of" in set (Q := P)
  end.

Ltac unfocus :=
  match goal with
  | Q := (fun _ : run _ => _) |- _ => subst Q; cbv beta
  end.

(** A flow that issued a request found its input non-blank and its trigger
    control in the document. *)
Lemma mood_flow_started rt w :
  requested (events_of (analyzeMoodAndRecommend rt w)) ->
  exists input btn,
    document w !! "moodInput" = Some input /\
    trim (el_value input) <> [] /\
    document w !! "analyzeMoodBtn" = Some btn.
Proof.
  focus_on (analyzeMoodAndRecommend rt w).
  unfold analyzeMoodAndRecommend. rewrite bind_getElementById.
  destruct (document w !! "moodInput") as [input |] eqn:Hin.
  2:{ unfocus. cbn. intros H. inversion H. }
  rewrite (bind_read_element _ _ _ _ input Hin).
  destruct (trim (el_value input)) as [| c moodText] eqn:Htrim.
  { unfocus. cbn. intros H. inversion H as [? ? H1 | ? ? H1]; subst; [discriminate | inversion H1]. }
  rewrite bind_getElementById.
  destruct (document w !! "analyzeMoodBtn") as [btn |] eqn:Hbtn.
  2:{ unfocus. cbn. intros H. inversion H. }
  unfocus. intros _. exists input, btn. rewrite Htrim. repeat split; congruence.
Qed.

Lemma search_flow_started rt w :
  requested (events_of (performSearch rt w)) ->
  exists input btn,
    document w !! "searchInput" = Some input /\
    trim (el_value input) <> [] /\
    document w !! "searchBtn" = Some btn.
Proof.
  focus_on (performSearch rt w).
  unfold performSearch. rewrite bind_getElementById.
  destruct (document w !! "searchInput") as [input |] eqn:Hin.
  2:{ unfocus. cbn. intros H. inversion H. }
  rewrite (bind_read_element _ _ _ _ input Hin).
  destruct (trim (el_value input)) as [| c query] eqn:Htrim.
  { unfocus. cbn. intros H. inversion H as [? ? H1 | ? ? H1]; subst; [discriminate | inversion H1]. }
  rewrite bind_getElementById.
  destruct (document w !! "searchBtn") as [btn |] eqn:Hbtn.
  2:{ unfocus. cbn. intros H. inversion H. }
  unfocus. intros _. exists input, btn. rewrite Htrim. repeat split; congruence.
Qed.

Lemma bad_response_requested (l : list event) : Exists bad_response l -> requested l.
Proof.
  intros H. unfold requested. apply List.Exists_exists in H as (e & Hin & req & st & b & -> & _).
  apply List.Exists_exists. eauto.
Qed.

Lemma nth_fetch_requested (l : list event) (n : nat) req o :
  nth_error l n = Some (EvFetch req o) -> requested l.
Proof.
  intros H. apply List.Exists_exists. exists (EvFetch req o).
  split; [eapply nth_error_In; eassumption | reflexivity].
Qed.

Lemma bad_response_mood rt w input btn :
  document w !! "moodInput" = Some input ->
  trim (el_value input) <> [] ->
  document w !! "analyzeMoodBtn" = Some btn ->
  let r := analyzeMoodAndRecommend rt w in
  (exists b, document (world_of r) !! "analyzeMoodBtn" = Some b /\
             el_disabled b = false /\
             el_content b = Markup analyze_default_label) /\
  (Exists bad_response (events_of r) -> count is_alert (events_of r) = 1%nat).
Proof.
  intros Hin Htext Hbtn r; subst r; cbv zeta.
  focus_on (analyzeMoodAndRecommend rt w).
  unfold analyzeMoodAndRecommend.
  rewrite bind_getElementById, Hin, (bind_read_element _ _ _ _ input Hin).
  destruct (trim (el_value input)) as [| c moodText]; [congruence |].
  rewrite bind_getElementById, Hbtn.
  unfold set_disabled at 1. rewrite bind_write_element.
  unfold set_innerHTML at 1. rewrite bind_write_element.
  unfocus. apply guarded_flow.
  - unfold console_error, alert. repeat emits_step; reflexivity.
  - repeat stops_step.
  - repeat keeps_elements_step.
  - cbn. rewrite lookup_alter_eq, lookup_alter_eq, Hbtn. eauto.
Qed.

Lemma bad_response_search rt w input btn :
  document w !! "searchInput" = Some input ->
  trim (el_value input) <> [] ->
  document w !! "searchBtn" = Some btn ->
  let r := performSearch rt w in
  (exists b, document (world_of r) !! "searchBtn" = Some b /\
             el_disabled b = false /\
             el_content b = Markup search_default_label) /\
  (Exists bad_response (events_of r) -> count is_alert (events_of r) = 1%nat).
Proof.
  intros Hin Htext Hbtn r; subst r; cbv zeta.
  focus_on (performSearch rt w).
  unfold performSearch.
  rewrite bind_getElementById, Hin, (bind_read_element _ _ _ _ input Hin).
  destruct (trim (el_value input)) as [| c query]; [congruence |].
  rewrite bind_getElementById, Hbtn.
  unfold set_disabled at 1. rewrite bind_write_element.
  unfold set_innerHTML at 1. rewrite bind_write_element.
  unfocus. apply guarded_flow.
  - unfold console_error, alert. repeat emits_step; reflexivity.
  - repeat stops_step.
  - repeat keeps_elements_step.
  - cbn. rewrite lookup_alter_eq, lookup_alter_eq, Hbtn. eauto.
Qed.

(** Claim C2. Whenever the mood flow (the search flow) issues a request, it
    ends with its trigger control enabled and labelled as by default,
    whatever the backend answers; and when one of its requests meets a
    response outside 2xx, exactly one alert is shown. *)
Theorem bad_response_restores_control :
  (forall rt w,
      let r := analyzeMoodAndRecommend rt w in
      (requested (events_of r) ->
       exists b, document (world_of r) !! "analyzeMoodBtn" = Some b /\
                 el_disabled b = false /\
                 el_content b = Markup analyze_default_label) /\
      (Exists bad_response (events_of r) -> count is_alert (events_of r) = 1%nat)) /\
  (forall rt w,
      let r := performSearch rt w in
      (requested (events_of r) ->
       exists b, document (world_of r) !! "searchBtn" = Some b /\
                 el_disabled b = false /\
                 el_content b = Markup search_default_label) /\
      (Exists bad_response (events_of r) -> count is_alert (events_of r) = 1%nat)).
Proof.
  split; intros rt w r; subst r; cbv zeta.
  - split.
    + intros H. destruct (mood_flow_started rt w H) as (input & btn & Hin & Htext & Hbtn).
      apply (bad_response_mood rt w input btn Hin Htext Hbtn).
    + intros H.
      destruct (mood_flow_started rt w (bad_response_requested _ H))
        as (input & btn & Hin & Htext & Hbtn).
      apply (bad_response_mood rt w input btn Hin Htext Hbtn). exact H.
  - split.
    + intros H. destruct (search_flow_started rt w H) as (input & btn & Hin & Htext & Hbtn).
      apply (bad_response_search rt w input btn Hin Htext Hbtn).
    + intros H.
      destruct (search_flow_started rt w (bad_response_requested _ H))
        as (input & btn & Hin & Htext & Hbtn).
      apply (bad_response_search rt w input btn Hin Htext Hbtn). exact H.
Qed.

(** *** Envelopes whose [success] is false *)

Lemma guarded_run (body : M unit) (label message restored : jstring)
      (id : string) (w : world) :
  try_catch_finally body
    (fun error => let! _ := console_error label error in alert message)
    (let! _ := set_disabled (Some id) false in set_innerHTML (Some id) restored) w =
  Run (Ok tt) (restore_control id restored (world_of (body w)))
      (events_of (body w) ++ guard_tail label message (result_of (body w))).
Proof.
  unfold try_catch_finally. rewrite try_catch_run.
  destruct (body w) as [[[] | e] w1 ev1]; cbn; now rewrite ?app_nil_r.
Qed.

Lemma restore_control_other id label w id' :
  id' <> id -> document (restore_control id label w) !! id' = document w !! id'.
Proof. intros H. cbn. now rewrite !lookup_alter_ne by congruence. Qed.

Lemma restore_control_self id label w e :
  document w !! id = Some e ->
  document (restore_control id label w) !! id =
  Some {| el_value := el_value e; el_content := Markup label;
          el_disabled := false; el_display := el_display e |}.
Proof. intros H. cbn. now rewrite !lookup_alter_eq, H. Qed.

Lemma request_outcome_ok (status : Z) (body : value) :
  response_ok status = true -> request_outcome (HttpResponse status (Some body)) = Ok body.
Proof. intros H. cbn. now rewrite H. Qed.

Lemma bind_throw_write {B} (f : element -> element) (k : unit -> M B) (w : world) :
  bind (write_element None f) k w = Run (Throw TypeError) w [].
Proof. reflexivity. Qed.

(** Computing the projections of a run and of a world. *)
Ltac run_world :=
  cbn [world_of set_document sent document app fetches randoms localStorage
       set_currentEmotion bind get_app set_app events_of result_of prepend
       guard_tail List.app nth_error].

Lemma some_fetch_inj (r r' : request) (o o' : fetch_outcome) :
  Some (EvFetch r o) = Some (EvFetch r' o') -> r = r' /\ o = o'.
Proof. intros [= -> ->]. now split. Qed.

(** Focusing on the body of a guarded flow. *)
Ltac focus_body :=
  match goal with
  | |- context [result_of (?b ?w)] => focus_on (b w)
  end.

Lemma success_false_mood rt w input btn req status body :
  document w !! "moodInput" = Some input ->
  trim (el_value input) <> [] ->
  document w !! "analyzeMoodBtn" = Some btn ->
  let r := analyzeMoodAndRecommend rt w in
  nth_error (events_of r) 0 = Some (EvFetch req (HttpResponse status (Some body))) ->
  response_ok status = true ->
  get_prop body (lit "success") = Ok (VBool false) ->
  result_of r = Ok tt /\
  events_of r = [EvFetch req (HttpResponse status (Some body))] /\
  app (world_of r) = app w /\
  (forall id, id <> "analyzeMoodBtn" -> document (world_of r) !! id = document w !! id) /\
  document (world_of r) !! "analyzeMoodBtn" =
    Some {| el_value := el_value btn; el_content := Markup analyze_default_label;
            el_disabled := false; el_display := el_display btn |}.
Proof.
  intros Hin Htext Hbtn r. subst r. cbv zeta.
  focus_on (analyzeMoodAndRecommend rt w).
  unfold analyzeMoodAndRecommend.
  rewrite bind_getElementById, Hin, (bind_read_element _ _ _ _ input Hin).
  destruct (trim (el_value input)) as [| c moodText]; [congruence |].
  rewrite bind_getElementById, Hbtn.
  unfold set_disabled at 1. rewrite bind_write_element.
  unfold set_innerHTML at 1. rewrite bind_write_element.
  rewrite guarded_run. unfocus.
  focus_body.
  rewrite (bind_request rt _ _ _ _ (analyzeMood_run rt _ _)).
  match goal with |- context [server rt ?n ?q] => set (o := server rt n q) end.
  destruct (request_outcome o) as [resp | e] eqn:Ho; unfocus; run_world.
  - intros H Hok Hsuccess. apply some_fetch_inj in H as [Hreq Hresp]. rewrite Hresp in Ho.
    rewrite (request_outcome_ok _ _ Hok) in Ho. injection Ho as <-.
    focus_body. rewrite bind_lift, Hsuccess. cbn [truthy]. unfocus. run_world.
    rewrite Hreq, Hresp. split; [reflexivity |]. split; [reflexivity |].
    split; [reflexivity |]. split.
    + intros id Hid. cbn. now rewrite !lookup_alter_ne by congruence.
    + cbn. now rewrite !lookup_alter_eq, Hbtn.
  - intros H Hok Hsuccess. apply some_fetch_inj in H as [Hreq Hresp]. rewrite Hresp in Ho.
    rewrite (request_outcome_ok _ _ Hok) in Ho. discriminate.
Qed.

Lemma bind_set_currentEmotion {B} (v : value) (k : unit -> M B) (w : world) :
  bind (set_currentEmotion v) k w = k tt (world_of (set_currentEmotion v w)).
Proof. rewrite bind_run. apply prepend_nil. Qed.

(** One step of a focused run: a pure step that may throw. On a throw the
    goal is left to [tac]. *)
Ltac lift_step tac :=
  rewrite bind_lift;
  match goal with
  | |- context [match ?r with Ok _ => _ | Throw _ => _ end] =>
      let E := fresh "E" in destruct r eqn:E; [| solve [tac]]
  end.

(** The second event of the run at hand is not a request. *)
Ltac no_second_fetch :=
  unfocus; run_world; intros H; discriminate H.

Lemma success_false_recommendations rt w input btn req status body :
  document w !! "moodInput" = Some input ->
  trim (el_value input) <> [] ->
  document w !! "analyzeMoodBtn" = Some btn ->
  let r := analyzeMoodAndRecommend rt w in
  nth_error (events_of r) 1 = Some (EvFetch req (HttpResponse status (Some body))) ->
  response_ok status = true ->
  get_prop body (lit "success") = Ok (VBool false) ->
  result_of r = Ok tt /\
  (exists first, events_of r = [first; EvFetch req (HttpResponse status (Some body))] /\
                 is_fetch first = true) /\
  req_url req = apiBase (app w) ++ lit "/recommendations" /\
  (forall id, id <> "analyzeMoodBtn" -> id <> "sentimentAnalysis" ->
              document (world_of r) !! id = document w !! id) /\
  document (world_of r) !! "analyzeMoodBtn" =
    Some {| el_value := el_value btn; el_content := Markup analyze_default_label;
            el_disabled := false; el_display := el_display btn |}.
Proof.
  intros Hin Htext Hbtn r. subst r. cbv zeta.
  focus_on (analyzeMoodAndRecommend rt w).
  unfold analyzeMoodAndRecommend.
  rewrite bind_getElementById, Hin, (bind_read_element _ _ _ _ input Hin).
  destruct (trim (el_value input)) as [| c moodText]; [congruence |].
  rewrite bind_getElementById, Hbtn.
  unfold set_disabled at 1. rewrite bind_write_element.
  unfold set_innerHTML at 1. rewrite bind_write_element.
  rewrite guarded_run. unfocus.
  focus_body.
  rewrite (bind_request rt _ _ _ _ (analyzeMood_run rt _ _)).
  match goal with |- context [server rt ?n ?q] => set (o := server rt n q) end.
  destruct (request_outcome o) as [resp | e] eqn:Ho; [| no_second_fetch].
  lift_step no_second_fetch.
  destruct (truthy a); [| no_second_fetch].
  lift_step no_second_fetch.
  lift_step no_second_fetch.
  rewrite bind_set_currentEmotion, bind_getElementById.
  lift_step no_second_fetch.
  match goal with
  | |- context [match ?d !! "sentimentAnalysis" with _ => _ end] =>
      destruct (d !! "sentimentAnalysis") as [div |] eqn:Hdiv
  end; [| unfold set_innerHTML at 1; rewrite bind_throw_write; no_second_fetch].
  unfold set_innerHTML at 1. rewrite bind_write_element.
  lift_step no_second_fetch.
  match goal with
  | |- context [getRecommendations rt ?ctx] =>
      destruct (context_json ctx) as [cj Hcj];
      rewrite (bind_request rt _ _ _ _ (getRecommendations_run rt ctx cj _ Hcj))
  end.
  match goal with
  | |- context [EvFetch ?q (server rt ?n ?q)] =>
      lazymatch q with
      | context [lit "/recommendations"] => set (o2 := server rt n q)
      end
  end.
  destruct (request_outcome o2) as [resp2 | e] eqn:Ho2; unfocus; run_world.
  - intros H Hok Hsuccess. apply some_fetch_inj in H as [Hreq Hresp]. rewrite Hresp in Ho2.
    rewrite (request_outcome_ok _ _ Hok) in Ho2. injection Ho2 as <-.
    focus_body. rewrite bind_lift, Hsuccess. cbn [truthy]. unfocus. run_world.
    rewrite <- Hreq, Hresp. split; [reflexivity |]. split; [eauto |].
    split; [reflexivity |]. split.
    + intros id Hid Hid'. cbn.
      now rewrite !lookup_alter_ne by congruence.
    + cbn.
      rewrite !lookup_alter_eq, lookup_alter_ne, !lookup_alter_eq, Hbtn by discriminate.
      reflexivity.
  - intros H Hok Hsuccess. apply some_fetch_inj in H as [Hreq Hresp]. rewrite Hresp in Ho2.
    rewrite (request_outcome_ok _ _ Hok) in Ho2. discriminate.
Qed.

Lemma success_false_search rt w input btn req status body :
  document w !! "searchInput" = Some input ->
  trim (el_value input) <> [] ->
  document w !! "searchBtn" = Some btn ->
  let r := performSearch rt w in
  nth_error (events_of r) 0 = Some (EvFetch req (HttpResponse status (Some body))) ->
  response_ok status = true ->
  get_prop body (lit "success") = Ok (VBool false) ->
  result_of r = Ok tt /\
  events_of r = [EvFetch req (HttpResponse status (Some body))] /\
  app (world_of r) = app w /\
  (forall id, id <> "searchBtn" -> document (world_of r) !! id = document w !! id) /\
  document (world_of r) !! "searchBtn" =
    Some {| el_value := el_value btn; el_content := Markup search_default_label;
            el_disabled := false; el_display := el_display btn |}.
Proof.
  intros Hin Htext Hbtn r. subst r. cbv zeta.
  focus_on (performSearch rt w).
  unfold performSearch.
  rewrite bind_getElementById, Hin, (bind_read_element _ _ _ _ input Hin).
  destruct (trim (el_value input)) as [| c query]; [congruence |].
  rewrite bind_getElementById, Hbtn.
  unfold set_disabled at 1. rewrite bind_write_element.
  unfold set_innerHTML at 1. rewrite bind_write_element.
  rewrite guarded_run. unfocus.
  focus_body.
  rewrite bind_get_app.
  match goal with
  | |- context [searchProducts rt ?q ?em] =>
      destruct (emotion_json em) as [ej Hej];
      rewrite (bind_request rt _ _ _ _ (searchProducts_run rt q em ej _ Hej))
  end.
  match goal with |- context [server rt ?n ?q] => set (o := server rt n q) end.
  destruct (request_outcome o) as [resp | e] eqn:Ho; unfocus; run_world.
  - intros H Hok Hsuccess. apply some_fetch_inj in H as [Hreq Hresp]. rewrite Hresp in Ho.
    rewrite (request_outcome_ok _ _ Hok) in Ho. injection Ho as <-.
    focus_body. rewrite bind_lift, Hsuccess. cbn [truthy]. unfocus. run_world.
    rewrite Hreq, Hresp. split; [reflexivity |]. split; [reflexivity |].
    split; [reflexivity |]. split.
    + intros id Hid. cbn. now rewrite !lookup_alter_ne by congruence.
    + cbn. now rewrite !lookup_alter_eq, Hbtn.
  - intros H Hok Hsuccess. apply some_fetch_inj in H as [Hreq Hresp]. rewrite Hresp in Ho.
    rewrite (request_outcome_ok _ _ Hok) in Ho. discriminate.
Qed.

Lemma try_catch_request {A} rt (m : M value) (req : request) (k : value -> M A)
      (h : js_error -> M A) (w : world) :
  m w = request_run rt req w ->
  try_catch (bind m k) h w =
  match request_outcome (server rt (fetches w) req) with
  | Ok json =>
      prepend [EvFetch req (server rt (fetches w) req)] (try_catch (k json) h (sent w))
  | Throw e =>
      prepend [EvFetch req (server rt (fetches w) req);
               EvConsoleError (lit "API request failed:") e] (h e (sent w))
  end.
Proof.
  intros H. rewrite try_catch_run, (bind_request rt m req k w H).
  destruct (request_outcome _) as [json | e]; [| reflexivity].
  rewrite try_catch_prepend. now rewrite <- try_catch_run.
Qed.

Lemma try_catch_get_app {A} (k : app_state -> M A) (h : js_error -> M A) (w : world) :
  try_catch (bind get_app k) h w = try_catch (k (app w)) h w.
Proof. now rewrite !try_catch_run, bind_get_app. Qed.

Lemma try_catch_lift {A B} (r : result A) (k : A -> M B) (h : js_error -> M B) (w : world) :
  try_catch (bind (lift r) k) h w =
  match r with
  | Ok a => try_catch (k a) h w
  | Throw e => h e w
  end.
Proof.
  rewrite !try_catch_run, bind_lift. destruct r as [a | e].
  - now rewrite <- try_catch_run.
  - apply prepend_nil.
Qed.

Lemma success_false_catalog rt w req status body :
  let r := loadAllProducts rt w in
  nth_error (events_of r) 0 = Some (EvFetch req (HttpResponse status (Some body))) ->
  response_ok status = true ->
  get_prop body (lit "success") = Ok (VBool false) ->
  r = Run (Ok tt) (sent w) [EvFetch req (HttpResponse status (Some body))].
Proof.
  intros r. subst r. cbv zeta.
  focus_on (loadAllProducts rt w).
  unfold loadAllProducts.
  rewrite (try_catch_request rt _ _ _ _ _ (getAllProducts_run rt _)).
  match goal with |- context [server rt ?n ?q] => set (o := server rt n q) end.
  destruct (request_outcome o) as [resp | e] eqn:Ho; unfocus; run_world.
  - intros H Hok Hsuccess. apply some_fetch_inj in H as [Hreq Hresp]. rewrite Hresp in Ho.
    rewrite (request_outcome_ok _ _ Hok) in Ho. injection Ho as <-.
    rewrite try_catch_lift, Hsuccess. cbn [truthy]. rewrite Hreq, Hresp. reflexivity.
  - intros H Hok Hsuccess. apply some_fetch_inj in H as [Hreq Hresp]. rewrite Hresp in Ho.
    rewrite (request_outcome_ok _ _ Hok) in Ho. discriminate.
Qed.

Lemma success_false_view rt productId w req status body :
  let r := viewProduct rt productId w in
  nth_error (events_of r) 1 = Some (EvFetch req (HttpResponse status (Some body))) ->
  response_ok status = true ->
  get_prop body (lit "success") = Ok (VBool false) ->
  exists first,
    r = Run (Ok tt) (sent (sent w))
          [first; EvFetch req (HttpResponse status (Some body))] /\
    is_fetch first = true /\
    req_url req = apiBase (app w) ++ lit "/similar-products/" ++ productId.
Proof.
  intros r. subst r. cbv zeta.
  focus_on (viewProduct rt productId w).
  unfold viewProduct. rewrite try_catch_get_app.
  destruct (emotion_json (currentEmotion (app w))) as [ej Hej].
  rewrite (try_catch_request rt _ _ _ _ _ (trackInteraction_run rt _ _ _ ej _ Hej)).
  match goal with |- context [server rt ?n ?q] => set (o := server rt n q) end.
  destruct (request_outcome o) as [ack | e] eqn:Ho; unfocus;
    [| run_world; intros H; discriminate H].
  match goal with
  | |- context [try_catch ?m ?h ?w0] => focus_on (try_catch m h w0)
  end.
  rewrite (try_catch_request rt _ _ _ _ _ (getSimilarProducts_run rt _ _)).
  match goal with
  | |- context [EvFetch ?q (server rt ?n ?q)] =>
      lazymatch q with
      | context [lit "/similar-products/"] => set (o2 := server rt n q)
      end
  end.
  destruct (request_outcome o2) as [resp | e] eqn:Ho2; unfocus; run_world.
  - intros H Hok Hsuccess. apply some_fetch_inj in H as [Hreq Hresp]. rewrite Hresp in Ho2.
    rewrite (request_outcome_ok _ _ Hok) in Ho2. injection Ho2 as <-.
    rewrite try_catch_lift, Hsuccess. cbn [truthy]. run_world.
    rewrite <- Hreq, Hresp. eexists. split; [reflexivity |]. split; reflexivity.
  - intros H Hok Hsuccess. apply some_fetch_inj in H as [Hreq Hresp]. rewrite Hresp in Ho2.
    rewrite (request_outcome_ok _ _ Hok) in Ho2. discriminate.
Qed.

(** *** Rendering the recommendations *)


(** Looking up an element of a document after writes to elements. *)
Ltac lookup_altered :=
  repeat first [ rewrite lookup_alter_ne by discriminate | rewrite lookup_alter_eq ].


(** Claim C9. A 2xx envelope whose [success] is [false] makes each flow stop
    quietly. In the mood flow, when it answers the analysis request, and in
    the search flow: the flow returns normally, its only event is that
    request, and the document is as before but for the trigger control,
    enabled with its default label. In the mood flow, when it answers the
    recommendations request (the second request): no alert, no log, and no
    element but the control and the sentiment summary of the analysis step
    has changed. In the catalog load and in the product view (for the
    similar-products request): the flow returns normally, the requests are
    its only events and the document is untouched. *)
Theorem success_false_is_silent :
  (forall rt w req status body,
      let r := analyzeMoodAndRecommend rt w in
      nth_error (events_of r) 0 = Some (EvFetch req (HttpResponse status (Some body))) ->
      response_ok status = true ->
      get_prop body (lit "success") = Ok (VBool false) ->
      result_of r = Ok tt /\
      events_of r = [EvFetch req (HttpResponse status (Some body))] /\
      app (world_of r) = app w /\
      (forall id, id <> "analyzeMoodBtn" -> document (world_of r) !! id = document w !! id) /\
      exists btn,
        document w !! "analyzeMoodBtn" = Some btn /\
        document (world_of r) !! "analyzeMoodBtn" =
          Some {| el_value := el_value btn; el_content := Markup analyze_default_label;
                  el_disabled := false; el_display := el_display btn |}) /\
  (forall rt w req status body,
      let r := analyzeMoodAndRecommend rt w in
      nth_error (events_of r) 1 = Some (EvFetch req (HttpResponse status (Some body))) ->
      response_ok status = true ->
      get_prop body (lit "success") = Ok (VBool false) ->
      result_of r = Ok tt /\
      (exists first, events_of r = [first; EvFetch req (HttpResponse status (Some body))] /\
                     is_fetch first = true) /\
      req_url req = apiBase (app w) ++ lit "/recommendations" /\
      (forall id, id <> "analyzeMoodBtn" -> id <> "sentimentAnalysis" ->
                  document (world_of r) !! id = document w !! id) /\
      exists btn,
        document w !! "analyzeMoodBtn" = Some btn /\
        document (world_of r) !! "analyzeMoodBtn" =
          Some {| el_value := el_value btn; el_content := Markup analyze_default_label;
                  el_disabled := false; el_display := el_display btn |}) /\
  (forall rt w req status body,
      let r := performSearch rt w in
      nth_error (events_of r) 0 = Some (EvFetch req (HttpResponse status (Some body))) ->
      response_ok status = true ->
      get_prop body (lit "success") = Ok (VBool false) ->
      result_of r = Ok tt /\
      events_of r = [EvFetch req (HttpResponse status (Some body))] /\
      app (world_of r) = app w /\
      (forall id, id <> "searchBtn" -> document (world_of r) !! id = document w !! id) /\
      exists btn,
        document w !! "searchBtn" = Some btn /\
        document (world_of r) !! "searchBtn" =
          Some {| el_value := el_value btn; el_content := Markup search_default_label;
                  el_disabled := false; el_display := el_display btn |}) /\
  (forall rt w req status body,
      let r := loadAllProducts rt w in
      nth_error (events_of r) 0 = Some (EvFetch req (HttpResponse status (Some body))) ->
      response_ok status = true ->
      get_prop body (lit "success") = Ok (VBool false) ->
      r = Run (Ok tt) (sent w) [EvFetch req (HttpResponse status (Some body))]) /\
  (forall rt productId w req status body,
      let r := viewProduct rt productId w in
      nth_error (events_of r) 1 = Some (EvFetch req (HttpResponse status (Some body))) ->
      response_ok status = true ->
      get_prop body (lit "success") = Ok (VBool false) ->
      exists first,
        r = Run (Ok tt) (sent (sent w))
              [first; EvFetch req (HttpResponse status (Some body))] /\
        is_fetch first = true /\
        req_url req = apiBase (app w) ++ lit "/similar-products/" ++ productId).
Proof.
  split; [| split; [| split; [| split]]].
  - intros rt w req status body r Hnth Hok Hsuccess. subst r.
    destruct (mood_flow_started rt w (nth_fetch_requested _ _ _ _ Hnth))
      as (input & btn & Hin & Htext & Hbtn).
    destruct (success_false_mood rt w input btn req status body Hin Htext Hbtn Hnth Hok Hsuccess)
      as (H1 & H2 & H3 & H4 & H5).
    repeat (split; [assumption |]). eauto.
  - intros rt w req status body r Hnth Hok Hsuccess. subst r.
    destruct (mood_flow_started rt w (nth_fetch_requested _ _ _ _ Hnth))
      as (input & btn & Hin & Htext & Hbtn).
    destruct (success_false_recommendations rt w input btn req status body
                Hin Htext Hbtn Hnth Hok Hsuccess) as (H1 & H2 & H3 & H4 & H5).
    repeat (split; [assumption |]). eauto.
  - intros rt w req status body r Hnth Hok Hsuccess. subst r.
    destruct (search_flow_started rt w (nth_fetch_requested _ _ _ _ Hnth))
      as (input & btn & Hin & Htext & Hbtn).
    destruct (success_false_search rt w input btn req status body Hin Htext Hbtn Hnth Hok Hsuccess)
      as (H1 & H2 & H3 & H4 & H5).
    repeat (split; [assumption |]). eauto.
  - exact success_false_catalog.
  - exact success_false_view.
Qed.

(** ** Further properties of the client *)

(** *** The identity across visits *)

Lemma substr_length (start len : nat) (s : jstring) :
  (length (substr start len s) <= len)%nat.
Proof. unfold substr. rewrite length_firstn. lia. Qed.

(** Property X1. The identity made on a first visit is "user_" followed by
    at most 16 code units, whatever the random digits are, and the next
    load of the page reuses it: a constructor run on the storage a first
    visit left draws no number, stores nothing and holds that same
    identity. *)
Theorem generated_identity_reused :
  forall rt rt' w w',
    localStorage w !! "userId" = None \/
    localStorage w !! "userId" = Some ([] : jstring) ->
    localStorage w' = localStorage (world_of (constructor rt w)) ->
    let uid := userId (app (world_of (constructor rt w))) in
    prefix_of (lit "user_") uid /\
    (5 <= length uid <= 21)%nat /\
    constructor rt' w' =
      Run (Ok tt)
        {| localStorage := localStorage w'; document := document w';
           app := {| userId := uid; apiBase := lit "/api"; currentEmotion := VNull |};
           fetches := fetches w'; randoms := randoms w' |} [].
Proof.
  intros rt rt' w w' Hfresh Hstore. cbv zeta.
  rewrite (constructor_fresh rt w Hfresh) in *. cbn [world_of app userId localStorage] in *.
  split; [eexists; reflexivity |]. split.
  - rewrite length_app. pose proof (substr_length 2 16 (random36 rt (randoms w))).
    change (length (lit "user_")) with 5%nat. lia.
  - apply constructor_stored; [| discriminate].
    rewrite Hstore. apply lookup_insert_eq.
Qed.

(** *** The catalogue when its request fails *)

(** Property X15. When the request of the catalogue load fails, the failure
    is logged twice and never alerted; the products list shows the error
    message, or, when the document has no products list, the flow rejects
    with a TypeError. Nothing else changes. *)
Theorem catalog_failure_shows_message :
  forall rt w e,
    let req := get_request (app w) (lit "/products") in
    let o := server rt (fetches w) req in
    request_outcome o = Throw e ->
    let r := loadAllProducts rt w in
    events_of r = [EvFetch req o;
                   EvConsoleError (lit "API request failed:") e;
                   EvConsoleError (lit "Error loading products:") e] /\
    app (world_of r) = app w /\
    (forall id, id <> "productsList" -> document (world_of r) !! id = document w !! id) /\
    match document w !! "productsList" with
    | Some el =>
        result_of r = Ok tt /\
        document (world_of r) !! "productsList" =
          Some (with_content (Markup catalog_error_markup) el)
    | None =>
        result_of r = Throw TypeError /\
        document (world_of r) !! "productsList" = None
    end.
Proof.
  intros rt w e req o Ho r. subst r.
  focus_on (loadAllProducts rt w).
  unfold loadAllProducts.
  rewrite (try_catch_request rt _ _ _ _ _ (getAllProducts_run rt _)).
  fold req. fold o. rewrite Ho.
  unfold console_error. rewrite bind_emit, bind_getElementById.
  run_world.
  destruct (document w !! "productsList") as [el |] eqn:Hel; unfocus.
  - unfold set_innerHTML, write_element. run_world.
    split; [reflexivity |]. split; [reflexivity |]. split.
    + intros id Hid. cbn. now rewrite lookup_alter_ne by congruence.
    + split; [reflexivity |]. cbn. now rewrite lookup_alter_eq, Hel.
  - unfold set_innerHTML, write_element, throw. run_world.
    repeat split; try reflexivity. assumption.
Qed.

(** *** What the other flows leave alone *)

Lemma same_app_refl w : same_app w w.
Proof. repeat split. Qed.

Lemma same_app_trans a b c : same_app a b -> same_app b c -> same_app a c.
Proof. intros (? & ? & ?) (? & ? & ?). repeat split; congruence. Qed.

(** Property X5. Only the mood flow writes a field of [app]: the product
    view, the search flow, the catalogue load, [trackInteraction] and
    [getRecommendations] leave [app], the local storage and the count of
    random numbers as they were, and the mood flow leaves [userId] and
    [apiBase] as they were. *)
Theorem only_analysis_writes_app :
  forall rt w,
    (forall productId, same_app w (world_of (viewProduct rt productId w))) /\
    same_app w (world_of (performSearch rt w)) /\
    same_app w (world_of (loadAllProducts rt w)) /\
    (forall productId action emotion,
        same_app w (world_of (trackInteraction rt productId action emotion w))) /\
    (forall context, same_app w (world_of (getRecommendations rt context w))) /\
    userId (app (world_of (analyzeMoodAndRecommend rt w))) = userId (app w) /\
    apiBase (app (world_of (analyzeMoodAndRecommend rt w))) = apiBase (app w).
Proof.
  assert (Hsent : forall w, same_app w (sent w)) by (intros; repeat split).
  assert (Hdoc : forall w d, same_app w (world_of (set_document d w))) by (intros; repeat split).
  assert (K : forall {A} (m : M A), keeps same_app m -> forall w, same_app w (world_of (m w)))
    by (intros A m H w; apply H).
  pose proof same_app_refl as Hrefl. pose proof same_app_trans as Htrans.
  intros rt w.
  split; [intros productId | split; [| split; [| split;
    [intros productId act emotion | split; [intros context | split]]]]].
  - apply (K _ (viewProduct rt productId)); unfold viewProduct; repeat keeps_step; auto.
  - apply (K _ (performSearch rt)); unfold performSearch; repeat keeps_step; auto.
  - apply (K _ (loadAllProducts rt)); unfold loadAllProducts; repeat keeps_step; auto.
  - apply (K _ (trackInteraction rt productId act emotion)); repeat keeps_step; auto.
  - apply (K _ (getRecommendations rt context)); repeat keeps_step; auto.
  - apply (keeps_analyzeMoodAndRecommend rt (fun w w' => userId (app w') = userId (app w)));
      intros; cbn; congruence.
  - apply (keeps_analyzeMoodAndRecommend rt (fun w w' => apiBase (app w') = apiBase (app w)));
      intros; cbn; congruence.
Qed.

(** *** The like and cart buttons *)

(** Property X4. [trackInteraction] called without an emotion, as the like
    and cart buttons of a card call it, sends the field [emotion] as
    [null], whatever [currentEmotion] holds; the call issues one request,
    returns the parsed answer or rethrows the failure after one log, alerts
    nobody and leaves the document alone. *)
Theorem like_sends_null_emotion :
  forall rt productId action w,
    let req := post_request (app w) (lit "/track-interaction")
                 (lit "{`user_id`:" ++ quote (userId (app w)) ++
                  lit ",`product_id`:" ++ quote productId ++
                  lit ",`action`:" ++ quote action ++
                  lit ",`emotion`:null}") in
    let o := server rt (fetches w) req in
    trackInteraction rt productId action VUndefined w =
    match request_outcome o with
    | Ok ack => Run (Ok ack) (sent w) [EvFetch req o]
    | Throw e => Run (Throw e) (sent w)
                   [EvFetch req o; EvConsoleError (lit "API request failed:") e]
    end.
Proof.
  intros rt productId action w req o.
  rewrite (trackInteraction_run rt productId action VUndefined (lit "null") w eq_refl).
  reflexivity.
Qed.

(** *** How many requests and alerts a flow can produce *)

Section AtMost.
Variable p : event -> bool.

Lemma count_quiet (l : list event) : Forall (fun e => p e = false) l -> count p l = 0%nat.
Proof.
  induction 1 as [| e l He _ IH]; [reflexivity |].
  unfold count in *. cbn [List.filter]. now rewrite He.
Qed.

Lemma at_most_quiet {A} (n : nat) (m : M A) :
  emits (fun e => p e = false) m -> at_most p n m.
Proof. intros H w. rewrite (count_quiet _ (H w)). lia. Qed.

Lemma at_most_weaken {A} (n : nat) (m : M A) : at_most p n m -> at_most p (S n) m.
Proof. intros H w. specialize (H w). lia. Qed.

Lemma at_most_eta {A} (n : nat) (m : M A) : at_most p n m -> at_most p n (fun w => m w).
Proof. intros H w. apply H. Qed.

Lemma at_most_emit (n : nat) (e : event) : at_most p (S n) (emit e).
Proof. intros w. unfold count. cbn. destruct (p e); cbn; lia. Qed.

Lemma at_most_bind_quiet {A B} (n : nat) (m : M A) (k : A -> M B) :
  emits (fun e => p e = false) m -> (forall a, at_most p n (k a)) ->
  at_most p n (bind m k).
Proof.
  intros Hm Hk w. rewrite bind_run. specialize (Hm w).
  destruct (m w) as [[a | e] w1 ev1]; cbn [events_of] in *.
  - unfold prepend. cbn [events_of]. rewrite count_app, (count_quiet _ Hm).
    apply Hk.
  - rewrite (count_quiet _ Hm). lia.
Qed.

Lemma at_most_bind_one {A B} (n : nat) (m : M A) (k : A -> M B) :
  at_most p 1 m -> (forall a, at_most p n (k a)) -> at_most p (S n) (bind m k).
Proof.
  intros Hm Hk w. rewrite bind_run. specialize (Hm w).
  destruct (m w) as [[a | e] w1 ev1]; cbn [events_of] in *.
  - unfold prepend. cbn [events_of]. rewrite count_app.
    specialize (Hk a w1). lia.
  - lia.
Qed.

Lemma at_most_try_catch_body {A} (n : nat) (m : M A) (h : js_error -> M A) :
  at_most p n m -> (forall e, emits (fun e => p e = false) (h e)) ->
  at_most p n (try_catch m h).
Proof.
  intros Hm Hh w. rewrite try_catch_run. specialize (Hm w).
  destruct (m w) as [[a | e] w1 ev1]; cbn [events_of] in *; [assumption |].
  unfold prepend. cbn [events_of]. rewrite count_app, (count_quiet _ (Hh e w1)). lia.
Qed.

Lemma at_most_try_catch_handler {A} (n : nat) (m : M A) (h : js_error -> M A) :
  emits (fun e => p e = false) m -> (forall e, at_most p n (h e)) ->
  at_most p n (try_catch m h).
Proof.
  intros Hm Hh w. rewrite try_catch_run. specialize (Hm w).
  destruct (m w) as [[a | e] w1 ev1]; cbn [events_of] in *.
  - rewrite (count_quiet _ Hm). lia.
  - unfold prepend. cbn [events_of]. rewrite count_app, (count_quiet _ Hm). apply Hh.
Qed.

Lemma at_most_finally {A} (n : nat) (m : M A) (h : js_error -> M A) (f : M unit) :
  at_most p n (try_catch m h) -> emits (fun e => p e = false) f ->
  at_most p n (try_catch_finally m h f).
Proof.
  intros Hm Hf w. unfold try_catch_finally. specialize (Hm w).
  destruct (try_catch m h w) as [r w1 ev1]. specialize (Hf w1).
  destruct (f w1) as [[[] | e] w2 ev2]; cbn [events_of] in *;
    rewrite count_app, (count_quiet _ Hf); lia.
Qed.

End AtMost.

Lemma at_most_makeRequest rt (n : nat) (endpoint : jstring) (opts : options) :
  at_most is_fetch (S n) (makeRequest rt endpoint opts).
Proof.
  intros w. rewrite makeRequest_run. cbv zeta.
  destruct (request_outcome _); cbn; lia.
Qed.

(** A proof that a computation emits nothing of a kind. *)
Ltac quiet := solve [unfold console_error, alert; repeat emits_step; reflexivity].

(** One step of a proof of [at_most], following the computation and leaving
    the budget of a sequence to what comes second. *)
Ltac bound_step :=
  match goal with
  | |- forall _, _ => intro
  | |- at_most _ _ _ => solve [apply at_most_quiet; quiet]
  | |- at_most _ _ (fun _ => _) => apply at_most_eta
  | |- at_most _ _ (makeRequest _ _ _) => apply at_most_makeRequest
  | |- at_most _ _ (emit _) => apply at_most_emit
  | |- at_most _ _ (alert _) => unfold alert
  | |- at_most _ _ (bind _ _) =>
      first [ apply at_most_bind_quiet; [quiet |] | apply at_most_bind_one ]
  | |- at_most _ _ (try_catch_finally _ _ _) => apply at_most_finally; [| quiet]
  | |- at_most _ _ (try_catch _ _) =>
      first [ apply at_most_try_catch_body; [| intro; quiet]
            | apply at_most_try_catch_handler; [quiet |] ]
  | |- at_most _ _ (analyzeMood _ _) => unfold analyzeMood
  | |- at_most _ _ (getRecommendations _ _) => unfold getRecommendations
  | |- at_most _ _ (searchProducts _ _ _) => unfold searchProducts
  | |- at_most _ _ (getAllProducts _) => unfold getAllProducts
  | |- at_most _ _ (trackInteraction _ _ _ _) => unfold trackInteraction
  | |- at_most _ _ (getSimilarProducts _ _) => unfold getSimilarProducts
  | |- at_most _ _ (if ?b then _ else _) => destruct b
  | |- at_most _ _ (match ?x with _ => _ end) => destruct x
  end.

(** Property X6. No flow repeats a request or an alert: whatever the
    backend answers and whatever the document holds, the mood flow issues
    at most two requests, the search flow at most one, the product view at
    most two, each with at most one alert, and the catalogue load issues
    exactly one request and never alerts. *)
Theorem flows_are_bounded :
  forall rt w,
    ((count is_fetch (events_of (analyzeMoodAndRecommend rt w)) <= 2)%nat /\
     (count is_alert (events_of (analyzeMoodAndRecommend rt w)) <= 1)%nat) /\
    ((count is_fetch (events_of (performSearch rt w)) <= 1)%nat /\
     (count is_alert (events_of (performSearch rt w)) <= 1)%nat) /\
    (forall productId,
        (count is_fetch (events_of (viewProduct rt productId w)) <= 2)%nat /\
        (count is_alert (events_of (viewProduct rt productId w)) <= 1)%nat) /\
    (count is_fetch (events_of (loadAllProducts rt w)) = 1%nat /\
     count is_alert (events_of (loadAllProducts rt w)) = 0%nat).
Proof.
  intros rt w.
  assert (at_most is_fetch 2 (analyzeMoodAndRecommend rt)) as M2
    by (unfold analyzeMoodAndRecommend; repeat bound_step).
  assert (at_most is_alert 1 (analyzeMoodAndRecommend rt)) as M1
    by (unfold analyzeMoodAndRecommend; repeat bound_step).
  assert (at_most is_fetch 1 (performSearch rt)) as S2
    by (unfold performSearch; repeat bound_step).
  assert (at_most is_alert 1 (performSearch rt)) as S1
    by (unfold performSearch; repeat bound_step).
  assert (forall productId, at_most is_fetch 2 (viewProduct rt productId)) as V2
    by (intros; unfold viewProduct; repeat bound_step).
  assert (forall productId, at_most is_alert 1 (viewProduct rt productId)) as V1
    by (intros; unfold viewProduct; repeat bound_step).
  assert (at_most is_fetch 1 (loadAllProducts rt)) as C2
    by (unfold loadAllProducts; repeat bound_step).
  assert (at_most is_alert 0 (loadAllProducts rt)) as C1
    by (unfold loadAllProducts; repeat bound_step).
  split; [split; [apply M2 | apply M1] |].
  split; [split; [apply S2 | apply S1] |].
  split; [intros productId; split; [apply V2 | apply V1] |].
  split.
  - specialize (C2 w). revert C2.
    focus_on (loadAllProducts rt w). unfold loadAllProducts.
    rewrite (try_catch_request rt _ _ _ _ _ (getAllProducts_run rt _)).
    destruct (request_outcome _); unfocus; unfold prepend; cbn [events_of];
      rewrite count_app; cbn; lia.
  - specialize (C1 w). lia.
Qed.

(** *** The requests of a session *)

Section Maintains.
Variable I : world -> Prop.
Variable P : event -> Prop.
Hypothesis I_sent : forall w, I w -> I (sent w).
Hypothesis I_document : forall w d, I w -> I (world_of (set_document d w)).
Hypothesis I_emotion : forall w v, I w -> I (world_of (set_currentEmotion v w)).

Lemma maintains_ret {A} (a : A) : maintains I P (ret a).
Proof. intros w H. split; [exact H | constructor]. Qed.

Lemma maintains_throw {A} (e : js_error) : maintains I P (@throw A e).
Proof. intros w H. split; [exact H | constructor]. Qed.

Lemma maintains_lift {A} (r : result A) : maintains I P (lift r).
Proof. intros w H. split; [exact H | constructor]. Qed.

Lemma maintains_bind {A B} (m : M A) (k : A -> M B) :
  maintains I P m -> (forall a, maintains I P (k a)) -> maintains I P (bind m k).
Proof.
  intros Hm Hk w H. rewrite bind_run. destruct (Hm w H) as [H1 E1].
  destruct (m w) as [[a | e] w1 ev1]; cbn [world_of events_of] in *; [| now split].
  destruct (Hk a w1 H1) as [H2 E2]. unfold prepend. cbn [world_of events_of].
  split; [exact H2 | apply Forall_app; now split].
Qed.

Lemma maintains_try_catch {A} (m : M A) (h : js_error -> M A) :
  maintains I P m -> (forall e, maintains I P (h e)) -> maintains I P (try_catch m h).
Proof.
  intros Hm Hh w H. rewrite try_catch_run. destruct (Hm w H) as [H1 E1].
  destruct (m w) as [[a | e] w1 ev1]; cbn [world_of events_of] in *; [now split |].
  destruct (Hh e w1 H1) as [H2 E2]. unfold prepend. cbn [world_of events_of].
  split; [exact H2 | apply Forall_app; now split].
Qed.

Lemma maintains_try_catch_finally {A} (m : M A) (h : js_error -> M A) (f : M unit) :
  maintains I P m -> (forall e, maintains I P (h e)) -> maintains I P f ->
  maintains I P (try_catch_finally m h f).
Proof.
  intros Hm Hh Hf w H. unfold try_catch_finally.
  destruct (maintains_try_catch m h Hm Hh w H) as [H1 E1].
  destruct (try_catch m h w) as [r w1 ev1]. cbn [world_of events_of] in *.
  destruct (Hf w1 H1) as [H2 E2].
  destruct (f w1) as [[[] | e] w2 ev2]; cbn [world_of events_of] in *;
    (split; [exact H2 | apply Forall_app; now split]).
Qed.

Lemma maintains_emit (e : event) : P e -> maintains I P (emit e).
Proof. intros He w H. split; [exact H | now repeat constructor]. Qed.

Lemma maintains_get_app : maintains I P get_app.
Proof. intros w H. split; [exact H | constructor]. Qed.

Lemma maintains_getElementById (id : string) : maintains I P (getElementById id).
Proof. intros w H. split; [exact H | constructor]. Qed.

Lemma maintains_querySelector (el : option string) (sel : string) :
  maintains I P (querySelector el sel).
Proof. intros w H. destruct el; (split; [exact H | constructor]). Qed.

Lemma maintains_read_element {A} (el : option string) (f : element -> A) :
  maintains I P (read_element el f).
Proof.
  intros w H. destruct el as [id |]; cbn; [| split; [exact H | constructor]].
  destruct (document w !! id); (split; [exact H | constructor]).
Qed.

Lemma maintains_write_element (el : option string) (f : element -> element) :
  maintains I P (write_element el f).
Proof.
  intros w H. destruct el as [id |]; cbn; (split; [| constructor]); [| exact H].
  apply (I_document w (alter f id (document w)) H).
Qed.

Lemma maintains_set_currentEmotion (v : value) : maintains I P (set_currentEmotion v).
Proof. intros w H. split; [apply I_emotion, H | constructor]. Qed.

Lemma maintains_makeRequest rt (endpoint : jstring) (opts : options) :
  (forall w o, I w -> P (EvFetch (build_request (app w) endpoint opts) o)) ->
  (forall e, P (EvConsoleError (lit "API request failed:") e)) ->
  maintains I P (makeRequest rt endpoint opts).
Proof.
  intros Hf Hc w H. rewrite makeRequest_run. cbv zeta.
  destruct (request_outcome _); cbn [world_of events_of];
    (split; [apply I_sent, H | repeat constructor; auto]).
Qed.

Lemma maintains_eta {A} (m : M A) : maintains I P m -> maintains I P (fun w => m w).
Proof. intros H w. apply H. Qed.

End Maintains.

(** One step of a proof of [maintains]; the side conditions on the
    invariant are assumptions of the goal. *)
Ltac maintains_step :=
  match goal with
  | |- _ => assumption
  | |- forall _, _ => intro
  | |- maintains _ _ (fun _ => _) => apply maintains_eta
  | |- maintains _ _ (bind _ _) => apply maintains_bind
  | |- maintains _ _ (try_catch _ _) => apply maintains_try_catch
  | |- maintains _ _ (try_catch_finally _ _ _) => apply maintains_try_catch_finally
  | |- maintains _ _ (ret _) => apply maintains_ret
  | |- maintains _ _ (throw _) => apply maintains_throw
  | |- maintains _ _ (lift _) => apply maintains_lift
  | |- maintains _ _ get_app => apply maintains_get_app
  | |- maintains _ _ (set_currentEmotion _) => apply maintains_set_currentEmotion
  | |- maintains _ _ (getElementById _) => apply maintains_getElementById
  | |- maintains _ _ (querySelector _ _) => apply maintains_querySelector
  | |- maintains _ _ (read_element _ _) => apply maintains_read_element
  | |- maintains _ _ (write_element _ _) => apply maintains_write_element
  | |- maintains _ _ (makeRequest _ _ _) => apply maintains_makeRequest
  | |- maintains _ _ (emit _) => apply maintains_emit
  | |- maintains _ _ (scrollIntoView ?el) => unfold scrollIntoView
  | |- maintains _ _ (show_modal ?el) => unfold show_modal
  | |- maintains _ _ (console_error _ _) => unfold console_error
  | |- maintains _ _ (alert _) => unfold alert
  | |- maintains _ _ (set_disabled _ _) => unfold set_disabled
  | |- maintains _ _ (set_innerHTML _ _) => unfold set_innerHTML
  | |- maintains _ _ (set_textContent _ _) => unfold set_textContent
  | |- maintains _ _ (set_display _ _) => unfold set_display
  | |- maintains _ _ (analyzeMood _ _) => unfold analyzeMood
  | |- maintains _ _ (getRecommendations _ _) => unfold getRecommendations
  | |- maintains _ _ (searchProducts _ _ _) => unfold searchProducts
  | |- maintains _ _ (getAllProducts _) => unfold getAllProducts
  | |- maintains _ _ (trackInteraction _ _ _ _) => unfold trackInteraction
  | |- maintains _ _ (getSimilarProducts _ _) => unfold getSimilarProducts
  | |- maintains _ _ (if ?b then _ else _) => destruct b
  | |- maintains _ _ (match ?x with _ => _ end) => destruct x
  end.

Lemma fetch_inj (r r' : request) (o o' : fetch_outcome) :
  EvFetch r o = EvFetch r' o' -> r = r' /\ o = o'.
Proof. intros H. apply some_fetch_inj. now rewrite H. Qed.

Lemma api_request_other (e : event) : is_fetch e = false -> api_request e.
Proof. intros H r o ->. discriminate. Qed.

Lemma api_request_post (a : app_state) (endpoint : jstring) (body : list (jstring * value))
      (o : fetch_outcome) :
  apiBase a = lit "/api" ->
  In (lit "/api" ++ endpoint) post_urls ->
  api_request (EvFetch (build_request a endpoint (post (VObj body))) o).
Proof.
  intros Ha Hin r o' H. apply fetch_inj in H as [<- _].
  split; [reflexivity |]. left. cbn [build_request req_method req_body req_url post opt_method opt_body].
  split; [reflexivity |]. split; [eexists; reflexivity |]. now rewrite Ha.
Qed.

Lemma api_request_get (a : app_state) (endpoint : jstring) (o : fetch_outcome) :
  apiBase a = lit "/api" ->
  (endpoint = lit "/products" \/
   exists productId, endpoint = lit "/similar-products/" ++ productId) ->
  api_request (EvFetch (build_request a endpoint no_options) o).
Proof.
  intros Ha Hend r o' H. apply fetch_inj in H as [<- _].
  split; [reflexivity |]. right.
  cbn [build_request req_method req_body req_url no_options opt_method opt_body].
  split; [reflexivity |]. split; [reflexivity |]. rewrite Ha.
  destruct Hend as [-> | [productId ->]]; [left; reflexivity | right; now exists productId].
Qed.

(** Closing the side conditions of a [maintains] proof about [api_request]. *)
Ltac api_side :=
  first
    [ apply api_request_other; reflexivity
    | apply api_request_post;
        [assumption | cbn; auto 6]
    | apply api_request_get; [assumption | first [left; reflexivity | right; eexists; reflexivity]] ].

Lemma maintains_perform rt (a : action) : maintains under_api api_request (perform rt a).
Proof.
  assert (forall w, under_api w -> under_api (sent w)) as Hs by (intros ? H; exact H).
  assert (forall w d, under_api w -> under_api (world_of (set_document d w))) as Hd
    by (intros ? ? H; exact H).
  assert (forall w v, under_api w -> under_api (world_of (set_currentEmotion v w))) as He
    by (intros ? ? H; exact H).
  destruct a; cbn [perform].
  all: unfold analyzeMoodAndRecommend, performSearch, viewProduct, loadAllProducts.
  all: repeat maintains_step.
  all: try api_side.
Qed.

Lemma maintains_session rt (acts : list action) :
  maintains under_api api_request (session rt acts).
Proof.
  induction acts as [| a acts IH]; intros w H.
  - split; [exact H | constructor].
  - cbn [session world_of events_of].
    destruct (maintains_perform rt a w H) as [H1 E1].
    destruct (IH _ H1) as [H2 E2].
    split; [exact H2 | apply Forall_app; now split].
Qed.

Lemma constructor_under_api rt w :
  under_api (world_of (constructor rt w)) /\
  Forall api_request (events_of (constructor rt w)).
Proof.
  destruct (localStorage w !! "userId") as [[| c s] |] eqn:E.
  - rewrite (constructor_fresh rt w (or_intror E)). cbv zeta.
    split; [reflexivity |].
    do 2 (constructor; [apply api_request_other; reflexivity |]). constructor.
  - rewrite (constructor_stored rt w (c :: s) E) by discriminate.
    split; [reflexivity | constructor].
  - rewrite (constructor_fresh rt w (or_introl E)). cbv zeta.
    split; [reflexivity |].
    do 2 (constructor; [apply api_request_other; reflexivity |]). constructor.
Qed.

(** Property X2. Every request of every session is one the API expects:
    it carries the JSON content type and is either a POST with a body to
    /api/analyze-sentiment, /api/recommendations, /api/search or
    /api/track-interaction, or a request without method and body to
    /api/products or to /api/similar-products/ followed by a product
    identifier. *)
Theorem session_requests_follow_api :
  forall rt acts w, Forall api_request (events_of (page rt acts w)).
Proof.
  intros rt acts w. unfold page. cbn [events_of].
  destruct (constructor_under_api rt w) as [H E].
  apply Forall_app. split; [exact E |].
  apply (maintains_session rt acts _ H).
Qed.

(** *** The search flow *)

(** The search flow, once its input is not blank and its control exists. *)
Lemma performSearch_run rt w input btn :
  document w !! "searchInput" = Some input ->
  trim (el_value input) <> [] ->
  document w !! "searchBtn" = Some btn ->
  exists ej,
    JSON_stringify (default_param (currentEmotion (app w)) VNull) = Some ej /\
    let query := trim (el_value input) in
    let req := post_request (app w) (lit "/search") (search_body query ej) in
    let o := server rt (fetches w) req in
    let body :=
      match request_outcome o with
      | Ok json =>
          prepend [EvFetch req o]
            (show_search_results rt query json (sent (busy "searchBtn" search_label w)))
      | Throw e => Run (Throw e) (sent (busy "searchBtn" search_label w))
                     [EvFetch req o; EvConsoleError (lit "API request failed:") e]
      end in
    performSearch rt w =
    Run (Ok tt) (restore_control "searchBtn" search_default_label (world_of body))
      (events_of body ++
       guard_tail (lit "Search error:") (lit "Search failed. Please try again.")
         (result_of body)).
Proof.
  intros Hin Htext Hbtn.
  destruct (emotion_json (currentEmotion (app w))) as [ej Hej].
  exists ej. split; [exact Hej |]. cbv zeta.
  unfold performSearch.
  rewrite bind_getElementById, Hin, (bind_read_element _ _ _ _ input Hin).
  destruct (trim (el_value input)) as [| c query] eqn:Hq; [congruence |].
  rewrite bind_getElementById, Hbtn.
  unfold set_disabled at 1. rewrite bind_write_element.
  unfold set_innerHTML at 1. rewrite bind_write_element.
  rewrite guarded_run.
  rewrite bind_get_app.
  rewrite (bind_request rt _ _ _ _ (searchProducts_run rt (c :: query) _ ej _ Hej)).
  reflexivity.
Qed.

Lemma count_guard_tail_fetch {A} (label message : jstring) (r : result A) :
  count is_fetch (guard_tail label message r) = 0%nat.
Proof. destruct r; reflexivity. Qed.

Lemma show_search_results_quiet rt query json :
  emits (fun e => is_fetch e = false) (show_search_results rt query json).
Proof. unfold show_search_results. repeat emits_step; reflexivity. Qed.

(** The first event of a search that issued a request. *)
Lemma search_request rt w :
  requested (events_of (performSearch rt w)) ->
  exists input ej o rest,
    document w !! "searchInput" = Some input /\
    JSON_stringify (default_param (currentEmotion (app w)) VNull) = Some ej /\
    events_of (performSearch rt w) =
      EvFetch (post_request (app w) (lit "/search") (search_body (trim (el_value input)) ej)) o
      :: rest.
Proof.
  intros H.
  destruct (search_flow_started rt w H) as (input & btn & Hin & Htext & Hbtn).
  destruct (performSearch_run rt w input btn Hin Htext Hbtn) as (ej & Hej & Hrun).
  cbv zeta in Hrun. rewrite Hrun. clear Hrun.
  exists input, ej. eexists.
  match goal with |- context [request_outcome ?o] => destruct (request_outcome o) end;
    eexists; (split; [exact Hin |]); (split; [exact Hej |]); reflexivity.
Qed.

(** Property X12. Whenever the search flow issues a request, it is the one
    search request of the run, and its body holds the trimmed text of the
    search input as [query] and the JSON text of [currentEmotion] ([null]
    before any analysis) as [emotion_context]. *)
Theorem search_sends_trimmed_query_and_emotion :
  forall rt w,
    requested (events_of (performSearch rt w)) ->
    exists input ej o rest,
      document w !! "searchInput" = Some input /\
      JSON_stringify (default_param (currentEmotion (app w)) VNull) = Some ej /\
      events_of (performSearch rt w) =
        EvFetch {| req_url := apiBase (app w) ++ lit "/search";
                   req_method := Some (lit "POST");
                   req_headers := json_headers;
                   req_body := Some (lit "{`query`:" ++ quote (trim (el_value input)) ++
                                     lit ",`emotion_context`:" ++ ej ++
                                     lit ",`limit`:10}") |} o :: rest /\
      count is_fetch rest = 0%nat.
Proof.
  intros rt w H.
  destruct (search_flow_started rt w H) as (input & btn & Hin & Htext & Hbtn).
  destruct (performSearch_run rt w input btn Hin Htext Hbtn) as (ej & Hej & Hrun).
  cbv zeta in Hrun. rewrite Hrun. clear Hrun.
  exists input, ej. eexists.
  match goal with |- context [request_outcome ?o] => destruct (request_outcome o) as [json | e] end.
  - eexists. split; [exact Hin |]. split; [exact Hej |].
    unfold prepend. cbn [events_of List.app]. split; [reflexivity |].
    rewrite count_app, count_guard_tail_fetch.
    rewrite (count_quiet _ _ (show_search_results_quiet rt _ json _)). reflexivity.
  - eexists. split; [exact Hin |]. split; [exact Hej |].
    cbn [events_of result_of guard_tail List.app]. split; reflexivity.
Qed.

Lemma renderSearchResults_none rt (query : jstring) :
  renderSearchResults rt query (VArr []) = Ok no_results_markup.
Proof. reflexivity. Qed.

(** Property X13. A successful search with an empty list of results shows
    the message "No products found matching your search." in the results
    container, without a heading, a row, a log or an alert. *)
Theorem empty_search_shows_message :
  forall rt w out req status body,
    document w !! "searchResults" = Some out ->
    let r := performSearch rt w in
    nth_error (events_of r) 0 = Some (EvFetch req (HttpResponse status (Some body))) ->
    response_ok status = true ->
    (exists success, get_prop body (lit "success") = Ok success /\ truthy success = true) ->
    get_prop body (lit "results") = Ok (VArr []) ->
    result_of r = Ok tt /\
    events_of r = [EvFetch req (HttpResponse status (Some body))] /\
    document (world_of r) !! "searchResults" =
      Some (with_content (Markup no_results_markup) out).
Proof.
  intros rt w out req status body Hout r Hnth Hok (success & Hsuccess & Htruthy) Hresults.
  subst r.
  destruct (search_flow_started rt w (nth_fetch_requested _ _ _ _ Hnth))
    as (input & btn & Hin & Htext & Hbtn).
  destruct (performSearch_run rt w input btn Hin Htext Hbtn) as (ej & Hej & Hrun).
  cbv zeta in Hrun. rewrite Hrun in *. clear Hrun.
  match type of Hnth with
  | context [request_outcome ?o] => destruct (request_outcome o) as [json | e] eqn:Ho
  end.
  - unfold prepend in Hnth. cbn [events_of List.app nth_error] in Hnth.
    apply some_fetch_inj in Hnth as [Hreq Hresp]. rewrite Hresp in Ho.
    rewrite (request_outcome_ok _ _ Hok) in Ho. apply Ok_inj in Ho. subst json.
    rewrite Hresp, Hreq.
    focus_body. unfold show_search_results.
    rewrite bind_lift, Hsuccess, Htruthy, bind_lift, Hresults, bind_getElementById.
    unfold busy. run_world. lookup_altered. rewrite Hout.
    rewrite bind_lift, renderSearchResults_none.
    unfold set_innerHTML, write_element. unfocus. run_world.
    split; [reflexivity |]. split; [reflexivity |].
    cbn. lookup_altered. rewrite Hout. reflexivity.
  - cbn [events_of nth_error] in Hnth.
    apply some_fetch_inj in Hnth as [Hreq Hresp]. rewrite Hresp in Ho.
    rewrite (request_outcome_ok _ _ Hok) in Ho. discriminate.
Qed.

(** *** The mood flow *)

(** The mood flow, once its input is not blank and its control exists. *)
Lemma analyzeMoodAndRecommend_run rt w input btn :
  document w !! "moodInput" = Some input ->
  trim (el_value input) <> [] ->
  document w !! "analyzeMoodBtn" = Some btn ->
  let moodText := trim (el_value input) in
  let req := post_request (app w) (lit "/analyze-sentiment") (analyze_body moodText) in
  let o := server rt (fetches w) req in
  let body :=
    match request_outcome o with
    | Ok json =>
        prepend [EvFetch req o]
          (show_analysis rt moodText json (sent (busy "analyzeMoodBtn" analyze_label w)))
    | Throw e => Run (Throw e) (sent (busy "analyzeMoodBtn" analyze_label w))
                   [EvFetch req o; EvConsoleError (lit "API request failed:") e]
    end in
  analyzeMoodAndRecommend rt w =
  Run (Ok tt) (restore_control "analyzeMoodBtn" analyze_default_label (world_of body))
    (events_of body ++
     guard_tail (lit "Error:") (lit "Sorry, something went wrong. Please try again.")
       (result_of body)).
Proof.
  intros Hin Htext Hbtn. cbv zeta.
  unfold analyzeMoodAndRecommend.
  rewrite bind_getElementById, Hin, (bind_read_element _ _ _ _ input Hin).
  destruct (trim (el_value input)) as [| c moodText] eqn:Hq; [congruence |].
  rewrite bind_getElementById, Hbtn.
  unfold set_disabled at 1. rewrite bind_write_element.
  unfold set_innerHTML at 1. rewrite bind_write_element.
  rewrite guarded_run.
  rewrite (bind_request rt _ _ _ _ (analyzeMood_run rt (c :: moodText) _)).
  reflexivity.
Qed.

Lemma app_restore_control id label w : app (restore_control id label w) = app w.
Proof. reflexivity. Qed.

(** The analysis step stores the primary emotion before anything that can
    fail afterwards. *)
Lemma show_analysis_emotion rt moodText json w success sentiment emotion :
  get_prop json (lit "success") = Ok success -> truthy success = true ->
  get_prop json (lit "sentiment") = Ok sentiment ->
  get_prop sentiment (lit "primary_emotion") = Ok emotion ->
  app (world_of (show_analysis rt moodText json w)) =
  {| userId := userId (app w); apiBase := apiBase (app w); currentEmotion := emotion |}.
Proof.
  intros Hsuccess Htruthy Hsentiment Hemotion.
  unfold show_analysis.
  rewrite bind_lift, Hsuccess, Htruthy, bind_lift, Hsentiment, bind_lift, Hemotion.
  rewrite bind_set_currentEmotion.
  match goal with
  | |- app (world_of (?m ?w1)) = _ =>
      assert (keeps keeps_app m) as Hk; [| rewrite (Hk w1); reflexivity]
  end.
  assert (forall w, keeps_app w w) by reflexivity.
  assert (forall a b c, keeps_app a b -> keeps_app b c -> keeps_app a c)
    by (unfold keeps_app; intros; congruence).
  assert (forall w, keeps_app w (sent w)) by reflexivity.
  assert (forall w d, keeps_app w (world_of (set_document d w))) by reflexivity.
  repeat keeps_step; auto.
Qed.

(** Property X10. Once the analysis request is answered by a 2xx envelope
    whose [success] is truthy and whose sentiment has a primary emotion,
    [currentEmotion] holds that emotion when the flow ends, whatever happens
    to the rest of the flow, and a search made afterwards sends it as
    [emotion_context]. *)
Theorem analysis_sets_current_emotion :
  forall rt w req status body sentiment emotion,
    let r := analyzeMoodAndRecommend rt w in
    nth_error (events_of r) 0 = Some (EvFetch req (HttpResponse status (Some body))) ->
    response_ok status = true ->
    (exists success, get_prop body (lit "success") = Ok success /\ truthy success = true) ->
    get_prop body (lit "sentiment") = Ok sentiment ->
    get_prop sentiment (lit "primary_emotion") = Ok emotion ->
    app (world_of r) =
      {| userId := userId (app w); apiBase := apiBase (app w); currentEmotion := emotion |} /\
    forall rt',
      let r' := performSearch rt' (world_of r) in
      requested (events_of r') ->
      exists input ej o rest,
        document (world_of r) !! "searchInput" = Some input /\
        JSON_stringify (default_param emotion VNull) = Some ej /\
        events_of r' =
          EvFetch {| req_url := apiBase (app w) ++ lit "/search";
                     req_method := Some (lit "POST");
                     req_headers := json_headers;
                     req_body := Some (lit "{`query`:" ++ quote (trim (el_value input)) ++
                                       lit ",`emotion_context`:" ++ ej ++
                                       lit ",`limit`:10}") |} o :: rest.
Proof.
  intros rt w req status body sentiment emotion r Hnth Hok (success & Hsuccess & Htruthy)
    Hsentiment Hemotion.
  assert (app (world_of r) =
          {| userId := userId (app w); apiBase := apiBase (app w);
             currentEmotion := emotion |}) as Happ.
  { subst r.
    destruct (mood_flow_started rt w (nth_fetch_requested _ _ _ _ Hnth))
      as (input & btn & Hin & Htext & Hbtn).
    pose proof (analyzeMoodAndRecommend_run rt w input btn Hin Htext Hbtn) as Hrun.
    cbv zeta in Hrun. rewrite Hrun in *. clear Hrun.
    match type of Hnth with
    | context [request_outcome ?o] => destruct (request_outcome o) as [json | e] eqn:Ho
    end.
    - unfold prepend in Hnth. cbn [events_of List.app nth_error] in Hnth.
      apply some_fetch_inj in Hnth as [Hreq Hresp]. rewrite Hresp in Ho.
      rewrite (request_outcome_ok _ _ Hok) in Ho. apply Ok_inj in Ho. subst json.
      cbn [world_of]. rewrite app_restore_control. unfold prepend. cbn [world_of].
      now rewrite (show_analysis_emotion rt _ body _ success sentiment emotion).
    - cbn [events_of nth_error] in Hnth.
      apply some_fetch_inj in Hnth as [Hreq Hresp]. rewrite Hresp in Ho.
      rewrite (request_outcome_ok _ _ Hok) in Ho. discriminate. }
  split; [exact Happ |].
  intros rt' r' H. subst r'.
  destruct (search_request rt' (world_of r) H) as (input & ej & o & rest & Hin & Hej & Hev).
  exists input, ej, o, rest. rewrite Happ in Hej, Hev. cbn [currentEmotion] in Hej.
  split; [exact Hin |]. split; [exact Hej |]. exact Hev.
Qed.

Lemma not_requested_nil : ~ requested [].
Proof. intros H. inversion H. Qed.

(** The analysis step reaches its request only after a well-formed
    analysis has been stored and shown. *)
Lemma show_analysis_request rt moodText json w :
  requested (events_of (show_analysis rt moodText json w)) ->
  exists sentiment emotion category summary div cj,
    get_prop json (lit "sentiment") = Ok sentiment /\
    get_prop sentiment (lit "primary_emotion") = Ok emotion /\
    get_prop sentiment (lit "mood_category") = Ok category /\
    renderSentiment sentiment = Ok summary /\
    document w !! "sentimentAnalysis" = Some div /\
    JSON_stringify (mood_context emotion category moodText) = Some cj /\
    let req := post_request (app w) (lit "/recommendations")
                 (recommendations_body (userId (app w)) cj) in
    let o := server rt (fetches w) req in
    show_analysis rt moodText json w =
    match request_outcome o with
    | Ok json2 =>
        prepend [EvFetch req o]
          (show_recommendations rt json2 (sent (analysed emotion summary w)))
    | Throw e => Run (Throw e) (sent (analysed emotion summary w))
                   [EvFetch req o; EvConsoleError (lit "API request failed:") e]
    end.
Proof.
  unfold show_analysis.
  rewrite bind_lift. destruct (get_prop json (lit "success")) as [success | e];
    [| intros H; now apply not_requested_nil in H].
  destruct (truthy success); [| intros H; now apply not_requested_nil in H].
  rewrite bind_lift. destruct (get_prop json (lit "sentiment")) as [sentiment | e];
    [| intros H; now apply not_requested_nil in H].
  rewrite bind_lift.
  destruct (get_prop sentiment (lit "primary_emotion")) as [emotion | e] eqn:Hemotion;
    [| intros H; now apply not_requested_nil in H].
  rewrite bind_set_currentEmotion, bind_getElementById.
  rewrite bind_lift. destruct (renderSentiment sentiment) as [summary | e] eqn:Hsummary;
    [| intros H; now apply not_requested_nil in H].
  change (document (world_of (set_currentEmotion emotion w))) with (document w).
  destruct (document w !! "sentimentAnalysis") as [div |] eqn:Hdiv.
  2:{ unfold set_innerHTML at 1. rewrite bind_throw_write.
      intros H; now apply not_requested_nil in H. }
  unfold set_innerHTML at 1. rewrite bind_write_element.
  rewrite bind_lift.
  destruct (get_prop sentiment (lit "mood_category")) as [category | e] eqn:Hcategory;
    [| intros H; now apply not_requested_nil in H].
  intros _.
  destruct (context_json (mood_context emotion category moodText)) as [cj Hcj].
  exists sentiment, emotion, category, summary, div, cj.
  repeat (split; [first [reflexivity | assumption] |]).
  cbv zeta.
  unfold set_innerHTML at 1. rewrite bind_write_element, bind_lift.
  match goal with
  | |- context [getRecommendations rt ?ctx] =>
      change ctx with (mood_context emotion category moodText)
  end.
  rewrite (bind_request rt _ _ _ _
             (getRecommendations_run rt (mood_context emotion category moodText) cj _ Hcj)).
  reflexivity.
Qed.

Lemma requested_head (ev tail : list event) (n : nat) req o :
  nth_error (ev ++ tail) 0 = Some (EvFetch req o) ->
  Forall (fun e => is_fetch e = false) tail ->
  requested ev.
Proof.
  intros H Htail. destruct ev as [| e ev]; cbn in H.
  - destruct tail as [| t tail]; [discriminate |]. injection H as ->.
    inversion Htail; subst. discriminate.
  - injection H as ->. now constructor.
Qed.

Lemma guard_tail_quiet {A} (label message : jstring) (r : result A) :
  Forall (fun e => is_fetch e = false) (guard_tail label message r).
Proof. destruct r; repeat constructor. Qed.

(** The mood flow, once it has issued its second request. *)
Lemma analyzeMoodAndRecommend_second rt w req o :
  nth_error (events_of (analyzeMoodAndRecommend rt w)) 1 = Some (EvFetch req o) ->
  exists input btn json sentiment emotion category summary div cj,
    document w !! "moodInput" = Some input /\
    document w !! "analyzeMoodBtn" = Some btn /\
    let moodText := trim (el_value input) in
    let req1 := post_request (app w) (lit "/analyze-sentiment") (analyze_body moodText) in
    let o1 := server rt (fetches w) req1 in
    let w1 := sent (busy "analyzeMoodBtn" analyze_label w) in
    request_outcome o1 = Ok json /\
    get_prop json (lit "sentiment") = Ok sentiment /\
    get_prop sentiment (lit "primary_emotion") = Ok emotion /\
    get_prop sentiment (lit "mood_category") = Ok category /\
    renderSentiment sentiment = Ok summary /\
    document w !! "sentimentAnalysis" = Some div /\
    JSON_stringify (mood_context emotion category moodText) = Some cj /\
    req = post_request (app w) (lit "/recommendations")
            (recommendations_body (userId (app w)) cj) /\
    o = server rt (S (fetches w)) req /\
    let body :=
      match request_outcome o with
      | Ok json2 =>
          prepend [EvFetch req o]
            (show_recommendations rt json2 (sent (analysed emotion summary w1)))
      | Throw e => Run (Throw e) (sent (analysed emotion summary w1))
                     [EvFetch req o; EvConsoleError (lit "API request failed:") e]
      end in
    analyzeMoodAndRecommend rt w =
    Run (Ok tt) (restore_control "analyzeMoodBtn" analyze_default_label (world_of body))
      (EvFetch req1 o1 :: events_of body ++
       guard_tail (lit "Error:") (lit "Sorry, something went wrong. Please try again.")
         (result_of body)).
Proof.
  intros Hnth.
  destruct (mood_flow_started rt w (nth_fetch_requested _ _ _ _ Hnth))
    as (input & btn & Hin & Htext & Hbtn).
  pose proof (analyzeMoodAndRecommend_run rt w input btn Hin Htext Hbtn) as Hrun.
  cbv zeta in Hrun. rewrite Hrun in Hnth |- *. clear Hrun.
  match type of Hnth with
  | context [request_outcome ?o] => destruct (request_outcome o) as [json | e] eqn:Ho
  end.
  2:{ cbn in Hnth. discriminate. }
  unfold prepend in Hnth. cbn [events_of result_of List.app nth_error] in Hnth.
  pose proof (requested_head _ _ 0 _ _ Hnth (guard_tail_quiet _ _ _)) as Hreq.
  destruct (show_analysis_request rt _ json _ Hreq)
    as (sentiment & emotion & category & summary & div & cj & Hs & He & Hc & Hsum & Hdiv & Hcj & Hrun).
  cbv zeta in Hrun. rewrite Hrun in Hnth |- *. clear Hrun.
  exists input, btn, json, sentiment, emotion, category, summary, div, cj.
  split; [exact Hin |]. split; [exact Hbtn |]. cbv zeta.
  split; [exact Ho |]. split; [exact Hs |]. split; [exact He |]. split; [exact Hc |].
  split; [exact Hsum |].
  split; [unfold busy in Hdiv; cbn in Hdiv; revert Hdiv; lookup_altered; exact id |].
  split; [exact Hcj |].
  assert (req = post_request (app w) (lit "/recommendations")
                  (recommendations_body (userId (app w)) cj) /\
          o = server rt (S (fetches w)) req) as [Hq Hoo].
  { match type of Hnth with
    | context [request_outcome ?o2] => destruct (request_outcome o2)
    end; unfold prepend in Hnth; cbn [events_of List.app nth_error] in Hnth;
      apply some_fetch_inj in Hnth as [<- <-]; split; reflexivity. }
  split; [exact Hq |]. split; [exact Hoo |].
  rewrite Hoo, Hq. reflexivity.
Qed.

(** Property X9. The analysis request of the mood flow carries the trimmed
    text of the mood input as [text]. A second request is issued only after
    the first was answered by a parsed body with a sentiment, and it is the
    recommendations request for the identity of [app], with the context
    made of the primary emotion, the mood category and the same trimmed
    text. *)
Theorem mood_flow_requests :
  forall rt w,
    let r := analyzeMoodAndRecommend rt w in
    (requested (events_of r) ->
     exists input o rest,
       document w !! "moodInput" = Some input /\
       events_of r =
         EvFetch {| req_url := apiBase (app w) ++ lit "/analyze-sentiment";
                    req_method := Some (lit "POST");
                    req_headers := json_headers;
                    req_body := Some (lit "{`text`:" ++ quote (trim (el_value input)) ++
                                      lit "}") |} o :: rest) /\
    (forall req o,
        nth_error (events_of r) 1 = Some (EvFetch req o) ->
        exists input req1 o1 json sentiment emotion category cj,
          document w !! "moodInput" = Some input /\
          nth_error (events_of r) 0 = Some (EvFetch req1 o1) /\
          request_outcome o1 = Ok json /\
          get_prop json (lit "sentiment") = Ok sentiment /\
          get_prop sentiment (lit "primary_emotion") = Ok emotion /\
          get_prop sentiment (lit "mood_category") = Ok category /\
          JSON_stringify (VObj [(lit "mood", emotion);
                                (lit "mood_category", category);
                                (lit "user_input", VStr (trim (el_value input)))]) = Some cj /\
          req = {| req_url := apiBase (app w) ++ lit "/recommendations";
                   req_method := Some (lit "POST");
                   req_headers := json_headers;
                   req_body := Some (lit "{`user_id`:" ++ quote (userId (app w)) ++
                                     lit ",`context`:" ++ cj ++
                                     lit ",`limit`:8}") |}).
Proof.
  intros rt w r. subst r. split.
  - intros H.
    destruct (mood_flow_started rt w H) as (input & btn & Hin & Htext & Hbtn).
    pose proof (analyzeMoodAndRecommend_run rt w input btn Hin Htext Hbtn) as Hrun.
    cbv zeta in Hrun. rewrite Hrun. clear Hrun.
    exists input. eexists.
    match goal with |- context [request_outcome ?o] => destruct (request_outcome o) end;
      eexists; (split; [exact Hin |]); reflexivity.
  - intros req o Hnth.
    destruct (analyzeMoodAndRecommend_second rt w req o Hnth)
      as (input & btn & json & sentiment & emotion & category & summary & div & cj &
          Hin & Hbtn & Ho1 & Hs & He & Hc & Hsum & Hdiv & Hcj & Hreq & Ho & Hrun).
    cbv zeta in Hrun. rewrite Hrun.
    exists input. do 2 eexists. exists json, sentiment, emotion, category, cj.
    split; [exact Hin |]. split; [reflexivity |]. split; [exact Ho1 |].
    split; [exact Hs |]. split; [exact He |]. split; [exact Hc |].
    split; [exact Hcj |]. exact Hreq.
Qed.

(** Property X11. When the recommendations request of the mood flow fails,
    the analysis stays: the sentiment summary rendered from the first answer
    is shown and [currentEmotion] holds its primary emotion, while the
    failure is logged twice and alerted once, the trigger control is
    restored and no other element changes. *)
Theorem failed_recommendations_keep_analysis :
  forall rt w req o e,
    let r := analyzeMoodAndRecommend rt w in
    nth_error (events_of r) 1 = Some (EvFetch req o) ->
    request_outcome o = Throw e ->
    exists first json sentiment emotion summary div btn,
      events_of r =
        [first; EvFetch req o;
         EvConsoleError (lit "API request failed:") e;
         EvConsoleError (lit "Error:") e;
         EvAlert (lit "Sorry, something went wrong. Please try again.")] /\
      (exists req1 o1, first = EvFetch req1 o1 /\ request_outcome o1 = Ok json) /\
      get_prop json (lit "sentiment") = Ok sentiment /\
      get_prop sentiment (lit "primary_emotion") = Ok emotion /\
      renderSentiment sentiment = Ok summary /\
      result_of r = Ok tt /\
      currentEmotion (app (world_of r)) = emotion /\
      document w !! "sentimentAnalysis" = Some div /\
      document (world_of r) !! "sentimentAnalysis" =
        Some (with_content (Markup summary) div) /\
      document w !! "analyzeMoodBtn" = Some btn /\
      document (world_of r) !! "analyzeMoodBtn" =
        Some {| el_value := el_value btn; el_content := Markup analyze_default_label;
                el_disabled := false; el_display := el_display btn |} /\
      (forall id, id <> "analyzeMoodBtn" -> id <> "sentimentAnalysis" ->
                  document (world_of r) !! id = document w !! id).
Proof.
  intros rt w req o e r Hnth Hthrow. subst r.
  destruct (analyzeMoodAndRecommend_second rt w req o Hnth)
    as (input & btn & json & sentiment & emotion & category & summary & div & cj &
        Hin & Hbtn & Ho1 & Hs & He & Hc & Hsum & Hdiv & Hcj & Hreq & Ho & Hrun).
  cbv zeta in Hrun. rewrite Hrun. clear Hrun Hnth. rewrite Hthrow.
  eexists. exists json, sentiment, emotion, summary, div, btn.
  cbn [events_of result_of world_of guard_tail List.app].
  split; [reflexivity |]. split; [eauto |].
  split; [exact Hs |]. split; [exact He |]. split; [exact Hsum |].
  split; [reflexivity |]. split; [reflexivity |]. split; [exact Hdiv |].
  assert ("sentimentAnalysis" <> "analyzeMoodBtn") as Hne by discriminate.
  split.
  { rewrite restore_control_other by exact Hne.
    unfold analysed, busy. run_world. lookup_altered. now rewrite Hdiv. }
  split; [exact Hbtn |]. split.
  { erewrite restore_control_self.
    2:{ unfold analysed, busy. run_world. lookup_altered. rewrite Hbtn. reflexivity. }
    reflexivity. }
  intros id Hid Hid'. rewrite restore_control_other by exact Hid.
  unfold analysed, busy. run_world. now rewrite !lookup_alter_ne by congruence.
Qed.

(** *** The catalogue *)

Lemma rmap_all {A B} (f : A -> result B) (l : list A) (bs : list B) :
  Forall2 (fun a b => f a = Ok b) l bs -> rmap f l = Ok bs.
Proof.
  induction 1 as [| a b l bs Hab _ IH]; [reflexivity |].
  cbn [rmap]. now rewrite Hab, IH.
Qed.

Lemma rmap_some_throw {A B} (f : A -> result B) (l : list A) :
  Exists (fun a => exists e, f a = Throw e) l -> exists e, rmap f l = Throw e.
Proof.
  induction 1 as [a l [e He] | a l _ [e IH]]; cbn [rmap].
  - rewrite He. eauto.
  - destruct (f a) as [b | e']; [rewrite IH |]; eauto.
Qed.

Lemma loadAllProducts_run rt w :
  let req := get_request (app w) (lit "/products") in
  let o := server rt (fetches w) req in
  loadAllProducts rt w =
  match request_outcome o with
  | Ok json =>
      prepend [EvFetch req o] (try_catch (show_catalog rt json) show_catalog_error (sent w))
  | Throw e =>
      prepend [EvFetch req o; EvConsoleError (lit "API request failed:") e]
        (show_catalog_error e (sent w))
  end.
Proof.
  cbv zeta. unfold loadAllProducts.
  now rewrite (try_catch_request rt _ _ _ _ _ (getAllProducts_run rt _)).
Qed.

(** Property X16. The catalogue is rendered all or nothing: when every
    product of a successful answer renders, the products list holds their
    cards in order and nothing is logged; when one product fails to render,
    no card is shown, the products list holds the error message and the
    failure is logged once, without an alert. *)
Theorem catalog_is_all_or_nothing :
  forall rt w out req status body products,
    document w !! "productsList" = Some out ->
    let r := loadAllProducts rt w in
    nth_error (events_of r) 0 = Some (EvFetch req (HttpResponse status (Some body))) ->
    response_ok status = true ->
    (exists success, get_prop body (lit "success") = Ok success /\ truthy success = true) ->
    get_prop body (lit "products") = Ok (VArr products) ->
    (forall cards,
        Forall2 (fun product card => renderProductCard rt product VUndefined = Ok card)
                products cards ->
        r = Run (Ok tt)
              (world_of (set_document
                           (alter (with_content (Markup (join [] cards))) "productsList"
                              (document w)) (sent w)))
              [EvFetch req (HttpResponse status (Some body))]) /\
    (forall product,
        In product products ->
        (exists e, renderProductCard rt product VUndefined = Throw e) ->
        exists e,
          r = Run (Ok tt)
                (world_of (set_document
                             (alter (with_content (Markup catalog_error_markup))
                                "productsList" (document w)) (sent w)))
                [EvFetch req (HttpResponse status (Some body));
                 EvConsoleError (lit "Error loading products:") e]).
Proof.
  intros rt w out req status body products Hout r Hnth Hok (success & Hsuccess & Htruthy)
    Hproducts. subst r.
  rewrite loadAllProducts_run in Hnth |- *. cbv zeta in Hnth |- *.
  match type of Hnth with
  | context [request_outcome ?o] => destruct (request_outcome o) as [json | e] eqn:Ho
  end; unfold prepend in Hnth; cbn [events_of List.app nth_error] in Hnth;
    apply some_fetch_inj in Hnth as [Hreq Hresp]; rewrite Hresp in Ho;
    rewrite (request_outcome_ok _ _ Hok) in Ho; [| discriminate].
  apply Ok_inj in Ho. subst json. rewrite Hresp, Hreq.
  split.
  - intros cards Hcards. unfold show_catalog.
    rewrite try_catch_lift, Hsuccess, Htruthy, try_catch_lift, Hproducts.
    rewrite try_catch_run, bind_getElementById. run_world. rewrite Hout.
    rewrite bind_lift. unfold call_map. rewrite (rmap_all _ _ _ Hcards).
    reflexivity.
  - intros product Hin Hfail.
    destruct (rmap_some_throw (fun product => renderProductCard rt product VUndefined) products)
      as [e He].
    { apply List.Exists_exists. eauto. }
    exists e. unfold show_catalog.
    rewrite try_catch_lift, Hsuccess, Htruthy, try_catch_lift, Hproducts.
    rewrite try_catch_run, bind_getElementById. run_world. rewrite Hout.
    rewrite bind_lift. unfold call_map. rewrite He.
    unfold show_catalog_error, console_error. rewrite bind_emit, bind_getElementById.
    run_world. rewrite Hout. reflexivity.
Qed.

(** *** The product view *)

Lemma viewProduct_second rt productId w :
  exists ej,
    JSON_stringify (default_param (currentEmotion (app w)) VNull) = Some ej /\
    let track := post_request (app w) (lit "/track-interaction")
                   (track_body (userId (app w)) productId (lit "view") ej) in
    let similar := get_request (app w) (lit "/similar-products/" ++ productId) in
    let o1 := server rt (fetches w) track in
    let o2 := server rt (S (fetches w)) similar in
    viewProduct rt productId w =
    match request_outcome o1 with
    | Throw e =>
        Run (Ok tt) (sent w)
          [EvFetch track o1; EvConsoleError (lit "API request failed:") e;
           EvConsoleError (lit "Error viewing product:") e; view_alert]
    | Ok _ =>
        match request_outcome o2 with
        | Throw e =>
            Run (Ok tt) (sent (sent w))
              [EvFetch track o1; EvFetch similar o2;
               EvConsoleError (lit "API request failed:") e;
               EvConsoleError (lit "Error viewing product:") e; view_alert]
        | Ok json =>
            prepend [EvFetch track o1; EvFetch similar o2]
              (try_catch (show_view rt json) view_handler (sent (sent w)))
        end
    end.
Proof.
  destruct (emotion_json (currentEmotion (app w))) as [ej Hej].
  exists ej. split; [exact Hej |]. cbv zeta.
  unfold viewProduct. rewrite try_catch_get_app.
  rewrite (try_catch_request rt _ _ _ _ _ (trackInteraction_run rt _ _ _ ej _ Hej)).
  destruct (request_outcome _) as [ack | e]; [| reflexivity].
  rewrite (try_catch_request rt _ _ _ _ _ (getSimilarProducts_run rt _ _)).
  cbn [fetches sent app].
  destruct (request_outcome _) as [json | e]; [| reflexivity].
  rewrite prepend_prepend. reflexivity.
Qed.

Lemma bind_querySelector {B} (id sel : string) (k : option string -> M B) (w : world) :
  bind (querySelector (Some id) sel) k w =
  k (match document w !! (id +:+ " " +:+ sel)%string with
     | Some _ => Some (id +:+ " " +:+ sel)%string
     | None => None
     end) w.
Proof. rewrite bind_run. apply prepend_nil. Qed.

Lemma bind_set_textContent {B} (id : string) (v : value) (k : unit -> M B) (w : world) :
  bind (set_textContent (Some id) v) k w =
  match text_of v with
  | Ok text => k tt (world_of (set_document (alter (with_content (Text text)) id (document w)) w))
  | Throw e => Run (Throw e) w []
  end.
Proof.
  unfold set_textContent, text_of. rewrite bind_run, bind_lift.
  destruct v; cbv beta iota;
    match goal with
    | |- context [ToString ?x] => destruct (ToString x) as [text | e]
    | _ => idtac
    end; try reflexivity;
    (rewrite <- bind_write_element; now rewrite bind_run).
Qed.

(** Property X17. On a successful similar-products answer the product view
    writes the name of the product, as printed, into the title of the
    detail view before it renders the body: when the body renders, it is
    written and the detail view is opened; when it does not, the title has
    changed all the same, the body is as before, and the failure is logged
    and alerted. When the name itself does not print, neither the title nor
    the body changes, and that failure is logged and alerted. *)
Theorem view_fills_modal_title_first :
  forall rt productId w modal title pane req status body product similar name,
    document w !! "productModal" = Some modal ->
    document w !! "productModal .modal-title" = Some title ->
    document w !! "productModal .modal-body" = Some pane ->
    let r := viewProduct rt productId w in
    nth_error (events_of r) 1 = Some (EvFetch req (HttpResponse status (Some body))) ->
    response_ok status = true ->
    (exists success, get_prop body (lit "success") = Ok success /\ truthy success = true) ->
    get_prop body (lit "target_product") = Ok product ->
    get_prop body (lit "similar_products") = Ok similar ->
    get_prop product (lit "name") = Ok name ->
    exists first,
      is_fetch first = true /\
      result_of r = Ok tt /\
      match text_of name with
      | Ok text =>
          document (world_of r) !! "productModal .modal-title" =
            Some (with_content (Text text) title) /\
          match renderModalBody rt product similar with
          | Ok html =>
              events_of r = [first; EvFetch req (HttpResponse status (Some body));
                             EvModalShow "productModal"] /\
              document (world_of r) !! "productModal .modal-body" =
                Some (with_content (Markup html) pane)
          | Throw e =>
              events_of r = [first; EvFetch req (HttpResponse status (Some body));
                             EvConsoleError (lit "Error viewing product:") e; view_alert] /\
              document (world_of r) !! "productModal .modal-body" = Some pane
          end
      | Throw e =>
          events_of r = [first; EvFetch req (HttpResponse status (Some body));
                         EvConsoleError (lit "Error viewing product:") e; view_alert] /\
          document (world_of r) !! "productModal .modal-title" = Some title /\
          document (world_of r) !! "productModal .modal-body" = Some pane
      end.
Proof.
  intros rt productId w modal title pane req status body product similar name
    Hmodal Htitle Hpane r Hnth Hok (success & Hsuccess & Htruthy) Hproduct Hsimilar Hname.
  subst r.
  destruct (viewProduct_second rt productId w) as (ej & Hej & Hrun).
  cbv zeta in Hrun. rewrite Hrun in Hnth |- *. clear Hrun.
  destruct (request_outcome _) as [ack | e] eqn:Ho1; [| discriminate Hnth].
  match type of Hnth with
  | context [request_outcome ?o] => destruct (request_outcome o) as [json | e] eqn:Ho2
  end; unfold prepend in Hnth; cbn [events_of List.app nth_error] in Hnth;
    apply some_fetch_inj in Hnth as [Hreq Hresp]; rewrite Hresp in Ho2;
    rewrite (request_outcome_ok _ _ Hok) in Ho2; [| discriminate].
  apply Ok_inj in Ho2. subst json. rewrite Hresp, Hreq.
  match goal with |- context [prepend (?f :: _)] => exists f end.
  split; [reflexivity |].
  match goal with |- context [try_catch ?m ?h ?w0] => focus_on (try_catch m h w0) end.
  unfold show_view.
  rewrite try_catch_lift, Hsuccess, Htruthy, try_catch_lift, Hproduct, try_catch_lift, Hsimilar.
  rewrite try_catch_run, bind_getElementById. run_world. rewrite Hmodal.
  rewrite bind_querySelector. run_world.
  change ("productModal" +:+ " " +:+ ".modal-title")%string with "productModal .modal-title".
  rewrite Htitle.
  rewrite bind_querySelector. run_world.
  change ("productModal" +:+ " " +:+ ".modal-body")%string with "productModal .modal-body".
  rewrite Hpane.
  rewrite bind_lift, Hname.
  rewrite bind_set_textContent.
  destruct (text_of name) as [text | e].
  - rewrite bind_lift.
    destruct (renderModalBody rt product similar) as [html | e].
    + unfold set_innerHTML at 1. rewrite bind_write_element. unfold show_modal, emit.
      unfocus. unfold prepend. run_world. split; [reflexivity |]. split.
      * cbn [document]. lookup_altered. now rewrite Htitle.
      * split; [reflexivity |]. cbn [document]. lookup_altered. now rewrite Hpane.
    + unfold view_handler, console_error, alert. rewrite bind_emit. unfold emit, prepend.
      unfocus. run_world. split; [reflexivity |]. split.
      * cbn [document]. lookup_altered. now rewrite Htitle.
      * split; [reflexivity |]. cbn [document]. lookup_altered. now rewrite Hpane.
  - unfold view_handler, console_error, alert. rewrite bind_emit. unfold emit, prepend.
    unfocus. run_world. split; [reflexivity |]. split; [reflexivity |].
    split; [exact Htitle | exact Hpane].
Qed.

(** *** How the flows settle *)

Lemma view_handler_settles (m : M unit) (w : world) :
  result_of (try_catch m view_handler w) = Ok tt.
Proof.
  rewrite try_catch_run. destruct (m w) as [[[] | e] w1 ev1]; reflexivity.
Qed.

Lemma show_catalog_error_result (e : js_error) (w : world) :
  result_of (show_catalog_error e w) =
  match document w !! "productsList" with
  | Some _ => Ok tt
  | None => Throw TypeError
  end.
Proof.
  unfold show_catalog_error, console_error. rewrite bind_emit, bind_getElementById.
  destruct (document w !! "productsList"); reflexivity.
Qed.

Lemma show_catalog_keeps_elements rt json : keeps keeps_elements (show_catalog rt json).
Proof. unfold show_catalog. repeat keeps_elements_step. Qed.

(** Property X7. The product view never rejects. The mood flow and the
    search flow reject only when their input or their trigger control is
    missing from the document, with a TypeError and before doing anything.
    The catalogue load rejects only when the products list is missing. *)
Theorem flows_settle :
  forall rt w,
    (forall productId, result_of (viewProduct rt productId w) = Ok tt) /\
    (let r := analyzeMoodAndRecommend rt w in
     result_of r = Ok tt \/
     (r = Run (Throw TypeError) w [] /\
      (document w !! "moodInput" = None \/ document w !! "analyzeMoodBtn" = None))) /\
    (let r := performSearch rt w in
     result_of r = Ok tt \/
     (r = Run (Throw TypeError) w [] /\
      (document w !! "searchInput" = None \/ document w !! "searchBtn" = None))) /\
    (let r := loadAllProducts rt w in
     result_of r = Ok tt \/
     (result_of r = Throw TypeError /\ document w !! "productsList" = None)).
Proof.
  intros rt w. split; [| split; [| split]].
  - intros productId.
    destruct (viewProduct_second rt productId w) as (ej & _ & Hrun).
    cbv zeta in Hrun. rewrite Hrun.
    destruct (request_outcome _); [| reflexivity].
    destruct (request_outcome _); [| reflexivity].
    unfold prepend. cbn [result_of]. apply view_handler_settles.
  - cbv zeta.
    destruct (document w !! "moodInput") as [input |] eqn:Hin.
    2:{ right. split; [| now left]. unfold analyzeMoodAndRecommend.
        now rewrite bind_getElementById, Hin. }
    destruct (trim (el_value input)) as [| c text] eqn:Htext.
    { left. unfold analyzeMoodAndRecommend.
      now rewrite bind_getElementById, Hin, (bind_read_element _ _ _ _ input Hin), Htext. }
    destruct (document w !! "analyzeMoodBtn") as [btn |] eqn:Hbtn.
    + left. rewrite (analyzeMoodAndRecommend_run rt w input btn Hin); [reflexivity | | exact Hbtn].
      rewrite Htext. discriminate.
    + right. split; [| now right]. unfold analyzeMoodAndRecommend.
      rewrite bind_getElementById, Hin, (bind_read_element _ _ _ _ input Hin), Htext.
      rewrite bind_getElementById, Hbtn. unfold set_disabled. now rewrite bind_throw_write.
  - cbv zeta.
    destruct (document w !! "searchInput") as [input |] eqn:Hin.
    2:{ right. split; [| now left]. unfold performSearch.
        now rewrite bind_getElementById, Hin. }
    destruct (trim (el_value input)) as [| c text] eqn:Htext.
    { left. unfold performSearch.
      now rewrite bind_getElementById, Hin, (bind_read_element _ _ _ _ input Hin), Htext. }
    destruct (document w !! "searchBtn") as [btn |] eqn:Hbtn.
    + left. destruct (performSearch_run rt w input btn Hin) as (ej & _ & Hrun);
        [rewrite Htext; discriminate | exact Hbtn |].
      cbv zeta in Hrun. now rewrite Hrun.
    + right. split; [| now right]. unfold performSearch.
      rewrite bind_getElementById, Hin, (bind_read_element _ _ _ _ input Hin), Htext.
      rewrite bind_getElementById, Hbtn. unfold set_disabled. now rewrite bind_throw_write.
  - cbv zeta. rewrite loadAllProducts_run. cbv zeta.
    destruct (document w !! "productsList") as [out |] eqn:Hout.
    + left. destruct (request_outcome _) as [json | e]; unfold prepend; cbn [result_of].
      * rewrite try_catch_run.
        pose proof (show_catalog_keeps_elements rt json (sent w) "productsList") as Hk.
        destruct (show_catalog rt json (sent w)) as [[[] | e] w1 ev1]; [reflexivity |].
        unfold prepend. cbn [result_of world_of] in *.
        rewrite show_catalog_error_result.
        destruct Hk as [x ->]; [cbn; rewrite Hout; eauto | reflexivity].
      * rewrite show_catalog_error_result. cbn. now rewrite Hout.
    + destruct (request_outcome _) as [json | e]; unfold prepend; cbn [result_of].
      * rewrite try_catch_run.
        destruct (show_catalog rt json (sent w)) as [[[] | e] w1 ev1]; [now left |].
        unfold prepend. cbn [result_of]. rewrite show_catalog_error_result.
        destruct (document w1 !! "productsList"); [now left | now right].
      * rewrite show_catalog_error_result. cbn. rewrite Hout. now right.
Qed.

(** *** A first request that fails *)

(** Property X8. When the first request of the mood flow (of the search
    flow) fails for any reason, a rejected transport, a status outside
    200..299 or a body that is not JSON, the failure is logged twice, one
    alert is shown, [app] and every element but the trigger control are as
    before, and the control is enabled with its default label. *)
Theorem failed_first_request_alerts_once :
  (forall rt w req o e,
      let r := analyzeMoodAndRecommend rt w in
      nth_error (events_of r) 0 = Some (EvFetch req o) ->
      request_outcome o = Throw e ->
      result_of r = Ok tt /\
      events_of r =
        [EvFetch req o;
         EvConsoleError (lit "API request failed:") e;
         EvConsoleError (lit "Error:") e;
         EvAlert (lit "Sorry, something went wrong. Please try again.")] /\
      app (world_of r) = app w /\
      (forall id, id <> "analyzeMoodBtn" -> document (world_of r) !! id = document w !! id) /\
      exists btn,
        document w !! "analyzeMoodBtn" = Some btn /\
        document (world_of r) !! "analyzeMoodBtn" =
          Some {| el_value := el_value btn; el_content := Markup analyze_default_label;
                  el_disabled := false; el_display := el_display btn |}) /\
  (forall rt w req o e,
      let r := performSearch rt w in
      nth_error (events_of r) 0 = Some (EvFetch req o) ->
      request_outcome o = Throw e ->
      result_of r = Ok tt /\
      events_of r =
        [EvFetch req o;
         EvConsoleError (lit "API request failed:") e;
         EvConsoleError (lit "Search error:") e;
         EvAlert (lit "Search failed. Please try again.")] /\
      app (world_of r) = app w /\
      (forall id, id <> "searchBtn" -> document (world_of r) !! id = document w !! id) /\
      exists btn,
        document w !! "searchBtn" = Some btn /\
        document (world_of r) !! "searchBtn" =
          Some {| el_value := el_value btn; el_content := Markup search_default_label;
                  el_disabled := false; el_display := el_display btn |}).
Proof.
  split; intros rt w req o e r Hnth Hthrow; subst r.
  - destruct (mood_flow_started rt w (nth_fetch_requested _ _ _ _ Hnth))
      as (input & btn & Hin & Htext & Hbtn).
    pose proof (analyzeMoodAndRecommend_run rt w input btn Hin Htext Hbtn) as Hrun.
    cbv zeta in Hrun. rewrite Hrun in Hnth |- *. clear Hrun.
    assert (server rt (fetches w)
              (post_request (app w) (lit "/analyze-sentiment")
                 (analyze_body (trim (el_value input)))) = o /\
            post_request (app w) (lit "/analyze-sentiment")
              (analyze_body (trim (el_value input))) = req) as [Ho Hreq].
    { destruct (request_outcome _); unfold prepend in Hnth;
        cbn [events_of List.app nth_error] in Hnth;
        apply some_fetch_inj in Hnth as [-> ->]; split; reflexivity. }
    rewrite Ho, Hreq, Hthrow. cbn [result_of events_of world_of guard_tail List.app].
    split; [reflexivity |]. split; [reflexivity |]. split; [reflexivity |]. split.
    + intros id Hid. rewrite restore_control_other by exact Hid.
      unfold busy. run_world. now rewrite !lookup_alter_ne by congruence.
    + exists btn. split; [exact Hbtn |]. erewrite restore_control_self.
      2:{ unfold busy. run_world. lookup_altered. rewrite Hbtn. reflexivity. }
      reflexivity.
  - destruct (search_flow_started rt w (nth_fetch_requested _ _ _ _ Hnth))
      as (input & btn & Hin & Htext & Hbtn).
    destruct (performSearch_run rt w input btn Hin Htext Hbtn) as (ej & Hej & Hrun).
    cbv zeta in Hrun. rewrite Hrun in Hnth |- *. clear Hrun.
    assert (server rt (fetches w)
              (post_request (app w) (lit "/search")
                 (search_body (trim (el_value input)) ej)) = o /\
            post_request (app w) (lit "/search")
              (search_body (trim (el_value input)) ej) = req) as [Ho Hreq].
    { destruct (request_outcome _); unfold prepend in Hnth;
        cbn [events_of List.app nth_error] in Hnth;
        apply some_fetch_inj in Hnth as [-> ->]; split; reflexivity. }
    rewrite Ho, Hreq, Hthrow. cbn [result_of events_of world_of guard_tail List.app].
    split; [reflexivity |]. split; [reflexivity |]. split; [reflexivity |]. split.
    + intros id Hid. rewrite restore_control_other by exact Hid.
      unfold busy. run_world. now rewrite !lookup_alter_ne by congruence.
    + exists btn. split; [exact Hbtn |]. erewrite restore_control_self.
      2:{ unfold busy. run_world. lookup_altered. rewrite Hbtn. reflexivity. }
      reflexivity.
Qed.

(** ** Numbers made from integers *)

Lemma digits2_pos_shift (k p : positive) :
  digits2_pos (Pos.iter xO p k) = (digits2_pos p + k)%positive.
Proof.
  induction k as [| k IH] using Pos.peano_ind.
  - cbn. lia.
  - rewrite Pos.iter_succ. cbn [digits2_pos]. rewrite IH. lia.
Qed.

Lemma digits2_pos_bound (p : positive) :
  2 ^ (Z.pos (digits2_pos p) - 1) <= Z.pos p < 2 ^ Z.pos (digits2_pos p).
Proof.
  induction p as [p IH | p IH |]; cbn [digits2_pos].
  - rewrite Pos2Z.inj_succ. replace (Z.succ (Z.pos (digits2_pos p)) - 1)
      with (Z.succ (Z.pos (digits2_pos p) - 1)) by lia.
    rewrite !Z.pow_succ_r by lia. lia.
  - rewrite Pos2Z.inj_succ. replace (Z.succ (Z.pos (digits2_pos p)) - 1)
      with (Z.succ (Z.pos (digits2_pos p) - 1)) by lia.
    rewrite !Z.pow_succ_r by lia. lia.
  - cbn. lia.
Qed.

Lemma digits2_pos_small (p : positive) : Z.pos p < 2 ^ 53 -> Z.pos (digits2_pos p) <= 53.
Proof.
  intros H. destruct (digits2_pos_bound p) as [Hlo _].
  destruct (Z_le_gt_dec (Z.pos (digits2_pos p)) 53) as [| Hgt]; [assumption |].
  assert (2 ^ 53 <= 2 ^ (Z.pos (digits2_pos p) - 1)) by (apply Z.pow_le_mono_r; lia).
  lia.
Qed.

(** A number made from an integer of less than 54 bits is finite and keeps
    its sign. *)
Lemma binary_round_small (s : bool) (p : positive) :
  Z.pos p < 2 ^ 53 ->
  exists m e, binary_round prec emax s p 0 = S754_finite s m e.
Proof.
  intros Hp. pose proof (digits2_pos_small p Hp) as Hd.
  unfold binary_round, prec, emax.
  assert (fexp 53 1024 (Z.pos (digits2_pos p) + 0) = Z.pos (digits2_pos p) - 53) as ->.
  { unfold fexp, emin. lia. }
  unfold shl_align.
  destruct (Z.pos (digits2_pos p) - 53 - 0) as [| k | k] eqn:Hk; [| lia |].
  - unfold binary_round_aux, shr_fexp. cbn [Zdigits2].
    assert (fexp 53 1024 (Z.pos (digits2_pos p) + 0) - 0 = 0) as ->
      by (unfold fexp, emin; lia).
    cbn [shr shr_record_of_loc shr_m loc_of_shr_record round_nearest_even Zdigits2].
    assert (fexp 53 1024 (Z.pos (digits2_pos p) + 0) - 0 = 0) as ->
      by (unfold fexp, emin; lia).
    cbn. eauto.
  - unfold binary_round_aux, shr_fexp. cbn [Zdigits2].
    rewrite digits2_pos_shift.
    assert (fexp 53 1024 (Z.pos (digits2_pos p + k) + (Z.pos (digits2_pos p) - 53))
            - (Z.pos (digits2_pos p) - 53) = 0) as ->
      by (unfold fexp, emin; lia).
    cbn [shr shr_record_of_loc shr_m loc_of_shr_record round_nearest_even Zdigits2].
    rewrite digits2_pos_shift.
    assert (fexp 53 1024 (Z.pos (digits2_pos p + k) + (Z.pos (digits2_pos p) - 53))
            - (Z.pos (digits2_pos p) - 53) = 0) as ->
      by (unfold fexp, emin; lia).
    cbn [shr shr_m].
    destruct (Z.leb_spec (Z.pos (digits2_pos p) - 53) (1024 - 53)); [eauto | lia].
Qed.

Lemma number_of_nat_small (n : nat) :
  (0 < n)%nat -> Z.of_nat n < 2 ^ 53 ->
  exists m e, number_of_nat n = S754_finite false m e.
Proof.
  intros Hn Hb. unfold number_of_nat, number_of_Z.
  destruct (Z.of_nat n) as [| p | p] eqn:Hz; [lia | | lia].
  apply binary_round_small, Hb.
Qed.

(** ** Printing numbers of magnitude at least 1 *)

Lemma decimal_exponent_skip (n fuel : nat) (b e : Z) :
  2 ^ Z.max (- e) 0 <= b * 2 ^ Z.max e 0 ->
  decimal_exponent (n + fuel) (- Z.of_nat n) b e = decimal_exponent fuel 0 b e.
Proof.
  intros Hb. induction n as [| n IH]; [reflexivity |].
  cbn [Nat.add decimal_exponent].
  assert (cmp_scaled 1 (- Z.of_nat (S n)) b e <> Gt) as Hcmp.
  { unfold cmp_scaled. rewrite (Z.max_r (- Z.of_nat (S n)) 0) by lia.
    rewrite (Z.max_l (- - Z.of_nat (S n)) 0) by lia.
    rewrite Z.pow_0_r.
    assert (1 <= 10 ^ (- - Z.of_nat (S n))) by (apply Z.pow_le_mono_r with (b := 0); lia).
    assert (0 <= 2 ^ Z.max (- e) 0) by (apply Z.pow_nonneg; lia).
    intros Hgt. apply Z.compare_gt_iff in Hgt. nia. }
  replace (- Z.of_nat (S n) + 1) with (- Z.of_nat n) by lia.
  destruct (cmp_scaled 1 (- Z.of_nat (S n)) b e); [exact IH | exact IH | congruence].
Qed.

Lemma Number_toString_large (s : bool) (m : positive) (e : Z) :
  (2 ^ Z.max (- e) 0 <=? Z.pos m * 2 ^ Z.max e 0) = true ->
  Number_toString (S754_finite s m e) = print_finite 310 0 s m e.
Proof.
  intros H. apply Z.leb_le in H. unfold Number_toString, print_finite.
  change 640%nat with (330 + 310)%nat. change (- 330) with (- Z.of_nat 330).
  now rewrite decimal_exponent_skip.
Qed.

Lemma jstring_eqb_eq (a b : jstring) : jstring_eqb a b = true -> a = b.
Proof.
  revert b. induction a as [| x a IH]; intros [| y b] H; try discriminate; [reflexivity |].
  cbn in H. apply andb_prop in H as [Hx Hab]. apply N.eqb_eq in Hx. subst y.
  now rewrite (IH b Hab).
Qed.

Lemma forallb_range (P : Z -> bool) (lo : Z) (n : nat) :
  forallb P (range lo n) = true ->
  forall k, lo <= k < lo + Z.of_nat n -> P k = true.
Proof.
  intros H k Hk. rewrite forallb_forall in H. apply H.
  unfold range. apply in_map_iff. exists (Z.to_nat (k - lo)). split; [lia |].
  apply in_seq. lia.
Qed.

Lemma print_large_sound (x : number) (t : jstring) :
  print_large x = Some t -> Number_toString x = t.
Proof.
  destruct x as [s | s | | s m e]; cbn [print_large]; try discriminate.
  - now intros [= <-].
  - destruct (_ <=? _) eqn:H; [| discriminate]. intros [= <-].
    now apply Number_toString_large.
Qed.

(** *** Whole percentages *)

Lemma percent_hundredth rt (k : Z) :
  1 <= k <= 100 -> percent rt (VNum (hundredth k)) = Ok (natural_digits 3 k).
Proof.
  intros Hk. unfold percent. cbn [ToNumber rbind]. f_equal.
  apply print_large_sound.
  assert (forallb (fun k => match print_large
                                    (Math_round (num_mul (hundredth k) (number_of_Z 100))) with
                            | Some t => jstring_eqb t (natural_digits 3 k)
                            | None => false
                            end) (range 1 100) = true) as H by (vm_compute; reflexivity).
  pose proof (forallb_range _ _ _ H k ltac:(lia)) as Hc. cbv beta in Hc.
  destruct (print_large _) as [t |]; [| discriminate].
  now rewrite (jstring_eqb_eq _ _ Hc).
Qed.

Lemma truthy_hundredth (k : Z) : 1 <= k <= 100 -> truthy (VNum (hundredth k)) = true.
Proof.
  intros Hk.
  assert (forallb (fun k => truthy (VNum (hundredth k))) (range 1 100) = true) as H
    by (vm_compute; reflexivity).
  exact (forallb_range _ _ _ H k ltac:(lia)).
Qed.

(** Property X20. For every score with two decimals from 0.01 to 1, the
    percentage printed by the confidence badge (and by the similarity
    scores, which use the same computation) is the whole number of
    hundredths: no rounding artefact of the multiplication by 100
    shows. *)
Theorem whole_percent_badges :
  forall rt k,
    1 <= k <= 100 ->
    percent rt (VNum (hundredth k)) = Ok (natural_digits 3 k) /\
    confidence_badge rt (VNum (hundredth k)) =
      Ok (lit "<div class=`confidence-score`>" ++ natural_digits 3 k ++ lit "% match</div>").
Proof.
  intros rt k Hk. split; [now apply percent_hundredth |].
  unfold confidence_badge. now rewrite truthy_hundredth, percent_hundredth.
Qed.

(** *** Ratings off the scale *)

Lemma gave_eq (r : result jstring) (t : jstring) : gave r t = true -> r = Ok t.
Proof. destruct r as [s | e]; cbn; [| discriminate]. intros H. now rewrite (jstring_eqb_eq _ _ H). Qed.

Lemma range_error_eq (r : result jstring) : range_error r = true -> r = Throw RangeError.
Proof. destruct r as [s | []]; cbn; try discriminate. reflexivity. Qed.

Lemma rating_span_tenth rt (k : Z) :
  - 100 <= k <= 100 ->
  (0 <= k < 60 ->
   rating_filled rt (VNum (tenth k)) = Ok (repeat star_filled (Z.to_nat (k / 10))) /\
   rating_empty rt (VNum (tenth k)) = Ok (repeat star_empty (Z.to_nat (5 - k / 10)))) /\
  (k < 0 -> rating_filled rt (VNum (tenth k)) = Throw RangeError) /\
  (60 <= k ->
   rating_filled rt (VNum (tenth k)) = Ok (repeat star_filled (Z.to_nat (k / 10))) /\
   rating_empty rt (VNum (tenth k)) = Throw RangeError).
Proof.
  intros Hk.
  assert (forallb (fun k =>
            gave (rating_filled rt (VNum (tenth k))) (repeat star_filled (Z.to_nat (k / 10))) &&
            gave (rating_empty rt (VNum (tenth k))) (repeat star_empty (Z.to_nat (5 - k / 10))))
            (range 0 60) = true) as Hin by (vm_compute; reflexivity).
  assert (forallb (fun k => range_error (rating_filled rt (VNum (tenth k))))
            (range (- 100) 100) = true) as Hlow by (vm_compute; reflexivity).
  assert (forallb (fun k =>
            gave (rating_filled rt (VNum (tenth k))) (repeat star_filled (Z.to_nat (k / 10))) &&
            range_error (rating_empty rt (VNum (tenth k))))
            (range 60 41) = true) as Hhigh by (vm_compute; reflexivity).
  split; [| split].
  - intros H. pose proof (forallb_range _ _ _ Hin k ltac:(lia)) as Hc. cbv beta in Hc.
    apply andb_prop in Hc as [Hf He]. split; [now apply gave_eq | now apply gave_eq].
  - intros H. pose proof (forallb_range _ _ _ Hlow k ltac:(lia)) as Hc. cbv beta in Hc.
    now apply range_error_eq.
  - intros H. pose proof (forallb_range _ _ _ Hhigh k ltac:(lia)) as Hc. cbv beta in Hc.
    apply andb_prop in Hc as [Hf He]. split; [now apply gave_eq | now apply range_error_eq].
Qed.

(** Property X19. For a rating with one decimal between -10 and 10: from 0
    up to 5.9 both runs of glyphs are rendered, with five filled glyphs and
    no empty one from 5 on; below 0, and from 6 on, no card is rendered,
    and what is thrown is a RangeError whenever the confidence score and
    the name, description, category and price of the product, which the
    card prints before the rating, do print. *)
Theorem rating_off_the_scale_breaks_card :
  forall rt fields extraInfo k,
    lookup_field (lit "rating") fields = Some (VNum (tenth k)) ->
    - 100 <= k <= 100 ->
    (0 <= k < 60 ->
     rating_filled rt (VNum (tenth k)) = Ok (repeat star_filled (Z.to_nat (k / 10))) /\
     rating_empty rt (VNum (tenth k)) = Ok (repeat star_empty (Z.to_nat (5 - k / 10)))) /\
    (k < 0 \/ 60 <= k ->
     (exists e, renderProductCard rt (VObj fields) extraInfo = Throw e) /\
     (prints_at (default_param extraInfo (VObj [])) (lit "confidence_score") ->
      Forall (prints_at (VObj fields)) keys_before_rating ->
      renderProductCard rt (VObj fields) extraInfo = Throw RangeError)).
Proof.
  intros rt fields extraInfo k Hrating Hk.
  destruct (rating_span_tenth rt k Hk) as (Hin & Hlow & Hhigh).
  split; [exact Hin |].
  intros Hout. split.
  - destruct (renderProductCard rt (VObj fields) extraInfo) as [card | e] eqn:Hcard;
      [exfalso | eauto].
    unfold renderProductCard in Hcard. ok_steps Hcard.
    match goal with
    | H : get_prop (VObj fields) (lit "rating") = Ok ?x |- _ =>
        cbn [get_prop] in H; rewrite Hrating in H; apply Ok_inj in H; subst x
    end.
    destruct Hout as [Hneg | Hbig].
    + rewrite (Hlow Hneg) in *. discriminate.
    + destruct (Hhigh Hbig) as [_ He]. rewrite He in *. discriminate.
  - intros (cs & Hcs & Hpcs) Hkeys. unfold keys_before_rating in Hkeys.
    apply Forall_cons_1 in Hkeys as [Hname Hkeys].
    apply Forall_cons_1 in Hkeys as [Hdescription Hkeys].
    apply Forall_cons_1 in Hkeys as [Hcategory Hkeys].
    apply Forall_cons_1 in Hkeys as [Hprice _].
    apply print_prop_printable in Hname as [name Hname].
    apply print_prop_printable in Hdescription as [description Hdescription].
    apply print_prop_printable in Hcategory as [category Hcategory].
    apply print_prop_printable in Hprice as [price Hprice].
    unfold renderProductCard. cbv zeta. rewrite Hcs. cbn [rbind].
    assert (forall key, exists x, get_prop (default_param extraInfo (VObj [])) key = Ok x)
      as Hget.
    { intros key. destruct (default_param extraInfo (VObj [])); cbn in Hcs |- *;
        try discriminate; eauto. }
    destruct (Hget (lit "explanation")) as [ex ->].
    destruct (Hget (lit "recommendation_reason")) as [rr ->].
    cbn [rbind].
    destruct (confidence_badge_printable rt cs Hpcs) as [badge ->]. cbn [rbind].
    rewrite Hname, Hdescription, Hcategory, Hprice. cbn [rbind get_prop]. rewrite Hrating.
    destruct Hout as [Hneg | Hbig].
    + now rewrite (Hlow Hneg).
    + destruct (Hhigh Hbig) as [-> ->]. reflexivity.
Qed.

(** *** The message of an HTTP error *)

Lemma status_digits (status : Z) :
  0 <= status <= 999 -> Number_toString (number_of_Z status) = natural_digits 3 status.
Proof.
  intros Hs. apply print_large_sound.
  assert (forallb (fun k => match print_large (number_of_Z k) with
                            | Some t => jstring_eqb t (natural_digits 3 k)
                            | None => false
                            end) (range 0 1000) = true) as H by (vm_compute; reflexivity).
  pose proof (forallb_range _ _ _ H status ltac:(lia)) as Hc. cbv beta in Hc.
  destruct (print_large _) as [t |]; [| discriminate].
  now rewrite (jstring_eqb_eq _ _ Hc).
Qed.

(** Property X3. When the backend answers with a status outside 200..299,
    [makeRequest] does not read the body: it throws the error whose message
    is "HTTP error! status: " followed by the decimal digits of the status,
    after logging that same error once. *)
Theorem http_error_reports_status :
  forall rt endpoint opts w status body,
    let req := build_request (app w) endpoint opts in
    server rt (fetches w) req = HttpResponse status body ->
    0 <= status <= 999 ->
    response_ok status = false ->
    let error := Error (lit "HTTP error! status: " ++ natural_digits 3 status) in
    makeRequest rt endpoint opts w =
    Run (Throw error) (sent w)
      [EvFetch req (HttpResponse status body);
       EvConsoleError (lit "API request failed:") error].
Proof.
  intros rt endpoint opts w status body req Hserver Hstatus Hbad error.
  rewrite makeRequest_run. cbv zeta. fold req. rewrite Hserver.
  cbn [request_outcome]. rewrite Hbad, (status_digits status Hstatus). reflexivity.
Qed.

(** ** Lists of results *)

Lemma length_not_zero (items : list value) :
  items <> [] -> Z.of_nat (length items) < 2 ^ 32 ->
  is_zero (VNum (number_of_nat (length items))) = false /\
  num_ltb (number_of_Z 0) (number_of_nat (length items)) = true.
Proof.
  intros Hne Hlen.
  destruct (number_of_nat_small (length items)) as (m & e & ->).
  - destruct items; [congruence | cbn; lia].
  - assert (2 ^ 32 < 2 ^ 53) by reflexivity. lia.
  - split; reflexivity.
Qed.

Lemma renderSearchResults_rows rt (query : jstring) (items : list value) (rows : list jstring) :
  items <> [] -> Z.of_nat (length items) < 2 ^ 32 ->
  Forall2 (fun item row => renderSearchResult rt item = Ok row) items rows ->
  renderSearchResults rt query (VArr items) = Ok (search_results_markup query rows).
Proof.
  intros Hne Hlen Hrows. unfold renderSearchResults.
  change (get_prop (VArr items) (lit "length")) with (Ok (VNum (number_of_nat (length items)))).
  cbn [rbind]. destruct (length_not_zero items Hne Hlen) as [-> _].
  unfold call_map. rewrite (rmap_all _ _ _ Hrows). reflexivity.
Qed.

(** Property X14. A successful search with a non-empty list of results,
    each of which renders as a row, shows the heading with the trimmed
    query followed by these rows, one per result and in their order, and
    neither logs nor alerts. *)
Theorem search_results_rendered :
  forall rt w out req status body results rows,
    document w !! "searchResults" = Some out ->
    let r := performSearch rt w in
    nth_error (events_of r) 0 = Some (EvFetch req (HttpResponse status (Some body))) ->
    response_ok status = true ->
    (exists success, get_prop body (lit "success") = Ok success /\ truthy success = true) ->
    get_prop body (lit "results") = Ok (VArr results) ->
    results <> [] ->
    Z.of_nat (length results) < 2 ^ 32 ->
    Forall2 (fun item row => renderSearchResult rt item = Ok row) results rows ->
    exists input,
      document w !! "searchInput" = Some input /\
      length rows = length results /\
      document (world_of r) !! "searchResults" =
        Some (with_content
                (Markup (search_results_markup (trim (el_value input)) rows)) out) /\
      result_of r = Ok tt /\
      events_of r = [EvFetch req (HttpResponse status (Some body))].
Proof.
  intros rt w out req status body results rows Hout r Hnth Hok
    (success & Hsuccess & Htruthy) Hresults Hne Hlen Hrows.
  subst r.
  destruct (search_flow_started rt w (nth_fetch_requested _ _ _ _ Hnth))
    as (input & btn & Hin & Htext & Hbtn).
  destruct (performSearch_run rt w input btn Hin Htext Hbtn) as (ej & Hej & Hrun).
  cbv zeta in Hrun. rewrite Hrun in *. clear Hrun.
  exists input. split; [exact Hin |].
  split; [symmetry; eapply Forall2_length; exact Hrows |].
  match type of Hnth with
  | context [request_outcome ?o] => destruct (request_outcome o) as [json | e] eqn:Ho
  end.
  - unfold prepend in Hnth. cbn [events_of List.app nth_error] in Hnth.
    apply some_fetch_inj in Hnth as [Hreq Hresp]. rewrite Hresp in Ho.
    rewrite (request_outcome_ok _ _ Hok) in Ho. apply Ok_inj in Ho. subst json.
    rewrite Hresp, Hreq.
    focus_body. unfold show_search_results.
    rewrite bind_lift, Hsuccess, Htruthy, bind_lift, Hresults, bind_getElementById.
    unfold busy. run_world. lookup_altered. rewrite Hout.
    rewrite bind_lift, (renderSearchResults_rows rt _ results rows Hne Hlen Hrows).
    unfold set_innerHTML, write_element. unfocus. run_world.
    split; [| split; reflexivity].
    rewrite restore_control_other by discriminate.
    cbn [document]. lookup_altered. rewrite Hout. reflexivity.
  - cbn [events_of nth_error] in Hnth.
    apply some_fetch_inj in Hnth as [Hreq Hresp]. rewrite Hresp in Ho.
    rewrite (request_outcome_ok _ _ Hok) in Ho. discriminate.
Qed.

(** Property X18. The body of the detail view depends on the first three
    similar products only: the entries after the third, well formed or not,
    change nothing. *)
Theorem modal_shows_first_three_similar :
  forall rt product similar,
    Z.of_nat (length similar) < 2 ^ 32 ->
    renderModalBody rt product (VArr similar) =
    renderModalBody rt product (VArr (firstn 3 similar)).
Proof.
  intros rt product similar Hlen. unfold renderModalBody.
  repeat match goal with
         | |- rbind ?r _ = rbind ?r _ => destruct r; cbn [rbind]; [| reflexivity]
         end.
  change (get_prop (VArr similar) (lit "length"))
    with (Ok (VNum (number_of_nat (length similar)))).
  change (get_prop (VArr (firstn 3 similar)) (lit "length"))
    with (Ok (VNum (number_of_nat (length (firstn 3 similar))))).
  cbn [rbind ToNumber].
  destruct similar as [| item similar]; [reflexivity |].
  destruct (length_not_zero (item :: similar)) as [_ ->]; [discriminate | exact Hlen |].
  destruct (length_not_zero (firstn 3 (item :: similar))) as [_ ->].
  - discriminate.
  - rewrite length_firstn. assert (0 < 2 ^ 32) by reflexivity. lia.
  - cbn [call_slice0_map]. rewrite firstn_firstn. reflexivity.
Qed.

(** ** Emotion tags *)

Lemma join_concat (parts : list jstring) : join [] parts = concat parts.
Proof.
  induction parts as [| p [| q parts] IH]; [reflexivity | cbn; now rewrite app_nil_r |].
  change (join [] (p :: q :: parts)) with (p ++ [] ++ join [] (q :: parts)).
  now rewrite IH.
Qed.

Lemma rmap_bind_all {A B C} (f : A -> result B) (g : B -> C) (l : list A) (bs : list B) :
  Forall2 (fun a b => f a = Ok b) l bs ->
  rmap (fun a => (let? b := f a in Ok (g b))%result) l = Ok (map g bs).
Proof.
  induction 1 as [| a b l bs Hab _ IH]; cbn [rmap map]; [reflexivity |].
  now rewrite Hab, IH.
Qed.

Lemma rmap_bind_throw {A B C} (f : A -> result B) (g : B -> C) (l : list A) (e : js_error) :
  (forall a e', f a = Throw e' -> e' = e) ->
  Exists (fun a => f a = Throw e) l ->
  rmap (fun a => (let? b := f a in Ok (g b))%result) l = Throw e.
Proof.
  intros Hone. induction 1 as [a l Ha | a l _ IH]; cbn [rmap].
  - now rewrite Ha.
  - destruct (f a) as [b | e'] eqn:Hfa; cbn [rbind]; [now rewrite IH |].
    now rewrite (Hone a e' Hfa).
Qed.

Lemma ToString_throws (v : value) (e : js_error) : ToString v = Throw e -> e = TypeError.
Proof.
  intros H. pose proof (ToString_cases v) as Hc. rewrite H in Hc. now destruct Hc.
Qed.

(** Property X21. The emotion tags of a product are rendered as one badge
    per tag, showing the tag as printed, when they are a list of values
    that print, and as nothing when they are absent or falsy; a list with a
    tag that does not print, and tags that are truthy but not a list, such
    as a non-empty string, make the rendering throw a TypeError. *)
Theorem emotion_tags_are_a_list_or_nothing :
  forall tags,
    (truthy tags = false -> renderEmotionIndicators (or_else tags (VArr [])) = Ok []) /\
    (forall items texts,
        tags = VArr items ->
        Forall2 (fun item text => ToString item = Ok text) items texts ->
        renderEmotionIndicators (or_else tags (VArr [])) =
          Ok (concat (map emotion_badge texts))) /\
    (forall items,
        tags = VArr items ->
        Exists (fun item => printable item = false) items ->
        renderEmotionIndicators (or_else tags (VArr [])) = Throw TypeError) /\
    (truthy tags = true -> (forall items, tags <> VArr items) ->
     renderEmotionIndicators (or_else tags (VArr [])) = Throw TypeError).
Proof.
  intros tags. split; [| split; [| split]].
  - intros H. unfold or_else. rewrite H. reflexivity.
  - intros items texts -> Htexts. unfold or_else. cbn [truthy].
    unfold renderEmotionIndicators, call_map.
    change (rmap _ items)
      with (rmap (fun a => (let? b := ToString a in Ok (emotion_badge b))%result) items).
    rewrite (rmap_bind_all ToString emotion_badge items texts Htexts). cbn [rbind].
    now rewrite join_concat.
  - intros items -> Hbad. unfold or_else. cbn [truthy].
    unfold renderEmotionIndicators, call_map.
    change (rmap _ items)
      with (rmap (fun a => (let? b := ToString a in Ok (emotion_badge b))%result) items).
    rewrite (rmap_bind_throw ToString emotion_badge items TypeError); [reflexivity | |].
    + intros a e' H. exact (ToString_throws a e' H).
    + eapply List.Exists_impl; [| exact Hbad]. intros a. apply ToString_unprintable.
  - intros H Hlist. unfold or_else. rewrite H.
    destruct tags; try reflexivity. now destruct (Hlist items).
Qed.

(** ** The cards of similar products *)

(** Property X22. Every card rendered for a similar product shows at most
    the first 100 code units of the description of the product, which is a
    string, always followed by three dots; a description that is not a
    string, a missing one included, makes the rendering throw a TypeError;
    and the card is rendered when the description is a string and the
    name, the price, the identifier and the similarity score print. *)
Theorem similar_card_truncates_description :
  forall rt item product description,
    get_prop item (lit "product") = Ok product ->
    get_prop product (lit "description") = Ok description ->
    (forall card,
       renderSimilarCard rt item = Ok card ->
       exists s before after,
         description = VStr s /\
         card =
         before ++
         lit "</h6>
                                            <p class=`card-text small`>" ++
         firstn 100 s ++
         lit "...</p>
                                            <div class=`d-flex justify-content-between align-items-center`>
                                                <strong class=`text-success`>$" ++
         after) /\
    ((forall s, description <> VStr s) -> renderSimilarCard rt item = Throw TypeError) /\
    (forall s,
       description = VStr s ->
       Forall (prints_at product) similar_keys ->
       prints_at item (lit "similarity_score") ->
       exists card, renderSimilarCard rt item = Ok card).
Proof.
  intros rt item product description Hproduct Hdescription.
  split; [| split].
  - intros card Hcard. unfold renderSimilarCard in Hcard. ok_steps Hcard.
    match goal with
    | H : get_prop item (lit "product") = Ok ?x |- _ =>
        is_var x; rewrite Hproduct in H; apply Ok_inj in H; subst x
    end.
    match goal with
    | H : get_prop product (lit "description") = Ok ?x |- _ =>
        is_var x; rewrite Hdescription in H; apply Ok_inj in H; subst x
    end.
    match goal with
    | H : call_substring0 description 100 = Ok ?x |- _ =>
        destruct description as [| | | | s | |]; try discriminate H;
        cbn [call_substring0] in H; apply Ok_inj in H; subst x
    end.
    exists s. apply Ok_inj in Hcard. subst card.
    unfold substring0.
    match goal with
    | |- exists before after, _ /\ ?X = before ++ ?p ++ ?m ++ ?q ++ after =>
        destruct (contains_eq p m q X) as (b & a & Heq)
    end.
    + do 2 apply contains_skip.
      apply contains_prefix. do 2 apply prefix_app. apply prefix_here.
    + exists b, a. split; [reflexivity | exact Heq].
  - intros Hnot. unfold renderSimilarCard. rewrite Hproduct. cbn [rbind].
    destruct (print_prop product (lit "name")) as [name | e] eqn:Hname; cbn [rbind].
    + rewrite Hdescription. cbn [rbind].
      destruct description; try reflexivity. now destruct (Hnot s).
    + unfold print_prop in Hname.
      destruct (get_prop product (lit "name")) as [x | e'] eqn:Hx; cbn [rbind] in Hname.
      * now rewrite (ToString_throws x e Hname).
      * destruct product; cbn in Hdescription, Hx; discriminate.
  - intros s -> Hkeys (score & Hscore & Hpscore). unfold similar_keys in Hkeys.
    apply Forall_cons_1 in Hkeys as [Hname Hkeys].
    apply Forall_cons_1 in Hkeys as [Hprice Hkeys].
    apply Forall_cons_1 in Hkeys as [Hid _].
    apply print_prop_printable in Hname as [name Hname].
    apply print_prop_printable in Hprice as [price Hprice].
    apply print_prop_printable in Hid as [product_id Hid].
    unfold renderSimilarCard, percent. rewrite Hproduct. cbn [rbind].
    rewrite Hname. cbn [rbind]. rewrite Hdescription. cbn [rbind call_substring0].
    rewrite Hprice. cbn [rbind]. rewrite Hscore. cbn [rbind].
    destruct (ToNumber_printable rt score Hpscore) as [x ->]. cbn [rbind].
    rewrite Hid. cbn [rbind]. eauto.
Qed.

(** ** The properties on the sample page *)

Lemma blank_input_sends_nothing_witness :
  analyzeMoodAndRecommend (Sample.scripted []) (Sample.loaded "   " "tea") =
    Run (Ok tt) (Sample.loaded "   " "tea")
      [EvAlert (lit "Please tell us how you're feeling first!")] /\
  performSearch (Sample.scripted []) (Sample.loaded "sad" "") =
    Run (Ok tt) (Sample.loaded "sad" "")
      [EvAlert (lit "Please enter a search query!")].
Proof.
  split.
  - apply (proj1 blank_input_sends_nothing (Sample.scripted []) (Sample.loaded "   " "tea")
             (Sample.element_of "   ")); reflexivity.
  - apply (proj2 blank_input_sends_nothing (Sample.scripted []) (Sample.loaded "sad" "")
             (Sample.element_of "")); reflexivity.
Defined.

Lemma bad_response_restores_control_witness :
  count is_alert
    (events_of (analyzeMoodAndRecommend (Sample.scripted [Sample.server_error])
                  (Sample.loaded "I feel sad" "tea"))) = 1%nat /\
  count is_alert
    (events_of (performSearch (Sample.scripted [Sample.server_error])
                  (Sample.loaded "I feel sad" "tea"))) = 1%nat.
Proof.
  split.
  - apply (proj1 bad_response_restores_control (Sample.scripted [Sample.server_error])
             (Sample.loaded "I feel sad" "tea")).
    vm_compute. apply Exists_cons_hd. eexists _, _, _. split; reflexivity.
  - apply (proj2 bad_response_restores_control (Sample.scripted [Sample.server_error])
             (Sample.loaded "I feel sad" "tea")).
    vm_compute. apply Exists_cons_hd. eexists _, _, _. split; reflexivity.
Defined.

Lemma rating_glyphs_rendered_witness :
  exists card before after,
    renderProductCard (Sample.scripted []) Sample.tea VUndefined = Ok card /\
    card =
    before ++
    lit "</strong>
                            <span class=`text-warning ms-2`>
                                " ++
    rating_run three_point_two (7205759403792794 # 2251799813685248) ++
    lit "
                            </span>
                        </div>
                        
                        <div class=`mb-3`>
                            " ++
    after.
Proof.
  destruct rating_glyphs_rendered as (Hcontains & Hrenders & _).
  destruct (Hrenders (Sample.scripted []) Sample.tea VUndefined
              three_point_two (7205759403792794 # 2251799813685248)
              [VStr (lit "calm"); VStr (lit "cozy")]) as [card Hcard].
  - reflexivity.
  - reflexivity.
  - unfold Qle. simpl. lia.
  - unfold Qle. simpl. lia.
  - reflexivity.
  - discriminate.
  - unfold card_keys. repeat constructor; eexists; split; reflexivity.
  - repeat constructor.
  - unfold extra_keys. repeat constructor; eexists; split; reflexivity.
  - destruct (Hcontains (Sample.scripted []) Sample.tea VUndefined
                three_point_two (7205759403792794 # 2251799813685248) card)
      as (before & after & Heq).
    + reflexivity.
    + reflexivity.
    + unfold Qle. simpl. lia.
    + unfold Qle. simpl. lia.
    + exact Hcard.
    + exists card, before, after. split; [exact Hcard | exact Heq].
Defined.


Lemma identity_generated_once_witness :
  (let r := page (Sample.scripted [Sample.ok Sample.refusal])
              [ClickAnalyze; ClickView (lit "p1")] (Sample.first_visit "I feel sad" "tea") in
   count is_random (events_of r) = 1%nat /\
   userId (app (world_of r)) = lit "user_4fzyo82mvyr") /\
  (let r := page (Sample.scripted [Sample.ok Sample.refusal])
              [ClickAnalyze; ClickView (lit "p1")] (Sample.return_visit "I feel sad" "tea") in
   count is_random (events_of r) = 0%nat /\
   userId (app (world_of r)) = lit "user_k3j9x0q2m1").
Proof.
  split.
  - destruct (proj1 identity_generated_once (Sample.scripted [Sample.ok Sample.refusal])
                (Sample.first_visit "I feel sad" "tea") [ClickAnalyze; ClickView (lit "p1")])
      as (Hrandom & _ & _ & Hid & _).
    + left. reflexivity.
    + split; [exact Hrandom | exact Hid].
  - destruct (proj2 identity_generated_once (Sample.scripted [Sample.ok Sample.refusal])
                (Sample.return_visit "I feel sad" "tea") [ClickAnalyze; ClickView (lit "p1")]
                (lit "user_k3j9x0q2m1"))
      as (Hrandom & _ & _ & Hid & _).
    + reflexivity.
    + discriminate.
    + split; [exact Hrandom | exact Hid].
Defined.

Lemma failed_tracking_ends_view_witness :
  count is_alert
    (events_of (viewProduct (Sample.scripted [Sample.server_error]) (lit "p1")
                  (Sample.loaded "I feel sad" "tea"))) = 1%nat /\
  count is_fetch
    (events_of (viewProduct (Sample.scripted [Sample.server_error]) (lit "p1")
                  (Sample.loaded "I feel sad" "tea"))) = 1%nat.
Proof.
  destruct (failed_tracking_ends_view (Sample.scripted [Sample.server_error]) (lit "p1")
              (Sample.loaded "I feel sad" "tea")) as (ej & _ & H).
  rewrite (H (Error (lit "HTTP error! status: 500")) eq_refl).
  split; reflexivity.
Defined.

(** C1, as stated, fails: the tracking request of this view is answered
    with status 500; the user is alerted and the similar-products request
    is never issued. *)
Lemma failed_tracking_alerts_and_stops :
  let r := viewProduct (Sample.scripted [Sample.server_error; Sample.ok Sample.refusal])
             (lit "p1") (Sample.loaded "I feel sad" "tea") in
  (exists body,
      nth_error (events_of r) 0 =
      Some (EvFetch (post_request (app (Sample.loaded "I feel sad" "tea"))
                       (lit "/track-interaction") body)
              Sample.server_error)) /\
  count is_alert (events_of r) = 1%nat /\
  count is_fetch (events_of r) = 1%nat.
Proof.
  cbv zeta. split; [eexists; vm_compute; reflexivity | split; vm_compute; reflexivity].
Qed.

Lemma view_tracks_first_witness :
  exists rest,
    events_of (viewProduct (Sample.scripted [Sample.ok Sample.refusal; Sample.server_error])
                 (lit "p1") (Sample.loaded "I feel sad" "tea")) =
    EvFetch (post_request (app (Sample.loaded "I feel sad" "tea")) (lit "/track-interaction")
               (lit "{`user_id`:`user_k3j9x0q2m1`,`product_id`:`p1`,`action`:`view`,`emotion`:null}"))
      (Sample.ok Sample.refusal) :: rest.
Proof.
  destruct (view_tracks_first
              (Sample.scripted [Sample.ok Sample.refusal; Sample.server_error])
              (lit "p1") (Sample.loaded "I feel sad" "tea")) as (ej & rest & Hej & Hev & _).
  exists rest. injection Hej as <-. exact Hev.
Defined.

Lemma success_false_is_silent_witness :
  events_of (analyzeMoodAndRecommend (Sample.scripted [Sample.ok Sample.refusal])
               (Sample.loaded "I feel sad" "tea")) =
    [EvFetch (post_request (app (Sample.loaded "I feel sad" "tea"))
                (lit "/analyze-sentiment") (lit "{`text`:`I feel sad`}"))
       (Sample.ok Sample.refusal)] /\
  result_of (analyzeMoodAndRecommend
               (Sample.scripted [Sample.ok Sample.sentiment_envelope; Sample.ok Sample.refusal])
               (Sample.loaded "I feel sad" "tea")) = Ok tt /\
  events_of (performSearch (Sample.scripted [Sample.ok Sample.refusal])
               (Sample.loaded "I feel sad" "tea")) =
    [EvFetch (post_request (app (Sample.loaded "I feel sad" "tea")) (lit "/search")
                (lit "{`query`:`tea`,`emotion_context`:null,`limit`:10}"))
       (Sample.ok Sample.refusal)] /\
  loadAllProducts (Sample.scripted [Sample.ok Sample.refusal])
    (Sample.loaded "I feel sad" "tea") =
    Run (Ok tt) (sent (Sample.loaded "I feel sad" "tea"))
      [EvFetch (get_request (app (Sample.loaded "I feel sad" "tea")) (lit "/products"))
         (Sample.ok Sample.refusal)] /\
  result_of (viewProduct (Sample.scripted [Sample.ok Sample.refusal; Sample.ok Sample.refusal])
               (lit "p1") (Sample.loaded "I feel sad" "tea")) = Ok tt.
Proof.
  destruct success_false_is_silent as (Hmood & Hrecs & Hsearch & Hcatalog & Hview).
  split; [| split; [| split; [| split]]].
  - apply (Hmood (Sample.scripted [Sample.ok Sample.refusal])
             (Sample.loaded "I feel sad" "tea")); reflexivity.
  - apply (Hrecs (Sample.scripted [Sample.ok Sample.sentiment_envelope; Sample.ok Sample.refusal])
             (Sample.loaded "I feel sad" "tea")
             (post_request (app (Sample.loaded "I feel sad" "tea")) (lit "/recommendations")
                (recommendations_body (lit "user_k3j9x0q2m1")
                   (lit "{`mood`:`sad`,`mood_category`:`negative`,`user_input`:`I feel sad`}")))
             200 Sample.refusal); reflexivity.
  - apply (Hsearch (Sample.scripted [Sample.ok Sample.refusal])
             (Sample.loaded "I feel sad" "tea")); reflexivity.
  - apply (Hcatalog (Sample.scripted [Sample.ok Sample.refusal])
             (Sample.loaded "I feel sad" "tea")); reflexivity.
  - destruct (Hview (Sample.scripted [Sample.ok Sample.refusal; Sample.ok Sample.refusal])
                (lit "p1") (Sample.loaded "I feel sad" "tea")
                (get_request (app (Sample.loaded "I feel sad" "tea"))
                   (lit "/similar-products/p1"))
                200 Sample.refusal) as (first & -> & _); reflexivity.
Defined.


(** ** The further properties on the sample page *)

Lemma generated_identity_reused_witness :
  constructor (Sample.scripted [])
    (world_of (constructor (Sample.scripted []) (Sample.first_visit "sad" "tea"))) =
  Run (Ok tt)
    {| localStorage := {[ "userId" := lit "user_4fzyo82mvyr" ]};
       document := Sample.page_document "sad" "tea";
       app := {| userId := lit "user_4fzyo82mvyr"; apiBase := lit "/api";
                 currentEmotion := VNull |};
       fetches := 0; randoms := 1 |} [].
Proof.
  destruct (generated_identity_reused (Sample.scripted []) (Sample.scripted [])
              (Sample.first_visit "sad" "tea")
              (world_of (constructor (Sample.scripted []) (Sample.first_visit "sad" "tea"))))
    as (_ & _ & H).
  - left. reflexivity.
  - reflexivity.
  - rewrite H. reflexivity.
Defined.

Lemma catalog_failure_shows_message_witness :
  let r := loadAllProducts (Sample.scripted [Sample.server_error])
             (Sample.loaded "sad" "tea") in
  length (events_of r) = 3%nat /\
  document (world_of r) !! "productsList" =
    Some (with_content (Markup catalog_error_markup) (Sample.element_of "")).
Proof.
  cbv zeta.
  destruct (catalog_failure_shows_message (Sample.scripted [Sample.server_error])
              (Sample.loaded "sad" "tea")
              (Error (lit "HTTP error! status: 500")))
    as (Hev & _ & _ & H).
  - vm_compute. reflexivity.
  - change (document (Sample.loaded "sad" "tea") !! "productsList")
      with (Some (Sample.element_of "")) in H.
    destruct H as [_ H]. split; [now rewrite Hev | exact H].
Defined.

Lemma search_sends_trimmed_query_and_emotion_witness :
  exists o rest,
    events_of (performSearch (Sample.scripted [Sample.ok Sample.refusal])
                 (Sample.loaded "sad" "  herbal tea ")) =
    EvFetch {| req_url := lit "/api/search";
               req_method := Some (lit "POST");
               req_headers := json_headers;
               req_body := Some (lit "{`query`:`herbal tea`,`emotion_context`:null,`limit`:10}") |}
            o :: rest.
Proof.
  destruct (search_sends_trimmed_query_and_emotion
              (Sample.scripted [Sample.ok Sample.refusal])
              (Sample.loaded "sad" "  herbal tea "))
    as (input & ej & o & rest & Hin & Hej & Hev & _).
  - vm_compute. apply Exists_cons_hd. reflexivity.
  - change (document (Sample.loaded "sad" "  herbal tea ") !! "searchInput")
      with (Some (Sample.element_of "  herbal tea ")) in Hin.
    injection Hin as <-.
    change (JSON_stringify (default_param (currentEmotion (app (Sample.loaded "sad" "  herbal tea "))) VNull))
      with (Some (lit "null")) in Hej.
    injection Hej as <-.
    exists o, rest. rewrite Hev. reflexivity.
Defined.

Lemma empty_search_shows_message_witness :
  document (world_of (performSearch (Sample.scripted [Sample.ok Payloads.empty_search_envelope])
                        (Sample.loaded "sad" "tea")))
    !! "searchResults" =
  Some (with_content (Markup no_results_markup) (Sample.element_of "")).
Proof.
  destruct (empty_search_shows_message
              (Sample.scripted [Sample.ok Payloads.empty_search_envelope])
              (Sample.loaded "sad" "tea") (Sample.element_of "")
              (post_request (app (Sample.loaded "sad" "tea")) (lit "/search")
                 (search_body (lit "tea") (lit "null")))
              200 Payloads.empty_search_envelope)
    as (_ & _ & H).
  - reflexivity.
  - vm_compute. reflexivity.
  - reflexivity.
  - exists (VBool true). split; reflexivity.
  - reflexivity.
  - exact H.
Defined.

Lemma analysis_sets_current_emotion_witness :
  currentEmotion
    (app (world_of (analyzeMoodAndRecommend
                      (Sample.scripted [Sample.ok Sample.sentiment_envelope;
                                        Sample.server_error])
                      (Sample.loaded "I feel sad" "tea")))) = VStr (lit "sad").
Proof.
  destruct (analysis_sets_current_emotion
              (Sample.scripted [Sample.ok Sample.sentiment_envelope; Sample.server_error])
              (Sample.loaded "I feel sad" "tea")
              (post_request (app (Sample.loaded "I feel sad" "tea"))
                 (lit "/analyze-sentiment") (analyze_body (lit "I feel sad")))
              200 Sample.sentiment_envelope
              (VObj [(lit "primary_emotion", VStr (lit "sad"));
                     (lit "mood_category", VStr (lit "negative"));
                     (lit "emotion_intensity", VNum (number_of_Z 7));
                     (lit "shopping_motivation", VStr (lit "comfort"))])
              (VStr (lit "sad")))
    as (H & _).
  - vm_compute. reflexivity.
  - reflexivity.
  - exists (VBool true). split; reflexivity.
  - reflexivity.
  - reflexivity.
  - rewrite H. reflexivity.
Defined.

Lemma mood_flow_requests_witness :
  exists input req1 o1 json sentiment emotion category cj,
    document (Sample.loaded " I feel sad " "tea") !! "moodInput" = Some input /\
    nth_error (events_of (analyzeMoodAndRecommend
                            (Sample.scripted [Sample.ok Sample.sentiment_envelope;
                                              Sample.ok Sample.refusal])
                            (Sample.loaded " I feel sad " "tea"))) 0 =
      Some (EvFetch req1 o1) /\
    request_outcome o1 = Ok json /\
    get_prop json (lit "sentiment") = Ok sentiment /\
    get_prop sentiment (lit "primary_emotion") = Ok emotion /\
    get_prop sentiment (lit "mood_category") = Ok category /\
    JSON_stringify (VObj [(lit "mood", emotion);
                          (lit "mood_category", category);
                          (lit "user_input", VStr (trim (el_value input)))]) = Some cj /\
    post_request (app (Sample.loaded " I feel sad " "tea")) (lit "/recommendations")
      (recommendations_body (lit "user_k3j9x0q2m1")
         (lit "{`mood`:`sad`,`mood_category`:`negative`,`user_input`:`I feel sad`}")) =
    {| req_url := apiBase (app (Sample.loaded " I feel sad " "tea")) ++ lit "/recommendations";
       req_method := Some (lit "POST");
       req_headers := json_headers;
       req_body := Some (lit "{`user_id`:" ++
                         quote (userId (app (Sample.loaded " I feel sad " "tea"))) ++
                         lit ",`context`:" ++ cj ++ lit ",`limit`:8}") |}.
Proof.
  apply (proj2 (mood_flow_requests
                  (Sample.scripted [Sample.ok Sample.sentiment_envelope;
                                    Sample.ok Sample.refusal])
                  (Sample.loaded " I feel sad " "tea"))
           (post_request (app (Sample.loaded " I feel sad " "tea")) (lit "/recommendations")
              (recommendations_body (lit "user_k3j9x0q2m1")
                 (lit "{`mood`:`sad`,`mood_category`:`negative`,`user_input`:`I feel sad`}")))
           (Sample.ok Sample.refusal)).
  vm_compute. reflexivity.
Defined.

Lemma failed_recommendations_keep_analysis_witness :
  let r := analyzeMoodAndRecommend
             (Sample.scripted [Sample.ok Sample.sentiment_envelope; Sample.server_error])
             (Sample.loaded "I feel sad" "tea") in
  count is_alert (events_of r) = 1%nat /\
  exists summary,
    document (world_of r) !! "sentimentAnalysis" =
      Some (with_content (Markup summary) (Sample.element_of "")).
Proof.
  cbv zeta.
  destruct (failed_recommendations_keep_analysis
              (Sample.scripted [Sample.ok Sample.sentiment_envelope; Sample.server_error])
              (Sample.loaded "I feel sad" "tea")
              (post_request (app (Sample.loaded "I feel sad" "tea")) (lit "/recommendations")
                 (recommendations_body (lit "user_k3j9x0q2m1")
                    (lit "{`mood`:`sad`,`mood_category`:`negative`,`user_input`:`I feel sad`}")))
              Sample.server_error
              (Error (lit "HTTP error! status: 500")))
    as (first & json & sentiment & emotion & summary & div & btn & Hev & (req1 & o1 & -> & _) &
        _ & _ & _ & _ & _ & Hdiv & Hshown & _).
  - vm_compute. reflexivity.
  - vm_compute. reflexivity.
  - change (document (Sample.loaded "I feel sad" "tea") !! "sentimentAnalysis")
      with (Some (Sample.element_of "")) in Hdiv.
    injection Hdiv as <-.
    split; [rewrite Hev; reflexivity | exists summary; exact Hshown].
Defined.

Lemma catalog_is_all_or_nothing_witness :
  (exists cards,
      length cards = 2%nat /\
      document (world_of (loadAllProducts (Sample.scripted [Sample.ok Payloads.catalog_envelope])
                            (Sample.loaded "sad" "tea")))
        !! "productsList" =
      Some (with_content (Markup (join [] cards)) (Sample.element_of ""))) /\
  document (world_of (loadAllProducts
                        (Sample.scripted [Sample.ok Payloads.broken_catalog_envelope])
                        (Sample.loaded "sad" "tea")))
    !! "productsList" =
  Some (with_content (Markup catalog_error_markup) (Sample.element_of "")).
Proof.
  split.
  - destruct (renderProductCard (Sample.scripted [Sample.ok Payloads.catalog_envelope])
                Sample.tea VUndefined) as [tea_card | e] eqn:Htea; [| discriminate Htea].
    destruct (renderProductCard (Sample.scripted [Sample.ok Payloads.catalog_envelope])
                Sample.candle VUndefined) as [candle_card | e] eqn:Hcandle;
      [| discriminate Hcandle].
    exists [tea_card; candle_card]. split; [reflexivity |].
    rewrite (proj1 (catalog_is_all_or_nothing
                      (Sample.scripted [Sample.ok Payloads.catalog_envelope])
                      (Sample.loaded "sad" "tea") (Sample.element_of "")
                      (get_request (app (Sample.loaded "sad" "tea")) (lit "/products"))
                      200 Payloads.catalog_envelope [Sample.tea; Sample.candle]
                      eq_refl eq_refl eq_refl
                      (ex_intro _ (VBool true) (conj eq_refl eq_refl)) eq_refl)
               [tea_card; candle_card]).
    + reflexivity.
    + repeat constructor; assumption.
  - destruct (proj2 (catalog_is_all_or_nothing
                       (Sample.scripted [Sample.ok Payloads.broken_catalog_envelope])
                       (Sample.loaded "sad" "tea") (Sample.element_of "")
                       (get_request (app (Sample.loaded "sad" "tea")) (lit "/products"))
                       200 Payloads.broken_catalog_envelope [Sample.tea; Sample.overrated]
                       eq_refl eq_refl eq_refl
                       (ex_intro _ (VBool true) (conj eq_refl eq_refl)) eq_refl)
                Sample.overrated) as [e He].
    + right. left. reflexivity.
    + exists RangeError. reflexivity.
    + rewrite He. reflexivity.
Defined.

Lemma view_fills_modal_title_first_witness :
  let r := viewProduct (Sample.scripted [Sample.ok Payloads.acknowledged;
                                         Sample.ok Payloads.similar_envelope])
             (lit "p1") (Sample.loaded "sad" "tea") in
  document (world_of r) !! "productModal .modal-title" =
    Some (with_content (Text (lit "Chamomile tea")) (Sample.element_of "")) /\
  exists first request, events_of r = [first; request; EvModalShow "productModal"].
Proof.
  cbv zeta.
  destruct (view_fills_modal_title_first
              (Sample.scripted [Sample.ok Payloads.acknowledged;
                                Sample.ok Payloads.similar_envelope])
              (lit "p1") (Sample.loaded "sad" "tea")
              (Sample.element_of "") (Sample.element_of "") (Sample.element_of "")
              (get_request (app (Sample.loaded "sad" "tea")) (lit "/similar-products/p1"))
              200 Payloads.similar_envelope Sample.tea (VArr Payloads.similar_list)
              (VStr (lit "Chamomile tea")))
    as (first & _ & _ & H).
  - reflexivity.
  - reflexivity.
  - reflexivity.
  - vm_compute. reflexivity.
  - reflexivity.
  - exists (VBool true). split; reflexivity.
  - reflexivity.
  - reflexivity.
  - reflexivity.
  - change (text_of (VStr (lit "Chamomile tea"))) with (Ok (lit "Chamomile tea")) in H.
    cbv beta iota in H. destruct H as [Htitle H].
    split; [exact Htitle |].
    destruct (renderModalBody _ Sample.tea (VArr Payloads.similar_list)) as [html | e] eqn:Hbody;
      [| discriminate Hbody].
    destruct H as [Hev _]. eauto.
Defined.

Lemma whole_percent_badges_witness :
  confidence_badge (Sample.scripted []) (VNum (hundredth 87)) =
  Ok (lit "<div class=`confidence-score`>87% match</div>").
Proof.
  destruct (whole_percent_badges (Sample.scripted []) 87) as [_ H]; [lia |].
  rewrite H. reflexivity.
Defined.

Lemma rating_off_the_scale_breaks_card_witness :
  renderProductCard (Sample.scripted []) Sample.overrated VUndefined = Throw RangeError /\
  rating_filled (Sample.scripted []) (VNum (tenth 32)) =
    Ok [star_filled; star_filled; star_filled] /\
  rating_empty (Sample.scripted []) (VNum (tenth 32)) = Ok [star_empty; star_empty].
Proof.
  split.
  - destruct (rating_off_the_scale_breaks_card (Sample.scripted [])
                [(lit "product_id", VStr (lit "p3"));
                 (lit "name", VStr (lit "Weighted blanket"));
                 (lit "description", VStr (lit "Seven kilograms"));
                 (lit "price", VNum (number_of_Z 79));
                 (lit "category", VStr (lit "Home"));
                 (lit "rating", VNum (number_of_Z 7))]
                VUndefined 70 eq_refl ltac:(lia)) as [_ H].
    destruct H as [_ H]; [right; lia |].
    apply H.
    + eexists. split; reflexivity.
    + unfold keys_before_rating. repeat constructor; eexists; split; reflexivity.
  - destruct (rating_off_the_scale_breaks_card (Sample.scripted [])
                [(lit "rating", VNum (tenth 32))] VUndefined 32 eq_refl ltac:(lia)) as [H _].
    apply H. lia.
Defined.

Lemma http_error_reports_status_witness :
  makeRequest (Sample.scripted [Sample.server_error]) (lit "/products") no_options
    (Sample.loaded "sad" "tea") =
  Run (Throw (Error (lit "HTTP error! status: 500")))
    (sent (Sample.loaded "sad" "tea"))
    [EvFetch (get_request (app (Sample.loaded "sad" "tea")) (lit "/products"))
       Sample.server_error;
     EvConsoleError (lit "API request failed:") (Error (lit "HTTP error! status: 500"))].
Proof.
  apply (http_error_reports_status (Sample.scripted [Sample.server_error])
           (lit "/products") no_options (Sample.loaded "sad" "tea") 500 None).
  - reflexivity.
  - lia.
  - reflexivity.
Defined.

Lemma search_results_rendered_witness :
  exists rows,
    length rows = 2%nat /\
    document (world_of (performSearch (Sample.scripted [Sample.ok Payloads.search_envelope])
                          (Sample.loaded "sad" " tea ")))
      !! "searchResults" =
    Some (with_content (Markup (search_results_markup (lit "tea") rows))
            (Sample.element_of "")).
Proof.
  destruct (renderSearchResult (Sample.scripted [Sample.ok Payloads.search_envelope])
              (Payloads.found Sample.tea 91 "Calming")) as [tea_row | e] eqn:Htea;
    [| discriminate Htea].
  destruct (renderSearchResult (Sample.scripted [Sample.ok Payloads.search_envelope])
              (Payloads.found Sample.overrated 40 "Heavy")) as [blanket_row | e] eqn:Hblanket;
    [| discriminate Hblanket].
  destruct (search_results_rendered
              (Sample.scripted [Sample.ok Payloads.search_envelope])
              (Sample.loaded "sad" " tea ") (Sample.element_of "")
              (post_request (app (Sample.loaded "sad" " tea ")) (lit "/search")
                 (search_body (lit "tea") (lit "null")))
              200 Payloads.search_envelope
              [Payloads.found Sample.tea 91 "Calming"; Payloads.found Sample.overrated 40 "Heavy"]
              [tea_row; blanket_row])
    as (input & Hin & Hlen & Hshown & _).
  - reflexivity.
  - vm_compute. reflexivity.
  - reflexivity.
  - exists (VBool true). split; reflexivity.
  - reflexivity.
  - discriminate.
  - reflexivity.
  - repeat constructor; assumption.
  - change (document (Sample.loaded "sad" " tea ") !! "searchInput")
      with (Some (Sample.element_of " tea ")) in Hin.
    injection Hin as <-.
    exists [tea_row; blanket_row]. split; [reflexivity | exact Hshown].
Defined.

Lemma modal_shows_first_three_similar_witness :
  renderModalBody (Sample.scripted []) Sample.tea (VArr Payloads.similar_list) =
  renderModalBody (Sample.scripted []) Sample.tea
    (VArr [Payloads.alike Sample.candle 80; Payloads.alike Sample.tea 70;
           Payloads.alike Sample.candle 60]).
Proof.
  apply (modal_shows_first_three_similar (Sample.scripted []) Sample.tea Payloads.similar_list).
  reflexivity.
Defined.

Lemma emotion_tags_are_a_list_or_nothing_witness :
  renderEmotionIndicators (or_else (VStr []) (VArr [])) = Ok [] /\
  renderEmotionIndicators (or_else (VArr [VStr (lit "calm"); VNum (number_of_Z 7)]) (VArr [])) =
    Ok (concat [emotion_badge (lit "calm"); emotion_badge (lit "7")]) /\
  renderEmotionIndicators
    (or_else (VArr [VStr (lit "calm"); VObj [(lit "toString", VNum (number_of_Z 0))]])
       (VArr [])) = Throw TypeError /\
  renderEmotionIndicators (or_else (VStr (lit "calm")) (VArr [])) = Throw TypeError.
Proof.
  split; [| split; [| split]].
  - apply (proj1 (emotion_tags_are_a_list_or_nothing (VStr []))). reflexivity.
  - apply (proj1 (proj2 (emotion_tags_are_a_list_or_nothing
                           (VArr [VStr (lit "calm"); VNum (number_of_Z 7)])))
             [VStr (lit "calm"); VNum (number_of_Z 7)] [lit "calm"; lit "7"]).
    + reflexivity.
    + repeat constructor.
  - apply (proj1 (proj2 (proj2 (emotion_tags_are_a_list_or_nothing
                                  (VArr [VStr (lit "calm");
                                         VObj [(lit "toString", VNum (number_of_Z 0))]]))))
             [VStr (lit "calm"); VObj [(lit "toString", VNum (number_of_Z 0))]]).
    + reflexivity.
    + apply Exists_cons_tl, Exists_cons_hd. reflexivity.
  - apply (proj2 (proj2 (proj2 (emotion_tags_are_a_list_or_nothing (VStr (lit "calm")))))).
    + reflexivity.
    + discriminate.
Defined.

Lemma failed_first_request_alerts_once_witness :
  count is_alert
    (events_of (analyzeMoodAndRecommend (Sample.scripted []) (Sample.loaded "sad" "tea")))
    = 1%nat /\
  count is_alert
    (events_of (performSearch (Sample.scripted []) (Sample.loaded "sad" "tea"))) = 1%nat.
Proof.
  split.
  - destruct (proj1 failed_first_request_alerts_once (Sample.scripted [])
                (Sample.loaded "sad" "tea")
                (post_request (app (Sample.loaded "sad" "tea")) (lit "/analyze-sentiment")
                   (analyze_body (lit "sad")))
                (FetchRejected (FetchFailure (lit "Failed to fetch")))
                (FetchFailure (lit "Failed to fetch")))
      as (_ & Hev & _).
    + vm_compute. reflexivity.
    + reflexivity.
    + rewrite Hev. reflexivity.
  - destruct (proj2 failed_first_request_alerts_once (Sample.scripted [])
                (Sample.loaded "sad" "tea")
                (post_request (app (Sample.loaded "sad" "tea")) (lit "/search")
                   (search_body (lit "tea") (lit "null")))
                (FetchRejected (FetchFailure (lit "Failed to fetch")))
                (FetchFailure (lit "Failed to fetch")))
      as (_ & Hev & _).
    + vm_compute. reflexivity.
    + reflexivity.
    + rewrite Hev. reflexivity.
Defined.

Lemma similar_card_truncates_description_witness :
  (exists before after,
      renderSimilarCard (Sample.scripted []) (Payloads.alike Sample.candle 80) =
      Ok (before ++
          lit "</h6>
                                            <p class=`card-text small`>" ++
          firstn 100 (lit "Lavender and cedar") ++
          lit "...</p>
                                            <div class=`d-flex justify-content-between align-items-center`>
                                                <strong class=`text-success`>$" ++
          after)) /\
  renderSimilarCard (Sample.scripted [])
    (Payloads.alike (VObj [(lit "name", VStr (lit "Mug"))]) 50) = Throw TypeError.
Proof.
  split.
  - destruct (proj2 (proj2 (similar_card_truncates_description (Sample.scripted [])
                              (Payloads.alike Sample.candle 80) Sample.candle
                              (VStr (lit "Lavender and cedar")) eq_refl eq_refl))
                (lit "Lavender and cedar") eq_refl) as [card Hcard].
    + unfold similar_keys. repeat constructor; eexists; split; reflexivity.
    + eexists. split; reflexivity.
    + destruct (proj1 (similar_card_truncates_description (Sample.scripted [])
                         (Payloads.alike Sample.candle 80) Sample.candle
                         (VStr (lit "Lavender and cedar")) eq_refl eq_refl) card Hcard)
        as (s & before & after & Hs & Heq).
      injection Hs as <-. exists before, after. rewrite Hcard, Heq. reflexivity.
  - apply (proj1 (proj2 (similar_card_truncates_description (Sample.scripted [])
                           (Payloads.alike (VObj [(lit "name", VStr (lit "Mug"))]) 50)
                           (VObj [(lit "name", VStr (lit "Mug"))]) VUndefined
                           eq_refl eq_refl))).
    discriminate.
Defined.
